(** * AudioClient: a shallow embedding of the client audio pipeline

    The definitions below follow [libraries/audio-client/src/AudioClient.cpp]:
    format negotiation, channel conversion, destination sample counts, the
    input-processing loop (clip timer, outgoing sequence number), the output
    device read, starve detection, and the device switches with their
    resampler contexts.

    Conventions.
    - C++ [int], [qint64], [quint16], [quint64] and [int16_t] values are
      integers in [Z]; every narrowing or overflow is written out with the
      wrap functions of [Module MachineInt].
    - C++ [float] values are binary32 numbers of the Standard Library's
      [SpecFloat] (precision 24, exponent bound 128).
    - Sample arrays are lists indexed with stdpp's lookup; an access outside
      the array is undefined in C++ and is [None] here.
    - Constants declared in headers that are not among the sources at hand
      ([AudioConstants.h], [AudioClient.h]) are the fields of the record
      [AudioConstants], a parameter of the definitions that use them. *)

From Stdlib Require Import ZArith Lia Bool.
From Stdlib Require Import Floats.SpecFloat.
From stdpp Require Import base option list.

Local Open Scope Z_scope.

(** ** Machine integers *)

Module MachineInt.

(** Value of an integer after conversion to an unsigned [w]-bit type. *)
Definition wrap_unsigned (w : Z) (z : Z) : Z := z mod 2 ^ w.

(** Value of an integer after conversion to a signed [w]-bit type
    (two's complement). *)
Definition wrap_signed (w : Z) (z : Z) : Z :=
  (z + 2 ^ (w - 1)) mod 2 ^ w - 2 ^ (w - 1).

Definition to_quint16 : Z -> Z := wrap_unsigned 16.
Definition to_quint64 : Z -> Z := wrap_unsigned 64.
Definition to_uint : Z -> Z := wrap_unsigned 32.
Definition to_int16 : Z -> Z := wrap_signed 16.
Definition to_int : Z -> Z := wrap_signed 32.

Definition INT16_MIN : Z := -32768.
Definition INT16_MAX : Z := 32767.
Definition INT_MAX : Z := 2147483647.
Definition INT_MIN : Z := -2147483648.

Definition is_int16 (z : Z) : Prop := INT16_MIN <= z <= INT16_MAX.
Definition is_int (z : Z) : Prop := INT_MIN <= z <= INT_MAX.

(** C++ integer division truncates toward zero. *)
Definition cdiv (a b : Z) : Z := Z.quot a b.

End MachineInt.
Import MachineInt.

(** ** Audio formats ([QAudioFormat]) *)

Inductive SampleType := Unknown | SignedInt | UnSignedInt | Float.
Inductive Endian := BigEndian | LittleEndian.

Record QAudioFormat := mkFormat {
  sampleRate : Z;
  channelCount : Z;
  sampleSize : Z;
  codec : nat;
  byteOrder : Endian;
  sampleType : SampleType
}.

#[global] Instance SampleType_eq_dec : EqDecision SampleType.
Proof. solve_decision. Defined.
#[global] Instance Endian_eq_dec : EqDecision Endian.
Proof. solve_decision. Defined.
#[global] Instance QAudioFormat_eq_dec : EqDecision QAudioFormat.
Proof. solve_decision. Defined.

Definition setSampleRate (r : Z) (f : QAudioFormat) : QAudioFormat :=
  mkFormat r (channelCount f) (sampleSize f) (codec f) (byteOrder f) (sampleType f).
Definition setChannelCount (c : Z) (f : QAudioFormat) : QAudioFormat :=
  mkFormat (sampleRate f) c (sampleSize f) (codec f) (byteOrder f) (sampleType f).

(** ** Channel conversion ([sampleChannelConversion]) *)

Module ChannelConversion.

(** The stereo-to-mono loop,
    [for (uint i = 0; i < numSourceSamples; i += 2)
       destinationSamples[i / 2] = (sourceSamples[i] / 2) + (sourceSamples[i + 1] / 2);]
    run for [iters] iterations from index [i].  The operands are promoted to
    [int], divided, added, and the sum is stored as [int16_t]. *)
Fixpoint stereoToMonoLoop (iters : nat) (i : nat) (sourceSamples destinationSamples : list Z)
  : option (list Z) :=
  match iters with
  | O => Some destinationSamples
  | S iters' =>
      a ← sourceSamples !! i;
      b ← sourceSamples !! (i + 1)%nat;
      if decide (i `div` 2 < length destinationSamples)%nat then
        stereoToMonoLoop iters' (i + 2)%nat sourceSamples
          (<[(i `div` 2)%nat := to_int16 (cdiv a 2 + cdiv b 2)]> destinationSamples)
      else None
  end.

(** The mono-to-stereo loop,
    [for (uint i = 0; i < numSourceSamples; ++i)
       destinationSamples[i * 2] = destinationSamples[(i * 2) + 1] = sourceSamples[i];] *)
Fixpoint monoToStereoLoop (iters : nat) (i : nat) (sourceSamples destinationSamples : list Z)
  : option (list Z) :=
  match iters with
  | O => Some destinationSamples
  | S iters' =>
      s ← sourceSamples !! i;
      if decide (i * 2 + 1 < length destinationSamples)%nat then
        monoToStereoLoop iters' (i + 1)%nat sourceSamples
          (<[(i * 2)%nat := s]> (<[(i * 2 + 1)%nat := s]> destinationSamples))
      else None
  end.

(** [sampleChannelConversion]: the returned flag says whether a conversion
    took place; the list is the destination array afterwards. *)
Definition sampleChannelConversion
    (sourceSamples destinationSamples : list Z) (numSourceSamples : nat)
    (sourceAudioFormat destinationAudioFormat : QAudioFormat)
  : option (bool * list Z) :=
  if decide (channelCount sourceAudioFormat = 2 /\ channelCount destinationAudioFormat = 1) then
    d ← stereoToMonoLoop ((numSourceSamples + 1) `div` 2)%nat 0%nat sourceSamples destinationSamples;
    Some (true, d)
  else if decide (channelCount sourceAudioFormat = 1 /\ channelCount destinationAudioFormat = 2) then
    d ← monoToStereoLoop numSourceSamples 0%nat sourceSamples destinationSamples;
    Some (true, d)
  else Some (false, destinationSamples).

End ChannelConversion.

(** ** Single-precision floating point ([float]) *)

Module Float32.

Definition float := spec_float.

Definition prec : Z := 24.
Definition emax : Z := 128.

Definition zero : float := S754_zero false.
(** [0.5f] *)
Definition half : float := S754_finite false 8388608 (-24).
(** [-1.0f] *)
Definition minus_one : float := S754_finite true 8388608 (-23).

(** Conversion of an integer to [float] (round to nearest, ties to even). *)
Definition of_int (z : Z) : float := binary_normalize prec emax z 0 false.

Definition add : float -> float -> float := SFadd prec emax.
Definition mul : float -> float -> float := SFmul prec emax.
Definition div : float -> float -> float := SFdiv prec emax.
Definition abs : float -> float := SFabs.
Definition eqb : float -> float -> bool := SFeqb.
Definition ltb : float -> float -> bool := SFltb.
Definition leb : float -> float -> bool := SFleb.

(** The integer part of a finite float, truncated toward zero. *)
Definition truncate (f : float) : option Z :=
  match f with
  | S754_zero _ => Some 0
  | S754_finite s m e =>
      let a := match e with
               | Z0 => Zpos m
               | Zpos p => Zpos m * 2 ^ Zpos p
               | Zneg p => Zpos m / 2 ^ Zpos p
               end in
      Some (if s then - a else a)
  | _ => None
  end.

(** Conversion of a [float] to [int]: truncation toward zero.  A value
    outside the range of [int] (or an infinity or NaN) is undefined in C++;
    the model returns [INT_MIN], as the x86 conversion instruction does. *)
Definition to_int (f : float) : Z :=
  match truncate f with
  | Some z => if decide (INT_MIN <= z <= INT_MAX) then z else INT_MIN
  | None => INT_MIN
  end.

(** [x >= 0.0f] *)
Definition nonneg (x : float) : bool := leb zero x.

End Float32.

(** ** Constants of [AudioConstants.h] and [AudioClient.h] *)

Record AudioConstants := {
  SAMPLE_RATE : Z;
  NETWORK_FRAME_BYTES_STEREO : Z;
  NETWORK_FRAME_SAMPLES_STEREO : Z;
  NETWORK_FRAME_BYTES_PER_CHANNEL : Z;
  NETWORK_FRAME_SAMPLES_PER_CHANNEL : Z;
  MAX_SAMPLE_VALUE : Z;
  MIN_SAMPLE_VALUE : Z;
  CLIPPING_THRESHOLD : Float32.float;
  CALLBACK_ACCELERATOR_RATIO : Float32.float;
  MIN_AUDIO_OUTPUT_BUFFER_SIZE_FRAMES : Z;
  MAX_AUDIO_OUTPUT_BUFFER_SIZE_FRAMES : Z
}.

(** ** Destination sample counts *)

Module SampleCount.

(** [numDestinationSamplesRequired]:
    [float ratio = (float) dst.channelCount() / src.channelCount();
     ratio *= (float) dst.sampleRate() / src.sampleRate();
     return (numSourceSamples * ratio) + 0.5f;] *)
Definition numDestinationSamplesRequired
    (sourceFormat destinationFormat : QAudioFormat) (numSourceSamples : Z) : Z :=
  let ratio := Float32.div (Float32.of_int (channelCount destinationFormat))
                           (Float32.of_int (channelCount sourceFormat)) in
  let ratio := Float32.mul ratio
                 (Float32.div (Float32.of_int (sampleRate destinationFormat))
                              (Float32.of_int (sampleRate sourceFormat))) in
  Float32.to_int (Float32.add (Float32.mul (Float32.of_int numSourceSamples) ratio) Float32.half).

(** The count computed by [AudioClient::processReceivedSamples]:
    [numNetworkOutputSamples * (_outputFormat.sampleRate() * _outputFormat.channelCount())
       / (_desiredOutputFormat.sampleRate() * _desiredOutputFormat.channelCount())],
    all in [int]. *)
Definition numDeviceOutputSamples
    (desiredOutputFormat outputFormat : QAudioFormat) (numNetworkOutputSamples : Z) : Z :=
  to_int (cdiv
    (to_int (numNetworkOutputSamples
             * to_int (sampleRate outputFormat * channelCount outputFormat)))
    (to_int (sampleRate desiredOutputFormat * channelCount desiredOutputFormat))).

(** The mathematical value the specification names: the real number
    [n * (dstRate / srcRate) * (dstChannels / srcChannels)] rounded to the
    nearest integer, halves upward (all quantities are positive). *)
Definition specRoundedCount (sourceFormat destinationFormat : QAudioFormat) (n : Z) : Z :=
  (2 * n * (sampleRate destinationFormat * channelCount destinationFormat)
   + sampleRate sourceFormat * channelCount sourceFormat)
  / (2 * (sampleRate sourceFormat * channelCount sourceFormat)).

(** The sample rates the source names: half of 44.1 kHz, the network
    rate of the comments, 44.1 kHz and twice the network rate. *)
Definition namedRates : list Z := [22050; 24000; 44100; 48000].

(** A 16-bit PCM format. *)
Definition plainFormat (rate channels : Z) : QAudioFormat :=
  mkFormat rate channels 16 1%nat LittleEndian SignedInt.

(** Whether [numDestinationSamplesRequired] is a count below [2^30] that
    is the rounded count. *)
Definition isRoundedCount (sourceFormat destinationFormat : QAudioFormat) (n : Z) : bool :=
  let count := numDestinationSamplesRequired sourceFormat destinationFormat n in
  (0 <=? count) && (count <? 2 ^ 30)
  && (count =? specRoundedCount sourceFormat destinationFormat n).

(** The same for every pair of mono or stereo formats at the named rates
    and every count from 1 to [limit]. *)
Definition isRoundedCountUpTo (limit : nat) : bool :=
  forallb (fun sr => forallb (fun sc => forallb (fun dr => forallb (fun dc =>
    forallb (fun k => isRoundedCount (plainFormat sr sc) (plainFormat dr dc) (Z.of_nat (S k)))
      (seq 0 limit)) [1; 2]) namedRates) [1; 2]) namedRates.

End SampleCount.

(** ** Format negotiation ([adjustedFormatForAudioDevice]) *)

(** What the code asks of a [QAudioDeviceInfo]. *)
Record QAudioDeviceInfo := {
  isNull : bool;
  deviceName : nat;
  isFormatSupported : QAudioFormat -> bool;
  supportedSampleRates : list Z;
  nearestFormat : QAudioFormat -> QAudioFormat;
  (** whether [QAudioInput::start] on this device yields an I/O device *)
  inputStarts : bool
}.

Module FormatNegotiation.
Section WithConstants.
Variable K : AudioConstants.

Definition FORTY_FOUR : Z := 44100.
Definition HALF_FORTY_FOUR : Z := cdiv FORTY_FOUR 2.

(** The sample-rate preference applied to the desired format (the branch
    compiled when [Q_OS_ANDROID] is not defined). *)
Definition preferredSampleRate (audioDevice : QAudioDeviceInfo)
    (adjustedAudioFormat : QAudioFormat) : QAudioFormat :=
  if decide (to_int (SAMPLE_RATE K * 2) ∈ supportedSampleRates audioDevice) then
    setSampleRate (to_int (SAMPLE_RATE K * 2)) adjustedAudioFormat
  else if decide (HALF_FORTY_FOUR ∈ supportedSampleRates audioDevice) then
    setSampleRate HALF_FORTY_FOUR adjustedAudioFormat
  else if decide (FORTY_FOUR ∈ supportedSampleRates audioDevice) then
    setSampleRate FORTY_FOUR adjustedAudioFormat
  else adjustedAudioFormat.

(** [adjustedFormatForAudioDevice]: the result is the returned flag and the
    value left in the out-parameter [adjustedAudioFormat]. *)
Definition adjustedFormatForAudioDevice (audioDevice : QAudioDeviceInfo)
    (desiredAudioFormat adjustedAudioFormat : QAudioFormat) : bool * QAudioFormat :=
  if negb (isFormatSupported audioDevice desiredAudioFormat) then
    (* the mono branch either returns early ([inl]) or falls through ([inr]) *)
    let monoAttempt : QAudioFormat + QAudioFormat :=
      if decide (channelCount desiredAudioFormat = 1) then
        let adjustedAudioFormat := setChannelCount 2 desiredAudioFormat in
        if isFormatSupported audioDevice adjustedAudioFormat
        then inl adjustedAudioFormat
        else inr (setChannelCount 1 adjustedAudioFormat)
      else inr adjustedAudioFormat in
    match monoAttempt with
    | inl adjustedAudioFormat => (true, adjustedAudioFormat)
    | inr _ =>
        let adjustedAudioFormat := desiredAudioFormat in
        let adjustedAudioFormat := preferredSampleRate audioDevice adjustedAudioFormat in
        if decide (adjustedAudioFormat <> desiredAudioFormat) then
          (true, nearestFormat audioDevice adjustedAudioFormat)
        else (false, adjustedAudioFormat)
    end
  else (true, desiredAudioFormat).

End WithConstants.
End FormatNegotiation.

(** ** The resampling engine (libsoxr) and [possibleResampling] *)

(** A resampler context; the rates it was created for are recorded. *)
Record soxr_t := {
  soxr_input_rate : Z;
  soxr_output_rate : Z
}.

#[global] Instance soxr_t_eq_dec : EqDecision soxr_t.
Proof. solve_decision. Defined.

(** The engine itself is external: whether [soxr_create] reports an error for
    a pair of rates, and the samples [soxr_process] delivers for a context, an
    input block and a requested output length. *)
Record SoxrEngine := {
  soxr_create_error : Z -> Z -> bool;
  soxr_process : soxr_t -> list Z -> nat -> list Z
}.

Module Resampler.
Section WithEngine.
Variable E : SoxrEngine.

(** [soxrResamplerFromInputFormatToOutputFormat]: [None] is the [NULL]
    returned when the engine reports an error. *)
Definition soxrResamplerFromInputFormatToOutputFormat
    (sourceAudioFormat destinationAudioFormat : QAudioFormat) : option soxr_t :=
  if soxr_create_error E (sampleRate sourceAudioFormat) (sampleRate destinationAudioFormat)
  then None
  else Some {| soxr_input_rate := sampleRate sourceAudioFormat;
               soxr_output_rate := sampleRate destinationAudioFormat |}.

(** [memcpy(destinationSamples, sourceSamples, n * sizeof(int16_t))] *)
Definition memcpySamples (destinationSamples sourceSamples : list Z) (n : nat)
  : option (list Z) :=
  if decide (n <= length sourceSamples /\ n <= length destinationSamples)%nat
  then Some (take n sourceSamples ++ drop n destinationSamples)
  else None.

(** [soxr_process(resampler, in, ilen, NULL, out, olen, NULL)]: at most
    [olen] samples are written at the start of [out]. *)
Definition soxrProcessInto (resampler : soxr_t) (input : list Z) (ilen : nat)
    (out : list Z) (olen : nat) : option (list Z) :=
  if decide (ilen <= length input /\ olen <= length out)%nat then
    let produced := take olen (soxr_process E resampler (take ilen input) olen) in
    Some (produced ++ drop (length produced) out)
  else None.

(** [possibleResampling]; the result is the destination array afterwards.
    The counts are the [unsigned int] parameters. *)
Definition possibleResampling (resampler : option soxr_t)
    (sourceSamples destinationSamples : list Z)
    (numSourceSamples numDestinationSamples : Z)
    (sourceAudioFormat destinationAudioFormat : QAudioFormat) : option (list Z) :=
  if decide (numSourceSamples > 0) then
    match resampler with
    | None =>
        '(converted, converted_samples) ←
          ChannelConversion.sampleChannelConversion sourceSamples destinationSamples
            (Z.to_nat numSourceSamples) sourceAudioFormat destinationAudioFormat;
        if converted : bool then Some converted_samples
        else memcpySamples destinationSamples sourceSamples (Z.to_nat numSourceSamples)
    | Some ctx =>
        if decide (channelCount sourceAudioFormat <> channelCount destinationAudioFormat) then
          let channelCountRatio :=
            Float32.div (Float32.of_int (channelCount destinationAudioFormat))
                        (Float32.of_int (channelCount sourceAudioFormat)) in
          let numChannelCoversionSamples :=
            Float32.to_int (Float32.mul (Float32.of_int numSourceSamples) channelCountRatio) in
          let channelConversionSamples := replicate (Z.to_nat numChannelCoversionSamples) 0 in
          '(_, channelConversionSamples) ←
            ChannelConversion.sampleChannelConversion sourceSamples channelConversionSamples
              (Z.to_nat numSourceSamples) sourceAudioFormat destinationAudioFormat;
          soxrProcessInto ctx channelConversionSamples (Z.to_nat numChannelCoversionSamples)
            destinationSamples (Z.to_nat numDestinationSamples)
        else
          soxrProcessInto ctx sourceSamples (Z.to_nat numSourceSamples)
            destinationSamples (Z.to_nat numDestinationSamples)
    end
  else Some destinationSamples.

End WithEngine.
End Resampler.

(** ** The client state *)

Inductive PacketType :=
  | PacketTypeSilentAudioFrame
  | PacketTypeMicrophoneAudioWithEcho
  | PacketTypeMicrophoneAudioNoEcho.

#[global] Instance PacketType_eq_dec : EqDecision PacketType.
Proof. solve_decision. Defined.

Definition vec3 : Type := Float32.float * Float32.float * Float32.float.
Definition quat : Type := Float32.float * Float32.float * Float32.float * Float32.float.

(** The fields packed by [handleAudioInput] after the transport header. *)
Record Packet := {
  pkt_type : PacketType;
  pkt_sequenceNumber : Z;
  pkt_numSilentSamples : option Z;
  pkt_isStereo : option Z;
  pkt_headPosition : vec3;
  pkt_headOrientation : quat;
  pkt_samples : list Z
}.

(** The received stream (jitter buffer), as far as the client reads it: the
    reverb flag, the iterator left by the last pop (the ring wraps, so every
    offset holds a sample), and the rest of its state. *)
Record MixedProcessedAudioStream := {
  hasReverb : bool;
  getLastPopOutput : nat -> Z;
  streamInternal : nat
}.

(** Collaborators outside [AudioClient.cpp]. *)
Record Collaborators := {
  engine : SoxrEngine;
  (** [InboundAudioStream::popSamples(maxSamples, allOrNothing)] *)
  popSamples : MixedProcessedAudioStream -> Z -> bool -> Z * MixedProcessedAudioStream;
  (** the tone and noise generators and the post gain, on a block of samples *)
  toneSourceRender : list Z -> list Z;
  noiseSourceRender : list Z -> list Z;
  sourceGainRender : list Z -> list Z;
  (** [addReverb] with the current reverb options; the flag is [noEcho] *)
  addReverb : list Z -> bool -> list Z;
  (** whether [QAudioOutput::start] of the loopback output yields a device *)
  loopbackStarts : bool;
  (** the value found in a sample that [QByteArray::resize] adds and does
      not initialise, by the index of the sample *)
  uninitializedSample : nat -> Z
}.

(** What the surroundings supply while one network frame is processed. *)
Record FrameEnv := {
  (** [audioMixer && audioMixer->getActiveSocket()] *)
  env_mixerActive : bool;
  (** whether [writeDatagram] delivers the packet *)
  env_writeDatagramSucceeds : bool;
  (** the noise gate on this frame: its samples, loudness and clip flag *)
  env_gateSamples : list Z -> list Z;
  env_gateLastLoudness : Float32.float;
  env_gateClipped : bool;
  env_headPosition : vec3;
  env_headOrientation : quat
}.

Record AudioClient := mkAudioClient {
  (** whether the [QAudioInput] object exists *)
  _audioInput : bool;
  (** whether the input I/O device exists *)
  _inputDevice : bool;
  _desiredInputFormat : QAudioFormat;
  _inputFormat : QAudioFormat;
  _numInputCallbackBytes : Z;
  (** [0] is the empty name *)
  _inputAudioDeviceName : nat;
  (** the [QAudioOutput] object, with the buffer size it was given *)
  _audioOutput : option Z;
  _desiredOutputFormat : QAudioFormat;
  _outputFormat : QAudioFormat;
  _outputFrameSize : Z;
  _outputAudioDeviceName : nat;
  _loopbackAudioOutput : bool;
  _loopbackOutputDevice : bool;
  (** samples written and not yet read *)
  _inputRingBuffer : list Z;
  _receivedAudioStream : MixedProcessedAudioStream;
  _isStereoInput : bool;
  (** [quint64] *)
  _outputStarveDetectionStartTimeMsec : Z;
  (** [int] *)
  _outputStarveDetectionCount : Z;
  (** setting, [int] *)
  _outputBufferSizeFrames : Z;
  (** setting *)
  _outputStarveDetectionEnabled : bool;
  (** setting, [int] *)
  _outputStarveDetectionPeriodMsec : Z;
  (** setting, [int] *)
  _outputStarveDetectionThreshold : Z;
  _lastInputLoudness : Float32.float;
  _timeSinceLastClip : Float32.float;
  _muted : bool;
  _shouldEchoLocally : bool;
  _shouldEchoToServer : bool;
  _isNoiseGateEnabled : bool;
  _audioSourceInjectEnabled : bool;
  _reverb : bool;
  _inputToNetworkResampler : option soxr_t;
  _networkToOutputResampler : option soxr_t;
  _loopbackResampler : option soxr_t;
  _noiseSourceEnabled : bool;
  _toneSourceEnabled : bool;
  (** [quint16] *)
  _outgoingAvatarAudioSequenceNumber : Z;
  (** member of [AudioOutputIODevice], [int] *)
  _unfulfilledReads : Z;
  (** the static packet buffer of [handleAudioInput], from the sample offset on *)
  networkAudioSamples : list Z;
  (** every packet handed to [writeDatagram], newest first, with the outcome of the send *)
  sentDatagrams : list (Packet * bool);
  (** every block written to the loopback device, newest first *)
  loopbackWritten : list (list Z);
  (** the function-local [static QByteArray loopBackByteArray] of
      [handleLocalEchoAndReverb], as samples; it keeps its content between calls *)
  loopBackByteArray : list Z
}.

(** Field updates: [set_f v s] is [s] with field [_f] replaced by [v]. *)

Definition set_audioInput (v : bool) (s : AudioClient) : AudioClient :=
  mkAudioClient v (_inputDevice s) (_desiredInputFormat s) (_inputFormat s)
    (_numInputCallbackBytes s) (_inputAudioDeviceName s) (_audioOutput s) (_desiredOutputFormat s)
    (_outputFormat s) (_outputFrameSize s) (_outputAudioDeviceName s) (_loopbackAudioOutput s)
    (_loopbackOutputDevice s) (_inputRingBuffer s) (_receivedAudioStream s) (_isStereoInput s)
    (_outputStarveDetectionStartTimeMsec s) (_outputStarveDetectionCount s)
    (_outputBufferSizeFrames s) (_outputStarveDetectionEnabled s)
    (_outputStarveDetectionPeriodMsec s) (_outputStarveDetectionThreshold s)
    (_lastInputLoudness s) (_timeSinceLastClip s) (_muted s) (_shouldEchoLocally s)
    (_shouldEchoToServer s) (_isNoiseGateEnabled s) (_audioSourceInjectEnabled s) (_reverb s)
    (_inputToNetworkResampler s) (_networkToOutputResampler s) (_loopbackResampler s)
    (_noiseSourceEnabled s) (_toneSourceEnabled s) (_outgoingAvatarAudioSequenceNumber s)
    (_unfulfilledReads s) (networkAudioSamples s) (sentDatagrams s) (loopbackWritten s)
    (loopBackByteArray s).

Definition set_inputDevice (v : bool) (s : AudioClient) : AudioClient :=
  mkAudioClient (_audioInput s) v (_desiredInputFormat s) (_inputFormat s)
    (_numInputCallbackBytes s) (_inputAudioDeviceName s) (_audioOutput s) (_desiredOutputFormat s)
    (_outputFormat s) (_outputFrameSize s) (_outputAudioDeviceName s) (_loopbackAudioOutput s)
    (_loopbackOutputDevice s) (_inputRingBuffer s) (_receivedAudioStream s) (_isStereoInput s)
    (_outputStarveDetectionStartTimeMsec s) (_outputStarveDetectionCount s)
    (_outputBufferSizeFrames s) (_outputStarveDetectionEnabled s)
    (_outputStarveDetectionPeriodMsec s) (_outputStarveDetectionThreshold s)
    (_lastInputLoudness s) (_timeSinceLastClip s) (_muted s) (_shouldEchoLocally s)
    (_shouldEchoToServer s) (_isNoiseGateEnabled s) (_audioSourceInjectEnabled s) (_reverb s)
    (_inputToNetworkResampler s) (_networkToOutputResampler s) (_loopbackResampler s)
    (_noiseSourceEnabled s) (_toneSourceEnabled s) (_outgoingAvatarAudioSequenceNumber s)
    (_unfulfilledReads s) (networkAudioSamples s) (sentDatagrams s) (loopbackWritten s)
    (loopBackByteArray s).

Definition set_desiredInputFormat (v : QAudioFormat) (s : AudioClient) : AudioClient :=
  mkAudioClient (_audioInput s) (_inputDevice s) v (_inputFormat s) (_numInputCallbackBytes s)
    (_inputAudioDeviceName s) (_audioOutput s) (_desiredOutputFormat s) (_outputFormat s)
    (_outputFrameSize s) (_outputAudioDeviceName s) (_loopbackAudioOutput s)
    (_loopbackOutputDevice s) (_inputRingBuffer s) (_receivedAudioStream s) (_isStereoInput s)
    (_outputStarveDetectionStartTimeMsec s) (_outputStarveDetectionCount s)
    (_outputBufferSizeFrames s) (_outputStarveDetectionEnabled s)
    (_outputStarveDetectionPeriodMsec s) (_outputStarveDetectionThreshold s)
    (_lastInputLoudness s) (_timeSinceLastClip s) (_muted s) (_shouldEchoLocally s)
    (_shouldEchoToServer s) (_isNoiseGateEnabled s) (_audioSourceInjectEnabled s) (_reverb s)
    (_inputToNetworkResampler s) (_networkToOutputResampler s) (_loopbackResampler s)
    (_noiseSourceEnabled s) (_toneSourceEnabled s) (_outgoingAvatarAudioSequenceNumber s)
    (_unfulfilledReads s) (networkAudioSamples s) (sentDatagrams s) (loopbackWritten s)
    (loopBackByteArray s).

Definition set_inputFormat (v : QAudioFormat) (s : AudioClient) : AudioClient :=
  mkAudioClient (_audioInput s) (_inputDevice s) (_desiredInputFormat s) v
    (_numInputCallbackBytes s) (_inputAudioDeviceName s) (_audioOutput s) (_desiredOutputFormat s)
    (_outputFormat s) (_outputFrameSize s) (_outputAudioDeviceName s) (_loopbackAudioOutput s)
    (_loopbackOutputDevice s) (_inputRingBuffer s) (_receivedAudioStream s) (_isStereoInput s)
    (_outputStarveDetectionStartTimeMsec s) (_outputStarveDetectionCount s)
    (_outputBufferSizeFrames s) (_outputStarveDetectionEnabled s)
    (_outputStarveDetectionPeriodMsec s) (_outputStarveDetectionThreshold s)
    (_lastInputLoudness s) (_timeSinceLastClip s) (_muted s) (_shouldEchoLocally s)
    (_shouldEchoToServer s) (_isNoiseGateEnabled s) (_audioSourceInjectEnabled s) (_reverb s)
    (_inputToNetworkResampler s) (_networkToOutputResampler s) (_loopbackResampler s)
    (_noiseSourceEnabled s) (_toneSourceEnabled s) (_outgoingAvatarAudioSequenceNumber s)
    (_unfulfilledReads s) (networkAudioSamples s) (sentDatagrams s) (loopbackWritten s)
    (loopBackByteArray s).

Definition set_numInputCallbackBytes (v : Z) (s : AudioClient) : AudioClient :=
  mkAudioClient (_audioInput s) (_inputDevice s) (_desiredInputFormat s) (_inputFormat s) v
    (_inputAudioDeviceName s) (_audioOutput s) (_desiredOutputFormat s) (_outputFormat s)
    (_outputFrameSize s) (_outputAudioDeviceName s) (_loopbackAudioOutput s)
    (_loopbackOutputDevice s) (_inputRingBuffer s) (_receivedAudioStream s) (_isStereoInput s)
    (_outputStarveDetectionStartTimeMsec s) (_outputStarveDetectionCount s)
    (_outputBufferSizeFrames s) (_outputStarveDetectionEnabled s)
    (_outputStarveDetectionPeriodMsec s) (_outputStarveDetectionThreshold s)
    (_lastInputLoudness s) (_timeSinceLastClip s) (_muted s) (_shouldEchoLocally s)
    (_shouldEchoToServer s) (_isNoiseGateEnabled s) (_audioSourceInjectEnabled s) (_reverb s)
    (_inputToNetworkResampler s) (_networkToOutputResampler s) (_loopbackResampler s)
    (_noiseSourceEnabled s) (_toneSourceEnabled s) (_outgoingAvatarAudioSequenceNumber s)
    (_unfulfilledReads s) (networkAudioSamples s) (sentDatagrams s) (loopbackWritten s)
    (loopBackByteArray s).

Definition set_inputAudioDeviceName (v : nat) (s : AudioClient) : AudioClient :=
  mkAudioClient (_audioInput s) (_inputDevice s) (_desiredInputFormat s) (_inputFormat s)
    (_numInputCallbackBytes s) v (_audioOutput s) (_desiredOutputFormat s) (_outputFormat s)
    (_outputFrameSize s) (_outputAudioDeviceName s) (_loopbackAudioOutput s)
    (_loopbackOutputDevice s) (_inputRingBuffer s) (_receivedAudioStream s) (_isStereoInput s)
    (_outputStarveDetectionStartTimeMsec s) (_outputStarveDetectionCount s)
    (_outputBufferSizeFrames s) (_outputStarveDetectionEnabled s)
    (_outputStarveDetectionPeriodMsec s) (_outputStarveDetectionThreshold s)
    (_lastInputLoudness s) (_timeSinceLastClip s) (_muted s) (_shouldEchoLocally s)
    (_shouldEchoToServer s) (_isNoiseGateEnabled s) (_audioSourceInjectEnabled s) (_reverb s)
    (_inputToNetworkResampler s) (_networkToOutputResampler s) (_loopbackResampler s)
    (_noiseSourceEnabled s) (_toneSourceEnabled s) (_outgoingAvatarAudioSequenceNumber s)
    (_unfulfilledReads s) (networkAudioSamples s) (sentDatagrams s) (loopbackWritten s)
    (loopBackByteArray s).

Definition set_audioOutput (v : option Z) (s : AudioClient) : AudioClient :=
  mkAudioClient (_audioInput s) (_inputDevice s) (_desiredInputFormat s) (_inputFormat s)
    (_numInputCallbackBytes s) (_inputAudioDeviceName s) v (_desiredOutputFormat s)
    (_outputFormat s) (_outputFrameSize s) (_outputAudioDeviceName s) (_loopbackAudioOutput s)
    (_loopbackOutputDevice s) (_inputRingBuffer s) (_receivedAudioStream s) (_isStereoInput s)
    (_outputStarveDetectionStartTimeMsec s) (_outputStarveDetectionCount s)
    (_outputBufferSizeFrames s) (_outputStarveDetectionEnabled s)
    (_outputStarveDetectionPeriodMsec s) (_outputStarveDetectionThreshold s)
    (_lastInputLoudness s) (_timeSinceLastClip s) (_muted s) (_shouldEchoLocally s)
    (_shouldEchoToServer s) (_isNoiseGateEnabled s) (_audioSourceInjectEnabled s) (_reverb s)
    (_inputToNetworkResampler s) (_networkToOutputResampler s) (_loopbackResampler s)
    (_noiseSourceEnabled s) (_toneSourceEnabled s) (_outgoingAvatarAudioSequenceNumber s)
    (_unfulfilledReads s) (networkAudioSamples s) (sentDatagrams s) (loopbackWritten s)
    (loopBackByteArray s).

Definition set_desiredOutputFormat (v : QAudioFormat) (s : AudioClient) : AudioClient :=
  mkAudioClient (_audioInput s) (_inputDevice s) (_desiredInputFormat s) (_inputFormat s)
    (_numInputCallbackBytes s) (_inputAudioDeviceName s) (_audioOutput s) v (_outputFormat s)
    (_outputFrameSize s) (_outputAudioDeviceName s) (_loopbackAudioOutput s)
    (_loopbackOutputDevice s) (_inputRingBuffer s) (_receivedAudioStream s) (_isStereoInput s)
    (_outputStarveDetectionStartTimeMsec s) (_outputStarveDetectionCount s)
    (_outputBufferSizeFrames s) (_outputStarveDetectionEnabled s)
    (_outputStarveDetectionPeriodMsec s) (_outputStarveDetectionThreshold s)
    (_lastInputLoudness s) (_timeSinceLastClip s) (_muted s) (_shouldEchoLocally s)
    (_shouldEchoToServer s) (_isNoiseGateEnabled s) (_audioSourceInjectEnabled s) (_reverb s)
    (_inputToNetworkResampler s) (_networkToOutputResampler s) (_loopbackResampler s)
    (_noiseSourceEnabled s) (_toneSourceEnabled s) (_outgoingAvatarAudioSequenceNumber s)
    (_unfulfilledReads s) (networkAudioSamples s) (sentDatagrams s) (loopbackWritten s)
    (loopBackByteArray s).

Definition set_outputFormat (v : QAudioFormat) (s : AudioClient) : AudioClient :=
  mkAudioClient (_audioInput s) (_inputDevice s) (_desiredInputFormat s) (_inputFormat s)
    (_numInputCallbackBytes s) (_inputAudioDeviceName s) (_audioOutput s) (_desiredOutputFormat s)
    v (_outputFrameSize s) (_outputAudioDeviceName s) (_loopbackAudioOutput s)
    (_loopbackOutputDevice s) (_inputRingBuffer s) (_receivedAudioStream s) (_isStereoInput s)
    (_outputStarveDetectionStartTimeMsec s) (_outputStarveDetectionCount s)
    (_outputBufferSizeFrames s) (_outputStarveDetectionEnabled s)
    (_outputStarveDetectionPeriodMsec s) (_outputStarveDetectionThreshold s)
    (_lastInputLoudness s) (_timeSinceLastClip s) (_muted s) (_shouldEchoLocally s)
    (_shouldEchoToServer s) (_isNoiseGateEnabled s) (_audioSourceInjectEnabled s) (_reverb s)
    (_inputToNetworkResampler s) (_networkToOutputResampler s) (_loopbackResampler s)
    (_noiseSourceEnabled s) (_toneSourceEnabled s) (_outgoingAvatarAudioSequenceNumber s)
    (_unfulfilledReads s) (networkAudioSamples s) (sentDatagrams s) (loopbackWritten s)
    (loopBackByteArray s).

Definition set_outputFrameSize (v : Z) (s : AudioClient) : AudioClient :=
  mkAudioClient (_audioInput s) (_inputDevice s) (_desiredInputFormat s) (_inputFormat s)
    (_numInputCallbackBytes s) (_inputAudioDeviceName s) (_audioOutput s) (_desiredOutputFormat s)
    (_outputFormat s) v (_outputAudioDeviceName s) (_loopbackAudioOutput s)
    (_loopbackOutputDevice s) (_inputRingBuffer s) (_receivedAudioStream s) (_isStereoInput s)
    (_outputStarveDetectionStartTimeMsec s) (_outputStarveDetectionCount s)
    (_outputBufferSizeFrames s) (_outputStarveDetectionEnabled s)
    (_outputStarveDetectionPeriodMsec s) (_outputStarveDetectionThreshold s)
    (_lastInputLoudness s) (_timeSinceLastClip s) (_muted s) (_shouldEchoLocally s)
    (_shouldEchoToServer s) (_isNoiseGateEnabled s) (_audioSourceInjectEnabled s) (_reverb s)
    (_inputToNetworkResampler s) (_networkToOutputResampler s) (_loopbackResampler s)
    (_noiseSourceEnabled s) (_toneSourceEnabled s) (_outgoingAvatarAudioSequenceNumber s)
    (_unfulfilledReads s) (networkAudioSamples s) (sentDatagrams s) (loopbackWritten s)
    (loopBackByteArray s).

Definition set_outputAudioDeviceName (v : nat) (s : AudioClient) : AudioClient :=
  mkAudioClient (_audioInput s) (_inputDevice s) (_desiredInputFormat s) (_inputFormat s)
    (_numInputCallbackBytes s) (_inputAudioDeviceName s) (_audioOutput s) (_desiredOutputFormat s)
    (_outputFormat s) (_outputFrameSize s) v (_loopbackAudioOutput s) (_loopbackOutputDevice s)
    (_inputRingBuffer s) (_receivedAudioStream s) (_isStereoInput s)
    (_outputStarveDetectionStartTimeMsec s) (_outputStarveDetectionCount s)
    (_outputBufferSizeFrames s) (_outputStarveDetectionEnabled s)
    (_outputStarveDetectionPeriodMsec s) (_outputStarveDetectionThreshold s)
    (_lastInputLoudness s) (_timeSinceLastClip s) (_muted s) (_shouldEchoLocally s)
    (_shouldEchoToServer s) (_isNoiseGateEnabled s) (_audioSourceInjectEnabled s) (_reverb s)
    (_inputToNetworkResampler s) (_networkToOutputResampler s) (_loopbackResampler s)
    (_noiseSourceEnabled s) (_toneSourceEnabled s) (_outgoingAvatarAudioSequenceNumber s)
    (_unfulfilledReads s) (networkAudioSamples s) (sentDatagrams s) (loopbackWritten s)
    (loopBackByteArray s).

Definition set_loopbackAudioOutput (v : bool) (s : AudioClient) : AudioClient :=
  mkAudioClient (_audioInput s) (_inputDevice s) (_desiredInputFormat s) (_inputFormat s)
    (_numInputCallbackBytes s) (_inputAudioDeviceName s) (_audioOutput s) (_desiredOutputFormat s)
    (_outputFormat s) (_outputFrameSize s) (_outputAudioDeviceName s) v (_loopbackOutputDevice s)
    (_inputRingBuffer s) (_receivedAudioStream s) (_isStereoInput s)
    (_outputStarveDetectionStartTimeMsec s) (_outputStarveDetectionCount s)
    (_outputBufferSizeFrames s) (_outputStarveDetectionEnabled s)
    (_outputStarveDetectionPeriodMsec s) (_outputStarveDetectionThreshold s)
    (_lastInputLoudness s) (_timeSinceLastClip s) (_muted s) (_shouldEchoLocally s)
    (_shouldEchoToServer s) (_isNoiseGateEnabled s) (_audioSourceInjectEnabled s) (_reverb s)
    (_inputToNetworkResampler s) (_networkToOutputResampler s) (_loopbackResampler s)
    (_noiseSourceEnabled s) (_toneSourceEnabled s) (_outgoingAvatarAudioSequenceNumber s)
    (_unfulfilledReads s) (networkAudioSamples s) (sentDatagrams s) (loopbackWritten s)
    (loopBackByteArray s).

Definition set_loopbackOutputDevice (v : bool) (s : AudioClient) : AudioClient :=
  mkAudioClient (_audioInput s) (_inputDevice s) (_desiredInputFormat s) (_inputFormat s)
    (_numInputCallbackBytes s) (_inputAudioDeviceName s) (_audioOutput s) (_desiredOutputFormat s)
    (_outputFormat s) (_outputFrameSize s) (_outputAudioDeviceName s) (_loopbackAudioOutput s) v
    (_inputRingBuffer s) (_receivedAudioStream s) (_isStereoInput s)
    (_outputStarveDetectionStartTimeMsec s) (_outputStarveDetectionCount s)
    (_outputBufferSizeFrames s) (_outputStarveDetectionEnabled s)
    (_outputStarveDetectionPeriodMsec s) (_outputStarveDetectionThreshold s)
    (_lastInputLoudness s) (_timeSinceLastClip s) (_muted s) (_shouldEchoLocally s)
    (_shouldEchoToServer s) (_isNoiseGateEnabled s) (_audioSourceInjectEnabled s) (_reverb s)
    (_inputToNetworkResampler s) (_networkToOutputResampler s) (_loopbackResampler s)
    (_noiseSourceEnabled s) (_toneSourceEnabled s) (_outgoingAvatarAudioSequenceNumber s)
    (_unfulfilledReads s) (networkAudioSamples s) (sentDatagrams s) (loopbackWritten s)
    (loopBackByteArray s).

Definition set_inputRingBuffer (v : list Z) (s : AudioClient) : AudioClient :=
  mkAudioClient (_audioInput s) (_inputDevice s) (_desiredInputFormat s) (_inputFormat s)
    (_numInputCallbackBytes s) (_inputAudioDeviceName s) (_audioOutput s) (_desiredOutputFormat s)
    (_outputFormat s) (_outputFrameSize s) (_outputAudioDeviceName s) (_loopbackAudioOutput s)
    (_loopbackOutputDevice s) v (_receivedAudioStream s) (_isStereoInput s)
    (_outputStarveDetectionStartTimeMsec s) (_outputStarveDetectionCount s)
    (_outputBufferSizeFrames s) (_outputStarveDetectionEnabled s)
    (_outputStarveDetectionPeriodMsec s) (_outputStarveDetectionThreshold s)
    (_lastInputLoudness s) (_timeSinceLastClip s) (_muted s) (_shouldEchoLocally s)
    (_shouldEchoToServer s) (_isNoiseGateEnabled s) (_audioSourceInjectEnabled s) (_reverb s)
    (_inputToNetworkResampler s) (_networkToOutputResampler s) (_loopbackResampler s)
    (_noiseSourceEnabled s) (_toneSourceEnabled s) (_outgoingAvatarAudioSequenceNumber s)
    (_unfulfilledReads s) (networkAudioSamples s) (sentDatagrams s) (loopbackWritten s)
    (loopBackByteArray s).

Definition set_receivedAudioStream (v : MixedProcessedAudioStream) (s : AudioClient)
  : AudioClient :=
  mkAudioClient (_audioInput s) (_inputDevice s) (_desiredInputFormat s) (_inputFormat s)
    (_numInputCallbackBytes s) (_inputAudioDeviceName s) (_audioOutput s) (_desiredOutputFormat s)
    (_outputFormat s) (_outputFrameSize s) (_outputAudioDeviceName s) (_loopbackAudioOutput s)
    (_loopbackOutputDevice s) (_inputRingBuffer s) v (_isStereoInput s)
    (_outputStarveDetectionStartTimeMsec s) (_outputStarveDetectionCount s)
    (_outputBufferSizeFrames s) (_outputStarveDetectionEnabled s)
    (_outputStarveDetectionPeriodMsec s) (_outputStarveDetectionThreshold s)
    (_lastInputLoudness s) (_timeSinceLastClip s) (_muted s) (_shouldEchoLocally s)
    (_shouldEchoToServer s) (_isNoiseGateEnabled s) (_audioSourceInjectEnabled s) (_reverb s)
    (_inputToNetworkResampler s) (_networkToOutputResampler s) (_loopbackResampler s)
    (_noiseSourceEnabled s) (_toneSourceEnabled s) (_outgoingAvatarAudioSequenceNumber s)
    (_unfulfilledReads s) (networkAudioSamples s) (sentDatagrams s) (loopbackWritten s)
    (loopBackByteArray s).

Definition set_isStereoInput (v : bool) (s : AudioClient) : AudioClient :=
  mkAudioClient (_audioInput s) (_inputDevice s) (_desiredInputFormat s) (_inputFormat s)
    (_numInputCallbackBytes s) (_inputAudioDeviceName s) (_audioOutput s) (_desiredOutputFormat s)
    (_outputFormat s) (_outputFrameSize s) (_outputAudioDeviceName s) (_loopbackAudioOutput s)
    (_loopbackOutputDevice s) (_inputRingBuffer s) (_receivedAudioStream s) v
    (_outputStarveDetectionStartTimeMsec s) (_outputStarveDetectionCount s)
    (_outputBufferSizeFrames s) (_outputStarveDetectionEnabled s)
    (_outputStarveDetectionPeriodMsec s) (_outputStarveDetectionThreshold s)
    (_lastInputLoudness s) (_timeSinceLastClip s) (_muted s) (_shouldEchoLocally s)
    (_shouldEchoToServer s) (_isNoiseGateEnabled s) (_audioSourceInjectEnabled s) (_reverb s)
    (_inputToNetworkResampler s) (_networkToOutputResampler s) (_loopbackResampler s)
    (_noiseSourceEnabled s) (_toneSourceEnabled s) (_outgoingAvatarAudioSequenceNumber s)
    (_unfulfilledReads s) (networkAudioSamples s) (sentDatagrams s) (loopbackWritten s)
    (loopBackByteArray s).

Definition set_outputStarveDetectionStartTimeMsec (v : Z) (s : AudioClient) : AudioClient :=
  mkAudioClient (_audioInput s) (_inputDevice s) (_desiredInputFormat s) (_inputFormat s)
    (_numInputCallbackBytes s) (_inputAudioDeviceName s) (_audioOutput s) (_desiredOutputFormat s)
    (_outputFormat s) (_outputFrameSize s) (_outputAudioDeviceName s) (_loopbackAudioOutput s)
    (_loopbackOutputDevice s) (_inputRingBuffer s) (_receivedAudioStream s) (_isStereoInput s) v
    (_outputStarveDetectionCount s) (_outputBufferSizeFrames s) (_outputStarveDetectionEnabled s)
    (_outputStarveDetectionPeriodMsec s) (_outputStarveDetectionThreshold s)
    (_lastInputLoudness s) (_timeSinceLastClip s) (_muted s) (_shouldEchoLocally s)
    (_shouldEchoToServer s) (_isNoiseGateEnabled s) (_audioSourceInjectEnabled s) (_reverb s)
    (_inputToNetworkResampler s) (_networkToOutputResampler s) (_loopbackResampler s)
    (_noiseSourceEnabled s) (_toneSourceEnabled s) (_outgoingAvatarAudioSequenceNumber s)
    (_unfulfilledReads s) (networkAudioSamples s) (sentDatagrams s) (loopbackWritten s)
    (loopBackByteArray s).

Definition set_outputStarveDetectionCount (v : Z) (s : AudioClient) : AudioClient :=
  mkAudioClient (_audioInput s) (_inputDevice s) (_desiredInputFormat s) (_inputFormat s)
    (_numInputCallbackBytes s) (_inputAudioDeviceName s) (_audioOutput s) (_desiredOutputFormat s)
    (_outputFormat s) (_outputFrameSize s) (_outputAudioDeviceName s) (_loopbackAudioOutput s)
    (_loopbackOutputDevice s) (_inputRingBuffer s) (_receivedAudioStream s) (_isStereoInput s)
    (_outputStarveDetectionStartTimeMsec s) v (_outputBufferSizeFrames s)
    (_outputStarveDetectionEnabled s) (_outputStarveDetectionPeriodMsec s)
    (_outputStarveDetectionThreshold s) (_lastInputLoudness s) (_timeSinceLastClip s) (_muted s)
    (_shouldEchoLocally s) (_shouldEchoToServer s) (_isNoiseGateEnabled s)
    (_audioSourceInjectEnabled s) (_reverb s) (_inputToNetworkResampler s)
    (_networkToOutputResampler s) (_loopbackResampler s) (_noiseSourceEnabled s)
    (_toneSourceEnabled s) (_outgoingAvatarAudioSequenceNumber s) (_unfulfilledReads s)
    (networkAudioSamples s) (sentDatagrams s) (loopbackWritten s) (loopBackByteArray s).

Definition set_outputBufferSizeFrames (v : Z) (s : AudioClient) : AudioClient :=
  mkAudioClient (_audioInput s) (_inputDevice s) (_desiredInputFormat s) (_inputFormat s)
    (_numInputCallbackBytes s) (_inputAudioDeviceName s) (_audioOutput s) (_desiredOutputFormat s)
    (_outputFormat s) (_outputFrameSize s) (_outputAudioDeviceName s) (_loopbackAudioOutput s)
    (_loopbackOutputDevice s) (_inputRingBuffer s) (_receivedAudioStream s) (_isStereoInput s)
    (_outputStarveDetectionStartTimeMsec s) (_outputStarveDetectionCount s) v
    (_outputStarveDetectionEnabled s) (_outputStarveDetectionPeriodMsec s)
    (_outputStarveDetectionThreshold s) (_lastInputLoudness s) (_timeSinceLastClip s) (_muted s)
    (_shouldEchoLocally s) (_shouldEchoToServer s) (_isNoiseGateEnabled s)
    (_audioSourceInjectEnabled s) (_reverb s) (_inputToNetworkResampler s)
    (_networkToOutputResampler s) (_loopbackResampler s) (_noiseSourceEnabled s)
    (_toneSourceEnabled s) (_outgoingAvatarAudioSequenceNumber s) (_unfulfilledReads s)
    (networkAudioSamples s) (sentDatagrams s) (loopbackWritten s) (loopBackByteArray s).

Definition set_lastInputLoudness (v : Float32.float) (s : AudioClient) : AudioClient :=
  mkAudioClient (_audioInput s) (_inputDevice s) (_desiredInputFormat s) (_inputFormat s)
    (_numInputCallbackBytes s) (_inputAudioDeviceName s) (_audioOutput s) (_desiredOutputFormat s)
    (_outputFormat s) (_outputFrameSize s) (_outputAudioDeviceName s) (_loopbackAudioOutput s)
    (_loopbackOutputDevice s) (_inputRingBuffer s) (_receivedAudioStream s) (_isStereoInput s)
    (_outputStarveDetectionStartTimeMsec s) (_outputStarveDetectionCount s)
    (_outputBufferSizeFrames s) (_outputStarveDetectionEnabled s)
    (_outputStarveDetectionPeriodMsec s) (_outputStarveDetectionThreshold s) v
    (_timeSinceLastClip s) (_muted s) (_shouldEchoLocally s) (_shouldEchoToServer s)
    (_isNoiseGateEnabled s) (_audioSourceInjectEnabled s) (_reverb s) (_inputToNetworkResampler s)
    (_networkToOutputResampler s) (_loopbackResampler s) (_noiseSourceEnabled s)
    (_toneSourceEnabled s) (_outgoingAvatarAudioSequenceNumber s) (_unfulfilledReads s)
    (networkAudioSamples s) (sentDatagrams s) (loopbackWritten s) (loopBackByteArray s).

Definition set_timeSinceLastClip (v : Float32.float) (s : AudioClient) : AudioClient :=
  mkAudioClient (_audioInput s) (_inputDevice s) (_desiredInputFormat s) (_inputFormat s)
    (_numInputCallbackBytes s) (_inputAudioDeviceName s) (_audioOutput s) (_desiredOutputFormat s)
    (_outputFormat s) (_outputFrameSize s) (_outputAudioDeviceName s) (_loopbackAudioOutput s)
    (_loopbackOutputDevice s) (_inputRingBuffer s) (_receivedAudioStream s) (_isStereoInput s)
    (_outputStarveDetectionStartTimeMsec s) (_outputStarveDetectionCount s)
    (_outputBufferSizeFrames s) (_outputStarveDetectionEnabled s)
    (_outputStarveDetectionPeriodMsec s) (_outputStarveDetectionThreshold s)
    (_lastInputLoudness s) v (_muted s) (_shouldEchoLocally s) (_shouldEchoToServer s)
    (_isNoiseGateEnabled s) (_audioSourceInjectEnabled s) (_reverb s) (_inputToNetworkResampler s)
    (_networkToOutputResampler s) (_loopbackResampler s) (_noiseSourceEnabled s)
    (_toneSourceEnabled s) (_outgoingAvatarAudioSequenceNumber s) (_unfulfilledReads s)
    (networkAudioSamples s) (sentDatagrams s) (loopbackWritten s) (loopBackByteArray s).

Definition set_muted (v : bool) (s : AudioClient) : AudioClient :=
  mkAudioClient (_audioInput s) (_inputDevice s) (_desiredInputFormat s) (_inputFormat s)
    (_numInputCallbackBytes s) (_inputAudioDeviceName s) (_audioOutput s) (_desiredOutputFormat s)
    (_outputFormat s) (_outputFrameSize s) (_outputAudioDeviceName s) (_loopbackAudioOutput s)
    (_loopbackOutputDevice s) (_inputRingBuffer s) (_receivedAudioStream s) (_isStereoInput s)
    (_outputStarveDetectionStartTimeMsec s) (_outputStarveDetectionCount s)
    (_outputBufferSizeFrames s) (_outputStarveDetectionEnabled s)
    (_outputStarveDetectionPeriodMsec s) (_outputStarveDetectionThreshold s)
    (_lastInputLoudness s) (_timeSinceLastClip s) v (_shouldEchoLocally s) (_shouldEchoToServer s)
    (_isNoiseGateEnabled s) (_audioSourceInjectEnabled s) (_reverb s) (_inputToNetworkResampler s)
    (_networkToOutputResampler s) (_loopbackResampler s) (_noiseSourceEnabled s)
    (_toneSourceEnabled s) (_outgoingAvatarAudioSequenceNumber s) (_unfulfilledReads s)
    (networkAudioSamples s) (sentDatagrams s) (loopbackWritten s) (loopBackByteArray s).

Definition set_shouldEchoLocally (v : bool) (s : AudioClient) : AudioClient :=
  mkAudioClient (_audioInput s) (_inputDevice s) (_desiredInputFormat s) (_inputFormat s)
    (_numInputCallbackBytes s) (_inputAudioDeviceName s) (_audioOutput s) (_desiredOutputFormat s)
    (_outputFormat s) (_outputFrameSize s) (_outputAudioDeviceName s) (_loopbackAudioOutput s)
    (_loopbackOutputDevice s) (_inputRingBuffer s) (_receivedAudioStream s) (_isStereoInput s)
    (_outputStarveDetectionStartTimeMsec s) (_outputStarveDetectionCount s)
    (_outputBufferSizeFrames s) (_outputStarveDetectionEnabled s)
    (_outputStarveDetectionPeriodMsec s) (_outputStarveDetectionThreshold s)
    (_lastInputLoudness s) (_timeSinceLastClip s) (_muted s) v (_shouldEchoToServer s)
    (_isNoiseGateEnabled s) (_audioSourceInjectEnabled s) (_reverb s) (_inputToNetworkResampler s)
    (_networkToOutputResampler s) (_loopbackResampler s) (_noiseSourceEnabled s)
    (_toneSourceEnabled s) (_outgoingAvatarAudioSequenceNumber s) (_unfulfilledReads s)
    (networkAudioSamples s) (sentDatagrams s) (loopbackWritten s) (loopBackByteArray s).

Definition set_shouldEchoToServer (v : bool) (s : AudioClient) : AudioClient :=
  mkAudioClient (_audioInput s) (_inputDevice s) (_desiredInputFormat s) (_inputFormat s)
    (_numInputCallbackBytes s) (_inputAudioDeviceName s) (_audioOutput s) (_desiredOutputFormat s)
    (_outputFormat s) (_outputFrameSize s) (_outputAudioDeviceName s) (_loopbackAudioOutput s)
    (_loopbackOutputDevice s) (_inputRingBuffer s) (_receivedAudioStream s) (_isStereoInput s)
    (_outputStarveDetectionStartTimeMsec s) (_outputStarveDetectionCount s)
    (_outputBufferSizeFrames s) (_outputStarveDetectionEnabled s)
    (_outputStarveDetectionPeriodMsec s) (_outputStarveDetectionThreshold s)
    (_lastInputLoudness s) (_timeSinceLastClip s) (_muted s) (_shouldEchoLocally s) v
    (_isNoiseGateEnabled s) (_audioSourceInjectEnabled s) (_reverb s) (_inputToNetworkResampler s)
    (_networkToOutputResampler s) (_loopbackResampler s) (_noiseSourceEnabled s)
    (_toneSourceEnabled s) (_outgoingAvatarAudioSequenceNumber s) (_unfulfilledReads s)
    (networkAudioSamples s) (sentDatagrams s) (loopbackWritten s) (loopBackByteArray s).

Definition set_isNoiseGateEnabled (v : bool) (s : AudioClient) : AudioClient :=
  mkAudioClient (_audioInput s) (_inputDevice s) (_desiredInputFormat s) (_inputFormat s)
    (_numInputCallbackBytes s) (_inputAudioDeviceName s) (_audioOutput s) (_desiredOutputFormat s)
    (_outputFormat s) (_outputFrameSize s) (_outputAudioDeviceName s) (_loopbackAudioOutput s)
    (_loopbackOutputDevice s) (_inputRingBuffer s) (_receivedAudioStream s) (_isStereoInput s)
    (_outputStarveDetectionStartTimeMsec s) (_outputStarveDetectionCount s)
    (_outputBufferSizeFrames s) (_outputStarveDetectionEnabled s)
    (_outputStarveDetectionPeriodMsec s) (_outputStarveDetectionThreshold s)
    (_lastInputLoudness s) (_timeSinceLastClip s) (_muted s) (_shouldEchoLocally s)
    (_shouldEchoToServer s) v (_audioSourceInjectEnabled s) (_reverb s)
    (_inputToNetworkResampler s) (_networkToOutputResampler s) (_loopbackResampler s)
    (_noiseSourceEnabled s) (_toneSourceEnabled s) (_outgoingAvatarAudioSequenceNumber s)
    (_unfulfilledReads s) (networkAudioSamples s) (sentDatagrams s) (loopbackWritten s)
    (loopBackByteArray s).

Definition set_audioSourceInjectEnabled (v : bool) (s : AudioClient) : AudioClient :=
  mkAudioClient (_audioInput s) (_inputDevice s) (_desiredInputFormat s) (_inputFormat s)
    (_numInputCallbackBytes s) (_inputAudioDeviceName s) (_audioOutput s) (_desiredOutputFormat s)
    (_outputFormat s) (_outputFrameSize s) (_outputAudioDeviceName s) (_loopbackAudioOutput s)
    (_loopbackOutputDevice s) (_inputRingBuffer s) (_receivedAudioStream s) (_isStereoInput s)
    (_outputStarveDetectionStartTimeMsec s) (_outputStarveDetectionCount s)
    (_outputBufferSizeFrames s) (_outputStarveDetectionEnabled s)
    (_outputStarveDetectionPeriodMsec s) (_outputStarveDetectionThreshold s)
    (_lastInputLoudness s) (_timeSinceLastClip s) (_muted s) (_shouldEchoLocally s)
    (_shouldEchoToServer s) (_isNoiseGateEnabled s) v (_reverb s) (_inputToNetworkResampler s)
    (_networkToOutputResampler s) (_loopbackResampler s) (_noiseSourceEnabled s)
    (_toneSourceEnabled s) (_outgoingAvatarAudioSequenceNumber s) (_unfulfilledReads s)
    (networkAudioSamples s) (sentDatagrams s) (loopbackWritten s) (loopBackByteArray s).

Definition set_reverb (v : bool) (s : AudioClient) : AudioClient :=
  mkAudioClient (_audioInput s) (_inputDevice s) (_desiredInputFormat s) (_inputFormat s)
    (_numInputCallbackBytes s) (_inputAudioDeviceName s) (_audioOutput s) (_desiredOutputFormat s)
    (_outputFormat s) (_outputFrameSize s) (_outputAudioDeviceName s) (_loopbackAudioOutput s)
    (_loopbackOutputDevice s) (_inputRingBuffer s) (_receivedAudioStream s) (_isStereoInput s)
    (_outputStarveDetectionStartTimeMsec s) (_outputStarveDetectionCount s)
    (_outputBufferSizeFrames s) (_outputStarveDetectionEnabled s)
    (_outputStarveDetectionPeriodMsec s) (_outputStarveDetectionThreshold s)
    (_lastInputLoudness s) (_timeSinceLastClip s) (_muted s) (_shouldEchoLocally s)
    (_shouldEchoToServer s) (_isNoiseGateEnabled s) (_audioSourceInjectEnabled s) v
    (_inputToNetworkResampler s) (_networkToOutputResampler s) (_loopbackResampler s)
    (_noiseSourceEnabled s) (_toneSourceEnabled s) (_outgoingAvatarAudioSequenceNumber s)
    (_unfulfilledReads s) (networkAudioSamples s) (sentDatagrams s) (loopbackWritten s)
    (loopBackByteArray s).

Definition set_inputToNetworkResampler (v : option soxr_t) (s : AudioClient) : AudioClient :=
  mkAudioClient (_audioInput s) (_inputDevice s) (_desiredInputFormat s) (_inputFormat s)
    (_numInputCallbackBytes s) (_inputAudioDeviceName s) (_audioOutput s) (_desiredOutputFormat s)
    (_outputFormat s) (_outputFrameSize s) (_outputAudioDeviceName s) (_loopbackAudioOutput s)
    (_loopbackOutputDevice s) (_inputRingBuffer s) (_receivedAudioStream s) (_isStereoInput s)
    (_outputStarveDetectionStartTimeMsec s) (_outputStarveDetectionCount s)
    (_outputBufferSizeFrames s) (_outputStarveDetectionEnabled s)
    (_outputStarveDetectionPeriodMsec s) (_outputStarveDetectionThreshold s)
    (_lastInputLoudness s) (_timeSinceLastClip s) (_muted s) (_shouldEchoLocally s)
    (_shouldEchoToServer s) (_isNoiseGateEnabled s) (_audioSourceInjectEnabled s) (_reverb s) v
    (_networkToOutputResampler s) (_loopbackResampler s) (_noiseSourceEnabled s)
    (_toneSourceEnabled s) (_outgoingAvatarAudioSequenceNumber s) (_unfulfilledReads s)
    (networkAudioSamples s) (sentDatagrams s) (loopbackWritten s) (loopBackByteArray s).

Definition set_networkToOutputResampler (v : option soxr_t) (s : AudioClient) : AudioClient :=
  mkAudioClient (_audioInput s) (_inputDevice s) (_desiredInputFormat s) (_inputFormat s)
    (_numInputCallbackBytes s) (_inputAudioDeviceName s) (_audioOutput s) (_desiredOutputFormat s)
    (_outputFormat s) (_outputFrameSize s) (_outputAudioDeviceName s) (_loopbackAudioOutput s)
    (_loopbackOutputDevice s) (_inputRingBuffer s) (_receivedAudioStream s) (_isStereoInput s)
    (_outputStarveDetectionStartTimeMsec s) (_outputStarveDetectionCount s)
    (_outputBufferSizeFrames s) (_outputStarveDetectionEnabled s)
    (_outputStarveDetectionPeriodMsec s) (_outputStarveDetectionThreshold s)
    (_lastInputLoudness s) (_timeSinceLastClip s) (_muted s) (_shouldEchoLocally s)
    (_shouldEchoToServer s) (_isNoiseGateEnabled s) (_audioSourceInjectEnabled s) (_reverb s)
    (_inputToNetworkResampler s) v (_loopbackResampler s) (_noiseSourceEnabled s)
    (_toneSourceEnabled s) (_outgoingAvatarAudioSequenceNumber s) (_unfulfilledReads s)
    (networkAudioSamples s) (sentDatagrams s) (loopbackWritten s) (loopBackByteArray s).

Definition set_loopbackResampler (v : option soxr_t) (s : AudioClient) : AudioClient :=
  mkAudioClient (_audioInput s) (_inputDevice s) (_desiredInputFormat s) (_inputFormat s)
    (_numInputCallbackBytes s) (_inputAudioDeviceName s) (_audioOutput s) (_desiredOutputFormat s)
    (_outputFormat s) (_outputFrameSize s) (_outputAudioDeviceName s) (_loopbackAudioOutput s)
    (_loopbackOutputDevice s) (_inputRingBuffer s) (_receivedAudioStream s) (_isStereoInput s)
    (_outputStarveDetectionStartTimeMsec s) (_outputStarveDetectionCount s)
    (_outputBufferSizeFrames s) (_outputStarveDetectionEnabled s)
    (_outputStarveDetectionPeriodMsec s) (_outputStarveDetectionThreshold s)
    (_lastInputLoudness s) (_timeSinceLastClip s) (_muted s) (_shouldEchoLocally s)
    (_shouldEchoToServer s) (_isNoiseGateEnabled s) (_audioSourceInjectEnabled s) (_reverb s)
    (_inputToNetworkResampler s) (_networkToOutputResampler s) v (_noiseSourceEnabled s)
    (_toneSourceEnabled s) (_outgoingAvatarAudioSequenceNumber s) (_unfulfilledReads s)
    (networkAudioSamples s) (sentDatagrams s) (loopbackWritten s) (loopBackByteArray s).

Definition set_noiseSourceEnabled (v : bool) (s : AudioClient) : AudioClient :=
  mkAudioClient (_audioInput s) (_inputDevice s) (_desiredInputFormat s) (_inputFormat s)
    (_numInputCallbackBytes s) (_inputAudioDeviceName s) (_audioOutput s) (_desiredOutputFormat s)
    (_outputFormat s) (_outputFrameSize s) (_outputAudioDeviceName s) (_loopbackAudioOutput s)
    (_loopbackOutputDevice s) (_inputRingBuffer s) (_receivedAudioStream s) (_isStereoInput s)
    (_outputStarveDetectionStartTimeMsec s) (_outputStarveDetectionCount s)
    (_outputBufferSizeFrames s) (_outputStarveDetectionEnabled s)
    (_outputStarveDetectionPeriodMsec s) (_outputStarveDetectionThreshold s)
    (_lastInputLoudness s) (_timeSinceLastClip s) (_muted s) (_shouldEchoLocally s)
    (_shouldEchoToServer s) (_isNoiseGateEnabled s) (_audioSourceInjectEnabled s) (_reverb s)
    (_inputToNetworkResampler s) (_networkToOutputResampler s) (_loopbackResampler s) v
    (_toneSourceEnabled s) (_outgoingAvatarAudioSequenceNumber s) (_unfulfilledReads s)
    (networkAudioSamples s) (sentDatagrams s) (loopbackWritten s) (loopBackByteArray s).

Definition set_toneSourceEnabled (v : bool) (s : AudioClient) : AudioClient :=
  mkAudioClient (_audioInput s) (_inputDevice s) (_desiredInputFormat s) (_inputFormat s)
    (_numInputCallbackBytes s) (_inputAudioDeviceName s) (_audioOutput s) (_desiredOutputFormat s)
    (_outputFormat s) (_outputFrameSize s) (_outputAudioDeviceName s) (_loopbackAudioOutput s)
    (_loopbackOutputDevice s) (_inputRingBuffer s) (_receivedAudioStream s) (_isStereoInput s)
    (_outputStarveDetectionStartTimeMsec s) (_outputStarveDetectionCount s)
    (_outputBufferSizeFrames s) (_outputStarveDetectionEnabled s)
    (_outputStarveDetectionPeriodMsec s) (_outputStarveDetectionThreshold s)
    (_lastInputLoudness s) (_timeSinceLastClip s) (_muted s) (_shouldEchoLocally s)
    (_shouldEchoToServer s) (_isNoiseGateEnabled s) (_audioSourceInjectEnabled s) (_reverb s)
    (_inputToNetworkResampler s) (_networkToOutputResampler s) (_loopbackResampler s)
    (_noiseSourceEnabled s) v (_outgoingAvatarAudioSequenceNumber s) (_unfulfilledReads s)
    (networkAudioSamples s) (sentDatagrams s) (loopbackWritten s) (loopBackByteArray s).

Definition set_outgoingAvatarAudioSequenceNumber (v : Z) (s : AudioClient) : AudioClient :=
  mkAudioClient (_audioInput s) (_inputDevice s) (_desiredInputFormat s) (_inputFormat s)
    (_numInputCallbackBytes s) (_inputAudioDeviceName s) (_audioOutput s) (_desiredOutputFormat s)
    (_outputFormat s) (_outputFrameSize s) (_outputAudioDeviceName s) (_loopbackAudioOutput s)
    (_loopbackOutputDevice s) (_inputRingBuffer s) (_receivedAudioStream s) (_isStereoInput s)
    (_outputStarveDetectionStartTimeMsec s) (_outputStarveDetectionCount s)
    (_outputBufferSizeFrames s) (_outputStarveDetectionEnabled s)
    (_outputStarveDetectionPeriodMsec s) (_outputStarveDetectionThreshold s)
    (_lastInputLoudness s) (_timeSinceLastClip s) (_muted s) (_shouldEchoLocally s)
    (_shouldEchoToServer s) (_isNoiseGateEnabled s) (_audioSourceInjectEnabled s) (_reverb s)
    (_inputToNetworkResampler s) (_networkToOutputResampler s) (_loopbackResampler s)
    (_noiseSourceEnabled s) (_toneSourceEnabled s) v (_unfulfilledReads s) (networkAudioSamples s)
    (sentDatagrams s) (loopbackWritten s) (loopBackByteArray s).

Definition set_unfulfilledReads (v : Z) (s : AudioClient) : AudioClient :=
  mkAudioClient (_audioInput s) (_inputDevice s) (_desiredInputFormat s) (_inputFormat s)
    (_numInputCallbackBytes s) (_inputAudioDeviceName s) (_audioOutput s) (_desiredOutputFormat s)
    (_outputFormat s) (_outputFrameSize s) (_outputAudioDeviceName s) (_loopbackAudioOutput s)
    (_loopbackOutputDevice s) (_inputRingBuffer s) (_receivedAudioStream s) (_isStereoInput s)
    (_outputStarveDetectionStartTimeMsec s) (_outputStarveDetectionCount s)
    (_outputBufferSizeFrames s) (_outputStarveDetectionEnabled s)
    (_outputStarveDetectionPeriodMsec s) (_outputStarveDetectionThreshold s)
    (_lastInputLoudness s) (_timeSinceLastClip s) (_muted s) (_shouldEchoLocally s)
    (_shouldEchoToServer s) (_isNoiseGateEnabled s) (_audioSourceInjectEnabled s) (_reverb s)
    (_inputToNetworkResampler s) (_networkToOutputResampler s) (_loopbackResampler s)
    (_noiseSourceEnabled s) (_toneSourceEnabled s) (_outgoingAvatarAudioSequenceNumber s) v
    (networkAudioSamples s) (sentDatagrams s) (loopbackWritten s) (loopBackByteArray s).

Definition set_networkAudioSamples (v : list Z) (s : AudioClient) : AudioClient :=
  mkAudioClient (_audioInput s) (_inputDevice s) (_desiredInputFormat s) (_inputFormat s)
    (_numInputCallbackBytes s) (_inputAudioDeviceName s) (_audioOutput s) (_desiredOutputFormat s)
    (_outputFormat s) (_outputFrameSize s) (_outputAudioDeviceName s) (_loopbackAudioOutput s)
    (_loopbackOutputDevice s) (_inputRingBuffer s) (_receivedAudioStream s) (_isStereoInput s)
    (_outputStarveDetectionStartTimeMsec s) (_outputStarveDetectionCount s)
    (_outputBufferSizeFrames s) (_outputStarveDetectionEnabled s)
    (_outputStarveDetectionPeriodMsec s) (_outputStarveDetectionThreshold s)
    (_lastInputLoudness s) (_timeSinceLastClip s) (_muted s) (_shouldEchoLocally s)
    (_shouldEchoToServer s) (_isNoiseGateEnabled s) (_audioSourceInjectEnabled s) (_reverb s)
    (_inputToNetworkResampler s) (_networkToOutputResampler s) (_loopbackResampler s)
    (_noiseSourceEnabled s) (_toneSourceEnabled s) (_outgoingAvatarAudioSequenceNumber s)
    (_unfulfilledReads s) v (sentDatagrams s) (loopbackWritten s) (loopBackByteArray s).

Definition set_sentDatagrams (v : list (Packet * bool)) (s : AudioClient) : AudioClient :=
  mkAudioClient (_audioInput s) (_inputDevice s) (_desiredInputFormat s) (_inputFormat s)
    (_numInputCallbackBytes s) (_inputAudioDeviceName s) (_audioOutput s) (_desiredOutputFormat s)
    (_outputFormat s) (_outputFrameSize s) (_outputAudioDeviceName s) (_loopbackAudioOutput s)
    (_loopbackOutputDevice s) (_inputRingBuffer s) (_receivedAudioStream s) (_isStereoInput s)
    (_outputStarveDetectionStartTimeMsec s) (_outputStarveDetectionCount s)
    (_outputBufferSizeFrames s) (_outputStarveDetectionEnabled s)
    (_outputStarveDetectionPeriodMsec s) (_outputStarveDetectionThreshold s)
    (_lastInputLoudness s) (_timeSinceLastClip s) (_muted s) (_shouldEchoLocally s)
    (_shouldEchoToServer s) (_isNoiseGateEnabled s) (_audioSourceInjectEnabled s) (_reverb s)
    (_inputToNetworkResampler s) (_networkToOutputResampler s) (_loopbackResampler s)
    (_noiseSourceEnabled s) (_toneSourceEnabled s) (_outgoingAvatarAudioSequenceNumber s)
    (_unfulfilledReads s) (networkAudioSamples s) v (loopbackWritten s) (loopBackByteArray s).

Definition set_loopbackWritten (v : list (list Z)) (s : AudioClient) : AudioClient :=
  mkAudioClient (_audioInput s) (_inputDevice s) (_desiredInputFormat s) (_inputFormat s)
    (_numInputCallbackBytes s) (_inputAudioDeviceName s) (_audioOutput s) (_desiredOutputFormat s)
    (_outputFormat s) (_outputFrameSize s) (_outputAudioDeviceName s) (_loopbackAudioOutput s)
    (_loopbackOutputDevice s) (_inputRingBuffer s) (_receivedAudioStream s) (_isStereoInput s)
    (_outputStarveDetectionStartTimeMsec s) (_outputStarveDetectionCount s)
    (_outputBufferSizeFrames s) (_outputStarveDetectionEnabled s)
    (_outputStarveDetectionPeriodMsec s) (_outputStarveDetectionThreshold s)
    (_lastInputLoudness s) (_timeSinceLastClip s) (_muted s) (_shouldEchoLocally s)
    (_shouldEchoToServer s) (_isNoiseGateEnabled s) (_audioSourceInjectEnabled s) (_reverb s)
    (_inputToNetworkResampler s) (_networkToOutputResampler s) (_loopbackResampler s)
    (_noiseSourceEnabled s) (_toneSourceEnabled s) (_outgoingAvatarAudioSequenceNumber s)
    (_unfulfilledReads s) (networkAudioSamples s) (sentDatagrams s) v (loopBackByteArray s).

Definition set_loopBackByteArray (v : list Z) (s : AudioClient) : AudioClient :=
  mkAudioClient (_audioInput s) (_inputDevice s) (_desiredInputFormat s) (_inputFormat s)
    (_numInputCallbackBytes s) (_inputAudioDeviceName s) (_audioOutput s) (_desiredOutputFormat s)
    (_outputFormat s) (_outputFrameSize s) (_outputAudioDeviceName s) (_loopbackAudioOutput s)
    (_loopbackOutputDevice s) (_inputRingBuffer s) (_receivedAudioStream s) (_isStereoInput s)
    (_outputStarveDetectionStartTimeMsec s) (_outputStarveDetectionCount s)
    (_outputBufferSizeFrames s) (_outputStarveDetectionEnabled s)
    (_outputStarveDetectionPeriodMsec s) (_outputStarveDetectionThreshold s)
    (_lastInputLoudness s) (_timeSinceLastClip s) (_muted s) (_shouldEchoLocally s)
    (_shouldEchoToServer s) (_isNoiseGateEnabled s) (_audioSourceInjectEnabled s) (_reverb s)
    (_inputToNetworkResampler s) (_networkToOutputResampler s) (_loopbackResampler s)
    (_noiseSourceEnabled s) (_toneSourceEnabled s) (_outgoingAvatarAudioSequenceNumber s)
    (_unfulfilledReads s) (networkAudioSamples s) (sentDatagrams s) (loopbackWritten s) v.

(** ** Operations of [AudioClient] *)

Module Client.
Section WithContext.
Variable K : AudioConstants.
Variable X : Collaborators.

(** A default-constructed [QAudioFormat]. *)
Definition defaultFormat : QAudioFormat :=
  mkFormat (-1) (-1) (-1) 0%nat LittleEndian Unknown.

(** The constructor [AudioClient::AudioClient].  The received stream, the
    size of the static packet buffer and the persisted settings are given. *)
Definition newAudioClient (stream : MixedProcessedAudioStream) (packetBuffer : list Z)
    (outputBufferSizeFrames : Z) (starveDetectionEnabled : bool)
    (starveDetectionPeriodMsec starveDetectionThreshold : Z) : AudioClient :=
  {| _audioInput := false;
     _inputDevice := false;
     _desiredInputFormat := defaultFormat;
     _inputFormat := defaultFormat;
     _numInputCallbackBytes := 0;
     _inputAudioDeviceName := 0%nat;
     _audioOutput := None;
     _desiredOutputFormat := defaultFormat;
     _outputFormat := defaultFormat;
     _outputFrameSize := 0;
     _outputAudioDeviceName := 0%nat;
     _loopbackAudioOutput := false;
     _loopbackOutputDevice := false;
     _inputRingBuffer := [];
     _receivedAudioStream := stream;
     _isStereoInput := false;
     _outputStarveDetectionStartTimeMsec := 0;
     _outputStarveDetectionCount := 0;
     _outputBufferSizeFrames := outputBufferSizeFrames;
     _outputStarveDetectionEnabled := starveDetectionEnabled;
     _outputStarveDetectionPeriodMsec := starveDetectionPeriodMsec;
     _outputStarveDetectionThreshold := starveDetectionThreshold;
     _lastInputLoudness := Float32.zero;
     _timeSinceLastClip := Float32.minus_one;
     _muted := false;
     _shouldEchoLocally := false;
     _shouldEchoToServer := false;
     _isNoiseGateEnabled := true;
     _audioSourceInjectEnabled := false;
     _reverb := false;
     _inputToNetworkResampler := None;
     _networkToOutputResampler := None;
     _loopbackResampler := None;
     _noiseSourceEnabled := false;
     _toneSourceEnabled := true;
     _outgoingAvatarAudioSequenceNumber := 0;
     _unfulfilledReads := 0;
     networkAudioSamples := packetBuffer;
     sentDatagrams := [];
     loopbackWritten := [];
     loopBackByteArray := [] |}.

Definition audioMixerKilled (s : AudioClient) : AudioClient :=
  set_outgoingAvatarAudioSequenceNumber 0 s.

Definition toggleMute (s : AudioClient) : AudioClient :=
  set_muted (negb (_muted s)) s.

Definition toggleAudioSourceInject (s : AudioClient) : AudioClient :=
  set_audioSourceInjectEnabled (negb (_audioSourceInjectEnabled s)) s.

Definition selectAudioSourcePinkNoise (s : AudioClient) : AudioClient :=
  let s := set_noiseSourceEnabled true s in
  set_toneSourceEnabled false s.

Definition selectAudioSourceSine440 (s : AudioClient) : AudioClient :=
  let s := set_toneSourceEnabled true s in
  set_noiseSourceEnabled false s.

(** [parseAudioEnvironmentData], given the reverb bit of the packet: the
    received stream takes or clears its reverb. *)
Definition parseAudioEnvironmentData (hasReverbBit : bool) (s : AudioClient) : AudioClient :=
  set_receivedAudioStream
    {| hasReverb := hasReverbBit;
       getLastPopOutput := getLastPopOutput (_receivedAudioStream s);
       streamInternal := streamInternal (_receivedAudioStream s) |} s.

(** Modelled from the spec: the slots through which local echo, server
    echo, the noise gate and the client-side reverb are requested are
    declared in [AudioClient.h], which is not among the sources; the spec
    speaks of local echo being requested, of server-side echo, of gating
    being enabled and of client-side reverb being active.  Each request
    sets its flag. *)
Definition setLocalEcho (requested : bool) (s : AudioClient) : AudioClient :=
  set_shouldEchoLocally requested s.

Definition setServerEcho (requested : bool) (s : AudioClient) : AudioClient :=
  set_shouldEchoToServer requested s.

Definition setNoiseGateEnabled (enabled : bool) (s : AudioClient) : AudioClient :=
  set_isNoiseGateEnabled enabled s.

Definition setReverb (reverb : bool) (s : AudioClient) : AudioClient :=
  set_reverb reverb s.

(** [calculateNumberOfInputCallbackBytes] *)
Definition calculateNumberOfInputCallbackBytes (format : QAudioFormat) : Z :=
  Float32.to_int
    (Float32.add
       (Float32.div
          (Float32.mul
             (Float32.of_int (to_int (NETWORK_FRAME_BYTES_PER_CHANNEL K * channelCount format)))
             (Float32.div (Float32.of_int (sampleRate format))
                          (Float32.of_int (SAMPLE_RATE K))))
          (CALLBACK_ACCELERATOR_RATIO K))
       Float32.half).

(** [calculateDeviceToNetworkInputRatio] *)
Definition calculateDeviceToNetworkInputRatio (s : AudioClient) : Float32.float :=
  Float32.of_int
    (Float32.to_int
       (Float32.add
          (Float32.div
             (Float32.mul (Float32.of_int (_numInputCallbackBytes s))
                          (CALLBACK_ACCELERATOR_RATIO K))
             (Float32.of_int (NETWORK_FRAME_BYTES_PER_CHANNEL K)))
          Float32.half)).

(** [outputFormatChanged] (the notification of the received stream is
    outside the model). *)
Definition outputFormatChanged (s : AudioClient) : AudioClient :=
  let outputFormatChannelCountTimesSampleRate :=
    to_int (channelCount (_outputFormat s) * sampleRate (_outputFormat s)) in
  set_outputFrameSize
    (to_int (cdiv (to_int (NETWORK_FRAME_SAMPLES_PER_CHANNEL K
                           * outputFormatChannelCountTimesSampleRate))
                  (sampleRate (_desiredOutputFormat s))))
    s.

(** [switchInputToAudioDevice(const QAudioDeviceInfo&)], in the order of
    the source: the cleanup of the previous device and resampler, the
    resampler for the negotiated format, the start of the device. *)
Definition cleanupInput (s : AudioClient) : AudioClient :=
  let s := if _audioInput s then
             let s := set_inputDevice false s in
             let s := set_audioInput false s in
             let s := set_numInputCallbackBytes 0 s in
             set_inputAudioDeviceName 0%nat s
           else s in
  if _inputToNetworkResampler s is Some _ then set_inputToNetworkResampler None s else s.

(** [None] stands for the early [return false] after a failed creation. *)
Definition setupInputResampler (s : AudioClient) : option AudioClient :=
  if decide (_inputFormat s <> _desiredInputFormat s
             /\ sampleRate (_inputFormat s) <> sampleRate (_desiredInputFormat s))
  then
    match Resampler.soxrResamplerFromInputFormatToOutputFormat (engine X)
            (_inputFormat s) (_desiredInputFormat s) with
    | Some r => Some (set_inputToNetworkResampler (Some r) s)
    | None => None
    end
  else Some s.

Definition startInput (inputDeviceInfo : QAudioDeviceInfo) (s : AudioClient)
  : bool * AudioClient :=
  (* if the user wants stereo but this device can't provide then bail *)
  if negb (_isStereoInput s) || bool_decide (channelCount (_inputFormat s) = 2) then
    let s := set_audioInput true s in
    let s := set_numInputCallbackBytes
               (calculateNumberOfInputCallbackBytes (_inputFormat s)) s in
    (* [_inputRingBuffer.resizeForFrameSize] starts the ring buffer afresh *)
    let s := set_inputRingBuffer [] s in
    let s := set_inputDevice (inputStarts inputDeviceInfo) s in
    (_inputDevice s, s)
  else (false, s).

Definition switchInputToAudioDevice (inputDeviceInfo : QAudioDeviceInfo) (s : AudioClient)
  : bool * AudioClient :=
  let s := cleanupInput s in
  if negb (isNull inputDeviceInfo) then
    let s := set_inputAudioDeviceName (deviceName inputDeviceInfo) s in
    let negotiated :=
      FormatNegotiation.adjustedFormatForAudioDevice K inputDeviceInfo
        (_desiredInputFormat s) (_inputFormat s) in
    let s := set_inputFormat negotiated.2 s in
    if negotiated.1 then
      match setupInputResampler s with
      | None => (false, s)
      | Some s => startInput inputDeviceInfo s
      end
    else (false, s)
  else (false, s).

(** [switchOutputToAudioDevice(const QAudioDeviceInfo&)], likewise. *)
Definition cleanupOutput (s : AudioClient) : AudioClient :=
  let s := if _audioOutput s is Some _ then
             let s := set_audioOutput None s in
             let s := set_loopbackOutputDevice false s in
             set_loopbackAudioOutput false s
           else s in
  let s := if _networkToOutputResampler s is Some _
           then set_networkToOutputResampler None s else s in
  if _loopbackResampler s is Some _ then set_loopbackResampler None s else s.

Definition setupOutputResampler (s : AudioClient) : option AudioClient :=
  if decide (_desiredOutputFormat s <> _outputFormat s
             /\ sampleRate (_desiredOutputFormat s) <> sampleRate (_outputFormat s))
  then
    match Resampler.soxrResamplerFromInputFormatToOutputFormat (engine X)
            (_desiredOutputFormat s) (_outputFormat s) with
    | Some r => Some (set_networkToOutputResampler (Some r) s)
    | None => None
    end
  else Some s.

Definition startOutput (s : AudioClient) : AudioClient :=
  let s := outputFormatChanged s in
  (* setup our general output device for audio-mixer audio *)
  let s := set_audioOutput
             (Some (to_int (to_quint64 (to_int (_outputBufferSizeFrames s
                                                * _outputFrameSize s)) * 2))) s in
  (* setup a loopback audio output device *)
  set_loopbackAudioOutput true s.

Definition switchOutputToAudioDevice (outputDeviceInfo : QAudioDeviceInfo) (s : AudioClient)
  : bool * AudioClient :=
  let s := cleanupOutput s in
  if negb (isNull outputDeviceInfo) then
    let s := set_outputAudioDeviceName (deviceName outputDeviceInfo) s in
    let negotiated :=
      FormatNegotiation.adjustedFormatForAudioDevice K outputDeviceInfo
        (_desiredOutputFormat s) (_outputFormat s) in
    let s := set_outputFormat negotiated.2 s in
    if negotiated.1 then
      match setupOutputResampler s with
      | None => (false, s)
      | Some s => (true, startOutput s)
      end
    else (false, s)
  else (false, s).

(** [setOutputBufferSize]; [defaultOutputDevice] is what
    [defaultAudioDeviceForMode(QAudio::AudioOutput)] returns. *)
Definition setOutputBufferSize (defaultOutputDevice : QAudioDeviceInfo)
    (numFrames : Z) (s : AudioClient) : AudioClient :=
  let numFrames := Z.min (Z.max numFrames (MIN_AUDIO_OUTPUT_BUFFER_SIZE_FRAMES K))
                         (MAX_AUDIO_OUTPUT_BUFFER_SIZE_FRAMES K) in
  if decide (numFrames <> _outputBufferSizeFrames s) then
    let s := set_outputBufferSizeFrames numFrames s in
    if _audioOutput s is Some _ then
      (switchOutputToAudioDevice defaultOutputDevice s).2
    else s
  else s.

(** [outputNotify]; [recentUnfulfilled] is what
    [_audioOutputIODevice.getRecentUnfulfilledReads()] returns and
    [usecTimestampNow] the clock reading. *)
Definition outputNotify (defaultOutputDevice : QAudioDeviceInfo)
    (recentUnfulfilled : Z) (usecTimestampNow : Z) (s : AudioClient) : AudioClient :=
  if decide (recentUnfulfilled > 0) then
    if _outputStarveDetectionEnabled s then
      let now := usecTimestampNow / 1000 in
      let dt := to_quint64 (now - _outputStarveDetectionStartTimeMsec s) in
      if decide (dt > to_quint64 (_outputStarveDetectionPeriodMsec s)) then
        let s := set_outputStarveDetectionStartTimeMsec now s in
        set_outputStarveDetectionCount 0 s
      else
        let s := set_outputStarveDetectionCount
                   (to_int (_outputStarveDetectionCount s + recentUnfulfilled)) s in
        if decide (_outputStarveDetectionCount s > _outputStarveDetectionThreshold s) then
          let newOutputBufferSizeFrames := to_int (_outputBufferSizeFrames s + 1) in
          let s := setOutputBufferSize defaultOutputDevice newOutputBufferSizeFrames s in
          let s := set_outputStarveDetectionStartTimeMsec now s in
          set_outputStarveDetectionCount 0 s
        else s
    else s
  else s.

(** *** The local loopback *)

(** The destination sample count handed to [possibleResampling] by
    [handleLocalEchoAndReverb]: [loopBackByteArray] is resized to
    [numDestinationSamplesRequired(...) * sizeof(int16_t)] bytes and its size
    is divided by [sizeof(int16_t)] again. *)
Definition loopbackDestinationSamples (s : AudioClient) (numInputSamples : Z) : Z :=
  let loopBackByteArraySize :=
    Z.max 0 (to_int (to_quint64
      (SampleCount.numDestinationSamplesRequired (_inputFormat s) (_outputFormat s)
         numInputSamples) * 2)) in
  loopBackByteArraySize / 2.

(** The guard of [handleLocalEchoAndReverb]. *)
Definition hasLocalReverb (s : AudioClient) : bool :=
  (_reverb s || hasReverb (_receivedAudioStream s)) && negb (_shouldEchoToServer s).

Definition loopbackWanted (s : AudioClient) : bool :=
  negb (_muted s || negb (bool_decide (is_Some (_audioOutput s)))
        || (negb (_shouldEchoLocally s) && negb (hasLocalReverb s))).

(** The setup of the loopback: the output device is started when there is
    none, and a resampler is created when the rates differ and there is
    none.  [None] stands for the [return] after a failed creation. *)
Definition startLoopbackDevice (s : AudioClient) : AudioClient :=
  if negb (_loopbackOutputDevice s) && _loopbackAudioOutput s
  then set_loopbackOutputDevice (loopbackStarts X) s
  else s.

Definition setupLoopbackResampler (s : AudioClient) : option AudioClient :=
  if bool_decide (sampleRate (_inputFormat s) <> sampleRate (_outputFormat s))
     && negb (bool_decide (is_Some (_loopbackResampler s)))
  then
    match Resampler.soxrResamplerFromInputFormatToOutputFormat (engine X)
            (_inputFormat s) (_outputFormat s) with
    | Some r => Some (set_loopbackResampler (Some r) s)
    | None => None
    end
  else Some s.

(** [QByteArray::resize] on an array of samples: the content is kept up to
    the new size, and the samples added are not initialised. *)
Definition resizeSamples (samples : list Z) (size : nat) : list Z :=
  take size samples
  ++ map (uninitializedSample X) (seq (length samples) (size - length samples)).

(** The resampling, the reverb and the write to the loopback device.  The
    static array is resized, not cleared: what a call does not overwrite is
    what an earlier call left there. *)
Definition renderLoopback (inputByteArray : list Z) (s : AudioClient) : option AudioClient :=
  let numInputSamples := Z.of_nat (length inputByteArray) in
  let numLoopbackSamples := loopbackDestinationSamples s numInputSamples in
  let resized := resizeSamples (loopBackByteArray s) (Z.to_nat numLoopbackSamples) in
  resampled ←
    Resampler.possibleResampling (engine X) (_loopbackResampler s)
      inputByteArray resized (to_uint numInputSamples) (to_uint numLoopbackSamples)
      (_inputFormat s) (_outputFormat s);
  let loopbackSamples :=
    if hasLocalReverb s
    then addReverb X resampled (negb (_shouldEchoLocally s))
    else resampled in
  let rendered := set_loopBackByteArray loopbackSamples s in
  if _loopbackOutputDevice s
  then Some (set_loopbackWritten (loopbackSamples :: loopbackWritten s) rendered)
  else Some rendered.

(** [handleLocalEchoAndReverb]; [inputByteArray] is given as its samples. *)
Definition handleLocalEchoAndReverb (inputByteArray : list Z) (s : AudioClient)
  : option AudioClient :=
  if negb (loopbackWanted s) then Some s
  else
    let s := startLoopbackDevice s in
    match setupLoopbackResampler s with
    | None => Some s
    | Some s => renderLoopback inputByteArray s
    end.

(** *** The input-processing loop *)

(** [inputSamplesRequired] of [handleAudioInput] *)
Definition inputSamplesRequired (s : AudioClient) : Z :=
  Float32.to_int
    (Float32.mul (Float32.of_int (NETWORK_FRAME_SAMPLES_PER_CHANNEL K))
                 (calculateDeviceToNetworkInputRatio s)).

Definition numNetworkBytes (s : AudioClient) : Z :=
  if _isStereoInput s then NETWORK_FRAME_BYTES_STEREO K
  else NETWORK_FRAME_BYTES_PER_CHANNEL K.

Definition numNetworkSamples (s : AudioClient) : Z :=
  if _isStereoInput s then NETWORK_FRAME_SAMPLES_STEREO K
  else NETWORK_FRAME_SAMPLES_PER_CHANNEL K.

(** What the loop adds to the clip timer:
    [(float) numNetworkSamples / (float) AudioConstants::SAMPLE_RATE] *)
Definition clipTimerIncrement (s : AudioClient) : Float32.float :=
  Float32.div (Float32.of_int (numNetworkSamples s)) (Float32.of_int (SAMPLE_RATE K)).

(** The duration of one network frame in seconds, as the specification
    speaks of it: [NETWORK_FRAME_SAMPLES_PER_CHANNEL] samples on each
    channel, at [SAMPLE_RATE] samples per second, mono or stereo. *)
Definition specFrameDuration : Float32.float :=
  Float32.div (Float32.of_int (NETWORK_FRAME_SAMPLES_PER_CHANNEL K))
              (Float32.of_int (SAMPLE_RATE K)).

(** [if (_timeSinceLastClip >= 0.0f) _timeSinceLastClip += ...;] *)
Definition advanceClipTimer (s : AudioClient) : Float32.float :=
  if Float32.nonneg (_timeSinceLastClip s)
  then Float32.add (_timeSinceLastClip s) (clipTimerIncrement s)
  else _timeSinceLastClip s.

(** [memset(networkAudioSamples, 0, numNetworkBytes)] on the sample array *)
Definition zeroNetworkSamples (s : AudioClient) : option (list Z) :=
  let n := numNetworkBytes s / 2 in
  if decide (0 <= n <= Z.of_nat (length (networkAudioSamples s)))
  then Some (replicate (Z.to_nat n) 0 ++ drop (Z.to_nat n) (networkAudioSamples s))
  else None.

(** The network samples of an unmuted frame: the buffer is zeroed, one
    quantum is read from the ring buffer and resampled into it. *)
Definition resampledNetworkSamples (s : AudioClient) : option (list Z) :=
  zeroed ← zeroNetworkSamples s;
  let required := Z.to_nat (inputSamplesRequired s) in
  let inputAudioSamples := take required (_inputRingBuffer s) in
  Resampler.possibleResampling (engine X) (_inputToNetworkResampler s)
    inputAudioSamples zeroed
    (to_uint (inputSamplesRequired s)) (to_uint (numNetworkSamples s))
    (_inputFormat s) (_desiredInputFormat s).

(** [thisSample > (AudioConstants::MAX_SAMPLE_VALUE * AudioNoiseGate::CLIPPING_THRESHOLD)] *)
Definition sampleClips (sample : Z) : bool :=
  Float32.ltb (Float32.mul (Float32.of_int (MAX_SAMPLE_VALUE K)) (CLIPPING_THRESHOLD K))
              (Float32.abs (Float32.of_int sample)).

(** The loop that enumerates the samples when the gate is not used; it
    carries the loudness sum and the clip timer. *)
Fixpoint enumerateSamples (samples : list Z) (loudness timeSinceLastClip : Float32.float)
  : Float32.float * Float32.float :=
  match samples with
  | [] => (loudness, timeSinceLastClip)
  | sample :: rest =>
      let thisSample := Float32.abs (Float32.of_int sample) in
      let loudness := Float32.add loudness thisSample in
      let timeSinceLastClip :=
        if sampleClips sample then Float32.zero else timeSinceLastClip in
      enumerateSamples rest loudness timeSinceLastClip
  end.

Definition usesNoiseGate (s : AudioClient) : bool :=
  negb (_isStereoInput s) && negb (_audioSourceInjectEnabled s) && _isNoiseGateEnabled s.

(** The branch of the loop body taken when the client is not muted. *)
Definition unmutedFrame (env : FrameEnv) (s : AudioClient) : option AudioClient :=
  let n := Z.to_nat (numNetworkSamples s) in
  let timeSinceLastClip := advanceClipTimer s in
  samples ← resampledNetworkSamples s;
  let s := set_inputRingBuffer (drop (Z.to_nat (inputSamplesRequired s)) (_inputRingBuffer s)) s in
  let s := set_timeSinceLastClip timeSinceLastClip s in
  if decide (n <= length samples)%nat then
    if usesNoiseGate s then
      let s := set_networkAudioSamples (env_gateSamples env (take n samples) ++ drop n samples) s in
      let s := set_lastInputLoudness (env_gateLastLoudness env) s in
      if env_gateClipped env then Some (set_timeSinceLastClip Float32.zero s) else Some s
    else
      let s := set_networkAudioSamples samples s in
      let '(loudness, timeSinceLastClip) :=
        enumerateSamples (take n samples) Float32.zero (_timeSinceLastClip s) in
      let s := set_timeSinceLastClip timeSinceLastClip s in
      Some (set_lastInputLoudness
              (Float32.abs (Float32.div loudness (Float32.of_int (numNetworkSamples s)))) s)
  else None.

(** The branch taken when the client is muted. *)
Definition mutedFrame (s : AudioClient) : AudioClient :=
  let s := set_lastInputLoudness Float32.zero s in
  let s := set_timeSinceLastClip Float32.zero s in
  set_inputRingBuffer (drop (Z.to_nat (inputSamplesRequired s)) (_inputRingBuffer s)) s.

(** The end of the loop body: the packet is built and sent when a mixer
    with an active socket is known. *)
Definition sendFrame (env : FrameEnv) (numNetworkBytes numNetworkSamples : Z) (s : AudioClient)
  : AudioClient :=
  if env_mixerActive env then
    let isStereo := if _isStereoInput s then 1 else 0 in
    let packetType :=
      if Float32.eqb (_lastInputLoudness s) Float32.zero then PacketTypeSilentAudioFrame
      else if _shouldEchoToServer s then PacketTypeMicrophoneAudioWithEcho
      else PacketTypeMicrophoneAudioNoEcho in
    let packet :=
      if decide (packetType = PacketTypeSilentAudioFrame) then
        {| pkt_type := packetType;
           pkt_sequenceNumber := _outgoingAvatarAudioSequenceNumber s;
           pkt_numSilentSamples := Some (to_quint16 numNetworkSamples);
           pkt_isStereo := None;
           pkt_headPosition := env_headPosition env;
           pkt_headOrientation := env_headOrientation env;
           pkt_samples := [] |}
      else
        {| pkt_type := packetType;
           pkt_sequenceNumber := _outgoingAvatarAudioSequenceNumber s;
           pkt_numSilentSamples := None;
           pkt_isStereo := Some isStereo;
           pkt_headPosition := env_headPosition env;
           pkt_headOrientation := env_headOrientation env;
           pkt_samples := take (Z.to_nat (numNetworkBytes / 2)) (networkAudioSamples s) |} in
    let s := set_sentDatagrams ((packet, env_writeDatagramSucceeds env) :: sentDatagrams s) s in
    set_outgoingAvatarAudioSequenceNumber
      (to_quint16 (_outgoingAvatarAudioSequenceNumber s + 1)) s
  else s.

(** One iteration of
    [while (_inputRingBuffer.samplesAvailable() >= inputSamplesRequired)]. *)
Definition processNetworkFrame (env : FrameEnv) (s : AudioClient) : option AudioClient :=
  let numNetworkBytes := numNetworkBytes s in
  let numNetworkSamples := numNetworkSamples s in
  s ← (if negb (_muted s) then unmutedFrame env s else Some (mutedFrame s));
  Some (sendFrame env numNetworkBytes numNetworkSamples s).

(** The loop itself; [envs i] is the environment of iteration [i].  The
    result is [None] when an access is undefined or the fuel runs out. *)
Fixpoint inputLoop (fuel : nat) (iteration : nat) (envs : nat -> FrameEnv) (s : AudioClient)
  : option (nat * AudioClient) :=
  if decide (Z.of_nat (length (_inputRingBuffer s)) >= inputSamplesRequired s) then
    match fuel with
    | O => None
    | S fuel' =>
        s ← processNetworkFrame (envs iteration) s;
        inputLoop fuel' (S iteration) envs s
    end
  else Some (iteration, s).

(** The synthetic source of [handleAudioInput]: tone when its flag is set,
    otherwise noise when its flag is set, then the post gain. *)
Definition injectAudioSource (s : AudioClient) (inputFrameData : list Z) : list Z :=
  let frames := inputFrameData in
  let frames :=
    if _audioSourceInjectEnabled s then
      let frames :=
        if _toneSourceEnabled s then toneSourceRender X frames
        else if _noiseSourceEnabled s then noiseSourceRender X frames
        else frames in
      sourceGainRender X frames
    else frames in
  frames.

(** [handleAudioInput]; [readAll] is what [_inputDevice->readAll()]
    delivers, as samples.  The result holds the number of loop iterations. *)
Definition handleAudioInput (readAll : list Z) (envs : nat -> FrameEnv) (s : AudioClient)
  : option (nat * AudioClient) :=
  let inputByteArray :=
    if negb (_muted s) && _audioSourceInjectEnabled s
    then injectAudioSource s readAll
    else readAll in
  s ← handleLocalEchoAndReverb inputByteArray s;
  let s := set_inputRingBuffer (_inputRingBuffer s ++ inputByteArray) s in
  inputLoop (S (length (_inputRingBuffer s))) 0%nat envs s.

(** *** The received audio *)

(** [processReceivedSamples]; the buffers are given as samples,
    [outputBuffer] is the caller's array before the call and the result is
    that array afterwards. *)
Definition processReceivedSamples (inputBuffer outputBuffer : list Z) (s : AudioClient)
  : option (list Z) :=
  let numNetworkOutputSamples := Z.of_nat (length inputBuffer) in
  let numDeviceOutputSamples :=
    SampleCount.numDeviceOutputSamples (_desiredOutputFormat s) (_outputFormat s)
      numNetworkOutputSamples in
  let outputBuffer := resizeSamples outputBuffer (Z.to_nat numDeviceOutputSamples) in
  outputBuffer ←
    Resampler.possibleResampling (engine X) (_networkToOutputResampler s)
      inputBuffer outputBuffer
      (to_uint numNetworkOutputSamples) (to_uint numDeviceOutputSamples)
      (_desiredOutputFormat s) (_outputFormat s);
  if _reverb s || hasReverb (_receivedAudioStream s)
  then Some (addReverb X outputBuffer false)
  else Some outputBuffer.

(** The two bytes of an [int16_t] in memory (low byte first). *)
Definition int16Bytes (sample : Z) : list Z :=
  [to_quint16 sample mod 256; to_quint16 sample / 256].

(** [lastPopOutput.readSamples(data, samplesPopped)], on the bytes of [data] *)
Definition readSamplesInto (data : list Z) (it : nat -> Z) (samplesPopped : nat)
  : option (list Z) :=
  let bytes := flat_map (fun i => int16Bytes (it i)) (seq 0 samplesPopped) in
  if decide (length bytes <= length data)%nat
  then Some (bytes ++ drop (length bytes) data)
  else None.

(** [memset(data, 0, maxSize)] *)
Definition memsetZero (data : list Z) (maxSize : Z) : option (list Z) :=
  if decide (0 <= maxSize <= Z.of_nat (length data))
  then Some (replicate (Z.to_nat maxSize) 0 ++ drop (Z.to_nat maxSize) data)
  else None.

(** [AudioOutputIODevice::readData]; [data] is the caller's byte buffer and
    [bytesAudioOutputUnplayed] is
    [_audioOutput->bufferSize() - _audioOutput->bytesFree()].  The result is
    the returned count, the buffer and the state afterwards. *)
Definition readData (data : list Z) (maxSize : Z) (bytesAudioOutputUnplayed : Z)
    (s : AudioClient) : option (Z * list Z * AudioClient) :=
  let samplesRequested := to_int (to_quint64 maxSize / 2) in
  let '(samplesPopped, stream) := popSamples X (_receivedAudioStream s) samplesRequested false in
  let s := set_receivedAudioStream stream s in
  '(data, bytesWritten) ←
    (if decide (samplesPopped > 0) then
       data ← readSamplesInto data (getLastPopOutput stream) (Z.to_nat samplesPopped);
       Some (data, to_int (to_quint64 samplesPopped * 2))
     else
       data ← memsetZero data maxSize;
       Some (data, to_int maxSize));
  let s := if bool_decide (bytesAudioOutputUnplayed = 0) && bool_decide (bytesWritten = 0)
           then set_unfulfilledReads (to_int (_unfulfilledReads s + 1)) s
           else s in
  Some (bytesWritten, data, s).

(** *** Session operations *)

(** [start]; the two devices are what [defaultAudioDeviceForMode] returns. *)
Definition start (inputDeviceInfo outputDeviceInfo : QAudioDeviceInfo) (s : AudioClient)
  : AudioClient :=
  let desired := mkFormat (SAMPLE_RATE K) 1 16 1%nat LittleEndian SignedInt in
  let s := set_desiredInputFormat desired s in
  let s := set_desiredOutputFormat (setChannelCount 2 (_desiredInputFormat s)) s in
  let s := (switchInputToAudioDevice inputDeviceInfo s).2 in
  (switchOutputToAudioDevice outputDeviceInfo s).2.

(** The null device ([QAudioDeviceInfo()]). *)
Definition nullDevice : QAudioDeviceInfo :=
  {| isNull := true; deviceName := 0%nat; isFormatSupported := fun _ => false;
     supportedSampleRates := []; nearestFormat := fun f => f; inputStarts := false |}.

(** [stop] *)
Definition stop (s : AudioClient) : AudioClient :=
  let s := (switchInputToAudioDevice nullDevice s).2 in
  let s := (switchOutputToAudioDevice nullDevice s).2 in
  if _loopbackResampler s is Some _ then set_loopbackResampler None s else s.

(** [setIsStereoInput]; [namedDevice] is what [getNamedAudioDeviceForMode]
    finds for [_inputAudioDeviceName]. *)
Definition setIsStereoInput (namedDevice : QAudioDeviceInfo) (isStereoInput : bool)
    (s : AudioClient) : AudioClient :=
  if negb (eqb isStereoInput (_isStereoInput s)) then
    let s := set_isStereoInput isStereoInput s in
    let s := if _isStereoInput s
             then set_desiredInputFormat (setChannelCount 2 (_desiredInputFormat s)) s
             else set_desiredInputFormat (setChannelCount 1 (_desiredInputFormat s)) s in
    (switchInputToAudioDevice namedDevice s).2
  else s.

(** *** Views of the state *)

(** The two source flags. *)
Definition sourceFlags (s : AudioClient) : bool * bool :=
  (_toneSourceEnabled s, _noiseSourceEnabled s).

(** What the loop body reads and does not write. *)
Definition frameView (s : AudioClient) : bool * bool * Z :=
  (_muted s, _isStereoInput s, _numInputCallbackBytes s).

(** The fields of the starve detection. *)
Definition starveView (s : AudioClient) : Z * bool * Z * Z * Z * Z :=
  (_outputBufferSizeFrames s, _outputStarveDetectionEnabled s,
   _outputStarveDetectionPeriodMsec s, _outputStarveDetectionThreshold s,
   _outputStarveDetectionStartTimeMsec s, _outputStarveDetectionCount s).

(** The clamp of [setOutputBufferSize]. *)
Definition clampFrames (numFrames : Z) : Z :=
  Z.min (Z.max numFrames (MIN_AUDIO_OUTPUT_BUFFER_SIZE_FRAMES K))
        (MAX_AUDIO_OUTPUT_BUFFER_SIZE_FRAMES K).

(** *** Runs of the loop body *)

(** Whether the unmuted branch detects a clip in the frame it processes in
    state [s]: the gate's verdict when the gate is used, otherwise whether
    a sample of the frame is above the clipping threshold. *)
Definition clipDetected (env : FrameEnv) (s : AudioClient) : bool :=
  match resampledNetworkSamples s with
  | Some samples =>
      if usesNoiseGate s then env_gateClipped env
      else existsb sampleClips (take (Z.to_nat (numNetworkSamples s)) samples)
  | None => false
  end.

(** Consecutive iterations of the loop body, one per environment, all of
    them unmuted and without a detected clip ([None] otherwise). *)
Fixpoint quietFrames (envs : list FrameEnv) (s : AudioClient) : option AudioClient :=
  match envs with
  | [] => Some s
  | env :: rest =>
      if negb (_muted s) && negb (clipDetected env s) then
        s ← processNetworkFrame env s;
        quietFrames rest s
      else None
  end.

(** [n] additions of [d] to [t] in single precision. *)
Fixpoint accumulate (n : nat) (d t : Float32.float) : Float32.float :=
  match n with
  | O => t
  | S n' => accumulate n' d (Float32.add t d)
  end.

(** The mixer-active iterations among [count] iterations from [first]. *)
Fixpoint activeIterations (envs : nat -> FrameEnv) (first count : nat) : Z :=
  match count with
  | O => 0
  | S count' =>
      (if env_mixerActive (envs first) then 1 else 0)
      + activeIterations envs (S first) count'
  end.

(** *** Runs of the starve detection *)

(** The test [dt > _outputStarveDetectionPeriodMsec.get()] of
    [outputNotify]. *)
Definition windowExpired (usecTimestampNow : Z) (s : AudioClient) : bool :=
  bool_decide
    (to_quint64 (usecTimestampNow / 1000 - _outputStarveDetectionStartTimeMsec s)
     > to_quint64 (_outputStarveDetectionPeriodMsec s)).

(** A threshold crossing: a notification that reaches
    [setOutputBufferSize]. *)
Definition thresholdCrossed (recentUnfulfilled usecTimestampNow : Z) (s : AudioClient) : bool :=
  bool_decide (recentUnfulfilled > 0)
  && _outputStarveDetectionEnabled s
  && negb (windowExpired usecTimestampNow s)
  && bool_decide (to_int (_outputStarveDetectionCount s + recentUnfulfilled)
                  > _outputStarveDetectionThreshold s).


(** *** Reachable states

    One step is one call of an operation of the client (or one iteration
    of the input-processing loop), for any inputs from the surroundings. *)
Inductive step : AudioClient -> AudioClient -> Prop :=
  | step_audioMixerKilled s : step s (audioMixerKilled s)
  | step_toggleMute s : step s (toggleMute s)
  | step_toggleAudioSourceInject s : step s (toggleAudioSourceInject s)
  | step_selectAudioSourcePinkNoise s : step s (selectAudioSourcePinkNoise s)
  | step_selectAudioSourceSine440 s : step s (selectAudioSourceSine440 s)
  | step_parseAudioEnvironmentData s bit : step s (parseAudioEnvironmentData bit s)
  | step_setLocalEcho s requested : step s (setLocalEcho requested s)
  | step_setServerEcho s requested : step s (setServerEcho requested s)
  | step_setNoiseGateEnabled s enabled : step s (setNoiseGateEnabled enabled s)
  | step_setReverb s reverb : step s (setReverb reverb s)
  | step_start s inputDevice outputDevice : step s (start inputDevice outputDevice s)
  | step_stop s : step s (stop s)
  | step_setIsStereoInput s device isStereoInput :
      step s (setIsStereoInput device isStereoInput s)
  | step_switchInputToAudioDevice s device :
      step s (switchInputToAudioDevice device s).2
  | step_switchOutputToAudioDevice s device :
      step s (switchOutputToAudioDevice device s).2
  | step_setOutputBufferSize s device numFrames :
      step s (setOutputBufferSize device numFrames s)
  | step_outputNotify s device recentUnfulfilled usecTimestampNow :
      step s (outputNotify device recentUnfulfilled usecTimestampNow s)
  | step_handleAudioInput s readAll envs iterations s' :
      handleAudioInput readAll envs s = Some (iterations, s') -> step s s'
  | step_processNetworkFrame s env s' :
      processNetworkFrame env s = Some s' -> step s s'
  | step_readData s data maxSize unplayed bytesWritten data' s' :
      readData data maxSize unplayed s = Some (bytesWritten, data', s') -> step s s'.

(** The states a client can be in: those reached from a freshly
    constructed client. *)
Inductive reachable : AudioClient -> Prop :=
  | reachable_new stream packetBuffer frames enabled period threshold :
      reachable (newAudioClient stream packetBuffer frames enabled period threshold)
  | reachable_step s s' : reachable s -> step s s' -> reachable s'.

End WithContext.
End Client.

(** ** Lookup of a device by name *)

Module DeviceLookup.
Section WithContext.
Variable K : AudioConstants.
Variable X : Collaborators.

(** [getNamedAudioDeviceForMode]; [availableDevices] is the list
    [QAudioDeviceInfo::availableDevices(mode)].  The source compares the
    trimmed names; a [deviceName] of the model stands for the trimmed name.
    Without a match the default-constructed [QAudioDeviceInfo] is returned. *)
Fixpoint getNamedAudioDeviceForMode (availableDevices : list QAudioDeviceInfo)
    (name : nat) : QAudioDeviceInfo :=
  match availableDevices with
  | [] => Client.nullDevice
  | audioDevice :: rest =>
      if decide (deviceName audioDevice = name) then audioDevice
      else getNamedAudioDeviceForMode rest name
  end.

(** [getDeviceNames] *)
Definition getDeviceNames (availableDevices : list QAudioDeviceInfo) : list nat :=
  map deviceName availableDevices.

(** [switchInputToAudioDevice(const QString&)] *)
Definition switchInputToAudioDeviceNamed (availableDevices : list QAudioDeviceInfo)
    (inputDeviceName : nat) (s : AudioClient) : bool * AudioClient :=
  Client.switchInputToAudioDevice K X
    (getNamedAudioDeviceForMode availableDevices inputDeviceName) s.

(** [switchOutputToAudioDevice(const QString&)] *)
Definition switchOutputToAudioDeviceNamed (availableDevices : list QAudioDeviceInfo)
    (outputDeviceName : nat) (s : AudioClient) : bool * AudioClient :=
  Client.switchOutputToAudioDevice K X
    (getNamedAudioDeviceForMode availableDevices outputDeviceName) s.

End WithContext.
End DeviceLookup.

(** ** Reverb ([addReverb]) *)

Module Reverb.
Section WithGverb.
Variable K : AudioConstants.

(** A [ty_gverb] instance and [gverb_do]: one input value gives the next
    state of the instance and the left and right values. *)
Variable ty_gverb : Type.
Variable gverb_do : ty_gverb -> Float32.float -> ty_gverb * (Float32.float * Float32.float).

(** [1.0f] *)
Definition one : Float32.float := S754_finite false 8388608 (-23).

(** [glm::clamp(x, minVal, maxVal)], that is [min(max(x, minVal), maxVal)] *)
Definition clamp (x minVal maxVal : Z) : Z := Z.min (Z.max x minVal) maxVal.

(** [float dryFraction = (noEcho) ? 0.0f : (1.0f - wetFraction);] *)
Definition dryFraction (wetFraction : Float32.float) (noEcho : bool) : Float32.float :=
  if noEcho then Float32.zero else SFsub Float32.prec Float32.emax one wetFraction.

(** The value stored for one channel:
    [(int16_t) glm::clamp((int)(samplesData[j] * dryFraction + value * wetFraction),
                          MIN_SAMPLE_VALUE, MAX_SAMPLE_VALUE)] *)
Definition mixedSample (sample : Z) (dry wet value : Float32.float) : Z :=
  to_int16
    (clamp (Float32.to_int
              (Float32.add (Float32.mul (Float32.of_int sample) dry) (Float32.mul value wet)))
       (MIN_SAMPLE_VALUE K) (MAX_SAMPLE_VALUE K)).

(** The inner loop [for (int j = sample; j < sample + channelCount; j++)],
    with [channels] iterations left: the left channel is index [sample],
    the right channel the one after it, further channels are ignored. *)
Fixpoint mixChannels (channels : nat) (j sample : nat)
    (dry wet lValue rValue : Float32.float) (samplesData : list Z) : option (list Z) :=
  match channels with
  | O => Some samplesData
  | S channels' =>
      samplesData ←
        (if decide (j = sample) then
           x ← samplesData !! j;
           Some (<[j := mixedSample x dry wet lValue]> samplesData)
         else if decide (j = (sample + 1)%nat) then
           x ← samplesData !! j;
           Some (<[j := mixedSample x dry wet rValue]> samplesData)
         else Some samplesData);
      mixChannels channels' (S j) sample dry wet lValue rValue samplesData
  end.

(** The outer loop
    [for (int sample = 0; sample < numSamples; sample += audioFormat.channelCount())].
    The result is [None] when an access is outside the array or the fuel
    runs out. *)
Fixpoint reverbLoop (fuel : nat) (gverb : ty_gverb) (sample numSamples channels : Z)
    (dry wet : Float32.float) (samplesData : list Z) : option (ty_gverb * list Z) :=
  if decide (sample < numSamples) then
    match fuel with
    | O => None
    | S fuel' =>
        if decide (0 <= sample) then
          x ← samplesData !! Z.to_nat sample;
          let '(gverb, (lValue, rValue)) := gverb_do gverb (Float32.of_int x) in
          samplesData ← mixChannels (Z.to_nat channels) (Z.to_nat sample) (Z.to_nat sample)
                          dry wet lValue rValue samplesData;
          reverbLoop fuel' gverb (to_int (sample + channels)) numSamples channels
            dry wet samplesData
        else None
    end
  else Some (gverb, samplesData).

(** [addReverb]; [wetFraction] is [DB_CO(_reverbOptions->getWetLevel())],
    computed by a macro of the gverb header.  The result is the instance
    and the samples afterwards. *)
Definition addReverb (wetFraction : Float32.float) (gverb : ty_gverb)
    (samplesData : list Z) (numSamples : Z) (audioFormat : QAudioFormat) (noEcho : bool)
  : option (ty_gverb * list Z) :=
  reverbLoop (Z.to_nat numSamples) gverb 0 numSamples (channelCount audioFormat)
    (dryFraction wetFraction noEcho) wetFraction samplesData.

End WithGverb.
End Reverb.

(** ** Views of the device state *)

Module DeviceState.

(** The input side of a client. *)
Definition inputSide (s : AudioClient)
  : bool * bool * bool * QAudioFormat * QAudioFormat * option soxr_t :=
  (_audioInput s, _inputDevice s, _isStereoInput s, _inputFormat s, _desiredInputFormat s,
   _inputToNetworkResampler s).

(** The output side of a client, the loopback device and resampler apart. *)
Definition outputSide (s : AudioClient)
  : option Z * bool * QAudioFormat * QAudioFormat * option soxr_t :=
  (_audioOutput s, _loopbackAudioOutput s, _outputFormat s, _desiredOutputFormat s,
   _networkToOutputResampler s).

(** The loopback device and resampler. *)
Definition loopbackSide (s : AudioClient) : bool * option soxr_t :=
  (_loopbackOutputDevice s, _loopbackResampler s).

(** What the input-processing loop works on. *)
Definition loopSide (s : AudioClient)
  : list Z * Float32.float * Float32.float * list Z * list (Packet * bool) * Z :=
  (_inputRingBuffer s, _lastInputLoudness s, _timeSinceLastClip s, networkAudioSamples s,
   sentDatagrams s, _outgoingAvatarAudioSequenceNumber s).

(** The sequence numbers of the packets handed to [writeDatagram], oldest
    first. *)
Definition sentSequenceNumbers (s : AudioClient) : list Z :=
  rev (map (fun sent => pkt_sequenceNumber sent.1) (sentDatagrams s)).

(** What an input switch leaves alone. *)
Definition besidesInput (s : AudioClient) := (outputSide s, loopbackSide s).

(** What no iteration of the input-processing loop touches. *)
Definition devices (s : AudioClient) := (inputSide s, outputSide s, loopbackSide s).

(** Consistency of the input side: an input I/O device belongs to an input
    object; an open input of a client that wants stereo has two channels;
    an open input has a resampler exactly when its rate is not the rate of
    the desired input format. *)
Definition inputConsistent (s : AudioClient) : Prop :=
  (_inputDevice s = true -> _audioInput s = true)
  /\ (_audioInput s = true -> _isStereoInput s = true -> channelCount (_inputFormat s) = 2)
  /\ (_audioInput s = true ->
      (is_Some (_inputToNetworkResampler s)
       <-> sampleRate (_inputFormat s) <> sampleRate (_desiredInputFormat s))).

(** Consistency of the output side: the loopback output exists exactly
    when the output does; a loopback device or resampler needs the output;
    an open output has a resampler exactly when its rate is not the rate of
    the desired output format. *)
Definition outputConsistent (s : AudioClient) : Prop :=
  (_loopbackAudioOutput s = true <-> is_Some (_audioOutput s))
  /\ (_loopbackOutputDevice s = true -> is_Some (_audioOutput s))
  /\ (is_Some (_loopbackResampler s) -> is_Some (_audioOutput s))
  /\ (is_Some (_audioOutput s) ->
      (is_Some (_networkToOutputResampler s)
       <-> sampleRate (_desiredOutputFormat s) <> sampleRate (_outputFormat s))).

(** The part of the output consistency that an output switch relies on. *)
Definition outputTied (s : AudioClient) : Prop :=
  (_loopbackAudioOutput s = true <-> is_Some (_audioOutput s))
  /\ (_loopbackOutputDevice s = true -> is_Some (_audioOutput s)).

(** The format [start] desires for the input: 16-bit signed little-endian
    PCM, mono, at the network rate. *)
Definition networkFormat (K : AudioConstants) : QAudioFormat :=
  mkFormat (SAMPLE_RATE K) 1 16 1%nat LittleEndian SignedInt.

End DeviceState.

(** ** A sample configuration

    Concrete constants, collaborators and devices on which the model is run
    in the examples below.  The network rate is 24 kHz, so that twice the
    rate is the 48 kHz the comments of [adjustedFormatForAudioDevice] name. *)

Module Sample.

Definition constants : AudioConstants :=
  {| SAMPLE_RATE := 24000;
     NETWORK_FRAME_BYTES_STEREO := 1024;
     NETWORK_FRAME_SAMPLES_STEREO := 512;
     NETWORK_FRAME_BYTES_PER_CHANNEL := 512;
     NETWORK_FRAME_SAMPLES_PER_CHANNEL := 256;
     MAX_SAMPLE_VALUE := 32767;
     MIN_SAMPLE_VALUE := -32768;
     CLIPPING_THRESHOLD := Float32.div (Float32.of_int 9) (Float32.of_int 10);
     CALLBACK_ACCELERATOR_RATIO := Float32.of_int 2;
     MIN_AUDIO_OUTPUT_BUFFER_SIZE_FRAMES := 1;
     MAX_AUDIO_OUTPUT_BUFFER_SIZE_FRAMES := 20 |}.

Definition pcm (rate channels : Z) : QAudioFormat :=
  mkFormat rate channels 16 1%nat LittleEndian SignedInt.

(** An engine that accepts every pair of rates and delivers silence. *)
Definition silentEngine : SoxrEngine :=
  {| soxr_create_error := fun _ _ => false;
     soxr_process := fun _ _ olen => replicate olen 0 |}.

(** A received stream that has [available] samples of value [7] left. *)
Definition streamWith (available : nat) : MixedProcessedAudioStream :=
  {| hasReverb := false; getLastPopOutput := fun _ => 7; streamInternal := available |}.

Definition collaborators : Collaborators :=
  {| engine := silentEngine;
     popSamples := fun st maxSamples _ =>
       let k := Z.min (Z.max maxSamples 0) (Z.of_nat (streamInternal st)) in
       (k, streamWith (streamInternal st - Z.to_nat k));
     toneSourceRender := fun l => l;
     noiseSourceRender := fun l => l;
     sourceGainRender := fun l => l;
     addReverb := fun l _ => l;
     loopbackStarts := true;
     uninitializedSample := fun _ => -21846 |}.

(** A device that supports exactly the formats of one sample rate. *)
Definition deviceAt (name : nat) (rate : Z) : QAudioDeviceInfo :=
  {| isNull := false;
     deviceName := name;
     isFormatSupported := fun f => bool_decide (sampleRate f = rate);
     supportedSampleRates := [rate];
     nearestFormat := fun f => setSampleRate rate f;
     inputStarts := true |}.

(** A device that supports only stereo at one sample rate. *)
Definition stereoOnlyDevice (name : nat) (rate : Z) : QAudioDeviceInfo :=
  {| isNull := false;
     deviceName := name;
     isFormatSupported := fun f => bool_decide (sampleRate f = rate /\ channelCount f = 2);
     supportedSampleRates := [rate];
     nearestFormat := fun f => setChannelCount 2 (setSampleRate rate f);
     inputStarts := true |}.

(** A device that supports no format and lists no sample rate; its nearest
    format is at 16 kHz. *)
Definition bareDevice (name : nat) : QAudioDeviceInfo :=
  {| isNull := false;
     deviceName := name;
     isFormatSupported := fun _ => false;
     supportedSampleRates := [];
     nearestFormat := fun f => setSampleRate 16000 f;
     inputStarts := true |}.

Definition quietEnv (mixerActive : bool) : FrameEnv :=
  {| env_mixerActive := mixerActive;
     env_writeDatagramSucceeds := false;
     env_gateSamples := fun l => l;
     env_gateLastLoudness := Float32.zero;
     env_gateClipped := false;
     env_headPosition := (Float32.zero, Float32.zero, Float32.zero);
     env_headOrientation := (Float32.zero, Float32.zero, Float32.zero, Float32.zero) |}.

Definition clippingEnv : FrameEnv :=
  {| env_mixerActive := true;
     env_writeDatagramSucceeds := true;
     env_gateSamples := fun l => l;
     env_gateLastLoudness := Float32.of_int 30000;
     env_gateClipped := true;
     env_headPosition := (Float32.zero, Float32.zero, Float32.zero);
     env_headOrientation := (Float32.zero, Float32.zero, Float32.zero, Float32.zero) |}.

(** A fresh client with a packet buffer of 256 samples and starve
    detection enabled (period 10 s, threshold 3). *)
Definition fresh (outputBufferSizeFrames : Z) : AudioClient :=
  Client.newAudioClient (streamWith 0) (replicate 256 0) outputBufferSizeFrames true 10000 3.

(** A client on 44.1 kHz devices; the network format is at 24 kHz. *)
Definition onFortyFour : AudioClient :=
  Client.start constants collaborators (deviceAt 1 44100) (deviceAt 2 44100) (fresh 3).

(** A client with local echo on 44.1 kHz input and 48 kHz output. *)
Definition echoing : AudioClient :=
  Client.setLocalEcho true
    (Client.start constants collaborators (deviceAt 1 44100) (deviceAt 2 48000) (fresh 3)).

(** A client whose stream holds three samples. *)
Definition withThreeSamples : AudioClient :=
  set_receivedAudioStream (streamWith 3) (fresh 3).

(** A client started on 24 kHz devices. *)
Definition idle : AudioClient :=
  Client.start constants collaborators (deviceAt 1 24000) (deviceAt 2 24000) (fresh 3).

(** The same client with seven frames of input in the ring buffer, as at the
    start of the input-processing loop. *)
Definition started : AudioClient :=
  set_inputRingBuffer (replicate (7 * 256) 100) idle.

(** A mono device at one rate that also lists 44.1 kHz; its nearest format
    is its mono format. *)
Definition monoDevice (name : nat) (rate : Z) : QAudioDeviceInfo :=
  {| isNull := false;
     deviceName := name;
     isFormatSupported := fun f => bool_decide (sampleRate f = rate /\ channelCount f = 1);
     supportedSampleRates := [rate; 44100];
     nearestFormat := fun f => setChannelCount 1 (setSampleRate rate f);
     inputStarts := true |}.

(** A device that lists 44.1 kHz and whose nearest format runs at 8 kHz. *)
Definition slowDevice (name : nat) : QAudioDeviceInfo :=
  {| isNull := false;
     deviceName := name;
     isFormatSupported := fun f => bool_decide (sampleRate f = 8000);
     supportedSampleRates := [44100];
     nearestFormat := fun f => setSampleRate 8000 f;
     inputStarts := true |}.

(** A client whose output is the mono device at the network rate. *)
Definition onMonoOutput : AudioClient :=
  Client.start constants collaborators (deviceAt 1 24000) (monoDevice 2 24000) (fresh 3).

(** A muted client whose input is the 8 kHz device. *)
Definition mutedOnSlowInput : AudioClient :=
  Client.toggleMute
    (Client.start constants collaborators (slowDevice 1) (deviceAt 2 24000) (fresh 3)).

(** The devices the system lists; two of them carry the name 2. *)
Definition availableDevices : list QAudioDeviceInfo :=
  [deviceAt 1 24000; deviceAt 2 44100; deviceAt 2 48000].

(** A client that sends stereo, on the same devices, with a packet buffer
    of 512 samples, one stereo frame of input in the ring buffer and a clip
    timer of [0.0f]. *)
Definition startedStereo : AudioClient :=
  set_timeSinceLastClip Float32.zero
    (set_inputRingBuffer (replicate 512 100)
       (set_networkAudioSamples (replicate 512 0)
          (Client.setIsStereoInput constants collaborators (deviceAt 1 24000) true idle))).

End Sample.

(** * Properties *)

(** ** Facts about machine integers *)

Module MachineIntFacts.

Lemma to_int16_id z : is_int16 z -> to_int16 z = z.
Proof.
  unfold is_int16, INT16_MIN, INT16_MAX, to_int16, wrap_signed.
  intros H. change (2 ^ (16 - 1)) with 32768. change (2 ^ 16) with 65536.
  rewrite Z.mod_small; lia.
Qed.

Lemma to_int_id z : is_int z -> to_int z = z.
Proof.
  unfold is_int, INT_MIN, INT_MAX, to_int, wrap_signed.
  intros H. change (2 ^ (32 - 1)) with 2147483648.
  change (2 ^ 32) with 4294967296.
  rewrite Z.mod_small; lia.
Qed.

Lemma to_int_range z : is_int (to_int z).
Proof.
  unfold is_int, INT_MIN, INT_MAX, to_int, wrap_signed.
  change (2 ^ (32 - 1)) with 2147483648.
  change (2 ^ 32) with 4294967296.
  pose proof (Z.mod_pos_bound (z + 2147483648) 4294967296). lia.
Qed.

Lemma to_quint16_range z : 0 <= to_quint16 z < 65536.
Proof.
  unfold to_quint16, wrap_unsigned. change (2 ^ 16) with 65536.
  apply Z.mod_pos_bound. lia.
Qed.

Lemma to_quint64_id z : 0 <= z < 2 ^ 64 -> to_quint64 z = z.
Proof. intros H. unfold to_quint64, wrap_unsigned. apply Z.mod_small. exact H. Qed.

Lemma half_sum_is_int16 a b :
  is_int16 a -> is_int16 b -> is_int16 (cdiv a 2 + cdiv b 2).
Proof.
  unfold is_int16, INT16_MIN, INT16_MAX, cdiv. intros Ha Hb.
  assert (Ha1 : Z.quot a 2 <= Z.quot 32767 2) by (apply Z.quot_le_mono; lia).
  assert (Hb1 : Z.quot b 2 <= Z.quot 32767 2) by (apply Z.quot_le_mono; lia).
  assert (Ha2 : Z.quot (-32768) 2 <= Z.quot a 2) by (apply Z.quot_le_mono; lia).
  assert (Hb2 : Z.quot (-32768) 2 <= Z.quot b 2) by (apply Z.quot_le_mono; lia).
  change (Z.quot 32767 2) with 16383 in Ha1, Hb1.
  change (Z.quot (-32768) 2) with (-16384) in Ha2, Hb2.
  lia.
Qed.

End MachineIntFacts.

(** ** Channel conversion *)

Module ChannelConversionFacts.
Import ChannelConversion MachineIntFacts.

(** The stereo-to-mono loop started at the even index [2 * k]: it writes
    the [iters] destination samples from [k] on and leaves the others. *)
Lemma stereoToMonoLoop_spec (iters k : nat) (src dst : list Z) :
  (2 * k + 2 * iters <= length src)%nat ->
  (k + iters <= length dst)%nat ->
  Forall is_int16 src ->
  exists dst',
    stereoToMonoLoop iters (2 * k)%nat src dst = Some dst'
    /\ length dst' = length dst
    /\ (forall j a b, (k <= j < k + iters)%nat ->
          src !! (2 * j)%nat = Some a -> src !! (2 * j + 1)%nat = Some b ->
          dst' !! j = Some (cdiv a 2 + cdiv b 2))
    /\ (forall j, (j < k \/ k + iters <= j)%nat -> dst' !! j = dst !! j).
Proof.
  revert k dst. induction iters as [|iters IH]; intros k dst Hsrc Hdst Hrange.
  - exists dst. simpl. repeat split; auto. intros; lia.
  - destruct (lookup_lt_is_Some_2 src (2 * k)%nat) as [a Ha]; [lia|].
    destruct (lookup_lt_is_Some_2 src (2 * k + 1)%nat) as [b Hb]; [lia|].
    assert (Hk : ((2 * k) `div` 2 = k)%nat).
    { rewrite Nat.mul_comm. apply Nat.div_mul. lia. }
    cbn [stereoToMonoLoop]. rewrite Ha. cbn [mbind option_bind]. rewrite Hb.
    cbn [mbind option_bind]. rewrite Hk.
    destruct (decide (k < length dst)%nat) as [Hlt|]; [|lia].
    replace (2 * k + 2)%nat with (2 * S k)%nat by lia.
    destruct (IH (S k) (<[k := to_int16 (cdiv a 2 + cdiv b 2)]> dst))
      as (dst' & Hrun & Hlen & Hwritten & Hkept).
    { lia. } { rewrite length_insert. lia. } { exact Hrange. }
    exists dst'. split; [exact Hrun|]. split; [rewrite Hlen; apply length_insert|].
    split.
    + intros j a' b' Hj Ha' Hb'.
      destruct (decide (j = k)) as [->|Hne].
      * rewrite Hkept by lia. rewrite list_lookup_insert_eq by lia.
        rewrite Ha in Ha'. rewrite Hb in Hb'. simplify_eq.
        f_equal. apply to_int16_id. apply half_sum_is_int16.
        -- eapply Forall_lookup_1; eauto.
        -- eapply Forall_lookup_1; eauto.
      * apply Hwritten; auto. lia.
    + intros j Hj. rewrite Hkept by lia. apply list_lookup_insert_ne. lia.
Qed.

(** C2.  For a stereo source of [n] samples ([n] even, every sample a
    16-bit value) and a mono destination, [sampleChannelConversion] succeeds
    and destination sample [j] is exactly [(a / 2) + (b / 2)] for the [j]-th
    pair [(a, b)], each half truncated toward zero; the other destination
    samples are untouched.  On the pair [(1, 1)] the result is [0], which is
    not [(1 + 1) / 2]. *)
Theorem stereo_to_mono_adds_truncated_halves
    (src dst : list Z) (n : nat) (sourceFormat destinationFormat : QAudioFormat) :
  channelCount sourceFormat = 2 ->
  channelCount destinationFormat = 1 ->
  Nat.Even n ->
  (n <= length src)%nat ->
  (n `div` 2 <= length dst)%nat ->
  Forall is_int16 src ->
  (exists dst',
     sampleChannelConversion src dst n sourceFormat destinationFormat = Some (true, dst')
     /\ length dst' = length dst
     /\ (forall j a b, (j < n `div` 2)%nat ->
           src !! (2 * j)%nat = Some a -> src !! (2 * j + 1)%nat = Some b ->
           dst' !! j = Some (Z.quot a 2 + Z.quot b 2))
     /\ (forall j, (n `div` 2 <= j)%nat -> dst' !! j = dst !! j))
  /\ sampleChannelConversion [1; 1] [0] 2 sourceFormat destinationFormat = Some (true, [0])
  /\ Z.quot (1 + 1) 2 = 1.
Proof.
  intros Hs Hd [m ->] Hsrc Hdst Hrange.
  assert (Hhalf : ((2 * m) `div` 2 = m)%nat).
  { rewrite Nat.mul_comm. apply Nat.div_mul. lia. }
  assert (Hiters : ((2 * m + 1) `div` 2 = m)%nat).
  { symmetry. apply (Nat.div_unique _ _ _ 1%nat); lia. }
  rewrite Hhalf in *.
  unfold sampleChannelConversion.
  destruct (decide (channelCount sourceFormat = 2 /\ channelCount destinationFormat = 1))
    as [_|Hn]; [|tauto].
  split; [|split; [reflexivity|reflexivity]].
  rewrite Hiters.
  destruct (stereoToMonoLoop_spec m 0 src dst) as (dst' & Hrun & Hlen & Hw & Hk);
    [lia | lia | exact Hrange |].
  exists dst'. change (2 * 0)%nat with 0%nat in Hrun. rewrite Hrun.
  split; [reflexivity|]. split; [exact Hlen|]. split.
  - intros j a b Hj. apply Hw. lia.
  - intros j Hj. apply Hk. lia.
Qed.

(** The run of C2 on the frames [(3, 5)] and [(-3, -5)]. *)
Lemma stereo_to_mono_adds_truncated_halves_witness :
  (exists dst',
     sampleChannelConversion [3; 5; -3; -5] [0; 0; 9] 4 (Sample.pcm 48000 2) (Sample.pcm 48000 1)
       = Some (true, dst')
     /\ length dst' = length [0; 0; 9]
     /\ (forall j a b, (j < 4 `div` 2)%nat ->
           [3; 5; -3; -5] !! (2 * j)%nat = Some a -> [3; 5; -3; -5] !! (2 * j + 1)%nat = Some b ->
           dst' !! j = Some (Z.quot a 2 + Z.quot b 2))
     /\ (forall j, (4 `div` 2 <= j)%nat -> dst' !! j = [0; 0; 9] !! j))
  /\ sampleChannelConversion [1; 1] [0] 2 (Sample.pcm 48000 2) (Sample.pcm 48000 1)
     = Some (true, [0])
  /\ Z.quot (1 + 1) 2 = 1.
Proof.
  apply (stereo_to_mono_adds_truncated_halves
           [3; 5; -3; -5] [0; 0; 9] 4 (Sample.pcm 48000 2) (Sample.pcm 48000 1)).
  - reflexivity.
  - reflexivity.
  - exists 2%nat. reflexivity.
  - simpl. lia.
  - simpl. lia.
  - repeat constructor; unfold is_int16, INT16_MIN, INT16_MAX; lia.
Defined.

End ChannelConversionFacts.

(** ** Destination sample counts *)

Module SampleCountFacts.
Import SampleCount Client MachineIntFacts.

(** Rounding to nearest is the floor or the floor plus one. *)
Lemma rounded_quotient_bounds a b :
  0 <= a -> 0 < b -> a / b <= (2 * a + b) / (2 * b) <= a / b + 1.
Proof.
  intros Ha Hb.
  pose proof (Z.div_mod a b ltac:(lia)) as Hab.
  pose proof (Z.mod_pos_bound a b Hb) as Hr.
  pose proof (Z.div_mod (2 * a + b) (2 * b) ltac:(lia)) as Hab2.
  pose proof (Z.mod_pos_bound (2 * a + b) (2 * b) ltac:(lia)) as Hr2.
  nia.
Qed.

(** The count of the render path is the truncated quotient. *)
Lemma numDeviceOutputSamples_exact (desired output : QAudioFormat) (n : Z) :
  0 < n ->
  0 < sampleRate desired * channelCount desired <= INT_MAX ->
  0 <= sampleRate output * channelCount output ->
  n * (sampleRate output * channelCount output) <= INT_MAX ->
  numDeviceOutputSamples desired output n
  = n * (sampleRate output * channelCount output)
    / (sampleRate desired * channelCount desired).
Proof.
  intros Hn Hd Ho Hprod. unfold numDeviceOutputSamples, cdiv.
  unfold INT_MAX in *.
  rewrite (to_int_id (sampleRate output * channelCount output))
    by (unfold is_int, INT_MIN, INT_MAX; nia).
  rewrite (to_int_id (n * _)) by (unfold is_int, INT_MIN, INT_MAX; nia).
  rewrite (to_int_id (sampleRate desired * channelCount desired))
    by (unfold is_int, INT_MIN, INT_MAX; lia).
  rewrite Z.quot_div_nonneg by nia.
  apply to_int_id. unfold is_int, INT_MIN, INT_MAX.
  pose proof (Z.div_pos (n * (sampleRate output * channelCount output))
                (sampleRate desired * channelCount desired)).
  pose proof (Z.div_le_upper_bound (n * (sampleRate output * channelCount output))
                (sampleRate desired * channelCount desired)
                (n * (sampleRate output * channelCount output))).
  nia.
Qed.

Lemma isRoundedCount_checked : isRoundedCountUpTo 512 = true.
Proof. vm_cast_no_check (eq_refl true). Qed.

Lemma isRoundedCountUpTo_spec limit sr sc dr dc k :
  isRoundedCountUpTo limit = true ->
  In sr namedRates -> In sc [1; 2] -> In dr namedRates -> In dc [1; 2] ->
  (k < limit)%nat ->
  isRoundedCount (plainFormat sr sc) (plainFormat dr dc) (Z.of_nat (S k)) = true.
Proof.
  unfold isRoundedCountUpTo. intros H Hsr Hsc Hdr Hdc Hk.
  rewrite forallb_forall in H. specialize (H _ Hsr). cbv beta in H.
  rewrite forallb_forall in H. specialize (H _ Hsc). cbv beta in H.
  rewrite forallb_forall in H. specialize (H _ Hdr). cbv beta in H.
  rewrite forallb_forall in H. specialize (H _ Hdc). cbv beta in H.
  rewrite forallb_forall in H. apply H. apply in_seq. lia.
Qed.

(** The count depends on the rates and channel counts only. *)
Lemma isRoundedCount_rate_and_channels f1 f2 n :
  isRoundedCount f1 f2 n
  = isRoundedCount (plainFormat (sampleRate f1) (channelCount f1))
                   (plainFormat (sampleRate f2) (channelCount f2)) n.
Proof. reflexivity. Qed.

(** On the named rates, mono or stereo, and up to 512 samples the
    single-precision count is the rounded count. *)
Lemma numDestinationSamplesRequired_rounded f1 f2 n :
  In (sampleRate f1) namedRates -> In (channelCount f1) [1; 2] ->
  In (sampleRate f2) namedRates -> In (channelCount f2) [1; 2] ->
  1 <= n <= 512 ->
  0 <= numDestinationSamplesRequired f1 f2 n < 2 ^ 30
  /\ numDestinationSamplesRequired f1 f2 n = specRoundedCount f1 f2 n.
Proof.
  intros Hr1 Hc1 Hr2 Hc2 Hn.
  pose proof (isRoundedCountUpTo_spec 512 _ _ _ _ (Z.to_nat (n - 1))
                isRoundedCount_checked Hr1 Hc1 Hr2 Hc2 ltac:(lia)) as H.
  replace (Z.of_nat (S (Z.to_nat (n - 1)))) with n in H by lia.
  rewrite <- isRoundedCount_rate_and_channels in H.
  unfold isRoundedCount in H.
  apply andb_true_iff in H. destruct H as [H H3].
  apply andb_true_iff in H. destruct H as [H1 H2].
  apply Z.leb_le in H1. apply Z.ltb_lt in H2. apply Z.eqb_eq in H3. lia.
Qed.

(** C3 (as the code has it).  Let [n] be a positive source sample count.
    The render path requests the truncated quotient
    [n * (dstRate * dstChannels) / (srcRate * srcChannels)], for all formats
    whose products fit an [int]; that is the rounded value or one less.  The
    loopback path requests what [numDestinationSamplesRequired] computes in
    single precision; for mono or stereo formats at 22050, 24000, 44100 or
    48000 Hz and up to 512 source samples that is the rounded value. *)
Theorem destination_sample_counts (s : AudioClient) (n : Z) :
  0 < n ->
  (0 < sampleRate (_desiredOutputFormat s) * channelCount (_desiredOutputFormat s) <= INT_MAX ->
   0 <= sampleRate (_outputFormat s) * channelCount (_outputFormat s) ->
   n * (sampleRate (_outputFormat s) * channelCount (_outputFormat s)) <= INT_MAX ->
   numDeviceOutputSamples (_desiredOutputFormat s) (_outputFormat s) n
   = n * (sampleRate (_outputFormat s) * channelCount (_outputFormat s))
     / (sampleRate (_desiredOutputFormat s) * channelCount (_desiredOutputFormat s))
   /\ specRoundedCount (_desiredOutputFormat s) (_outputFormat s) n - 1
      <= numDeviceOutputSamples (_desiredOutputFormat s) (_outputFormat s) n
      <= specRoundedCount (_desiredOutputFormat s) (_outputFormat s) n)
  /\ (In (sampleRate (_inputFormat s)) namedRates ->
      In (channelCount (_inputFormat s)) [1; 2] ->
      In (sampleRate (_outputFormat s)) namedRates ->
      In (channelCount (_outputFormat s)) [1; 2] ->
      n <= 512 ->
      loopbackDestinationSamples s n
      = numDestinationSamplesRequired (_inputFormat s) (_outputFormat s) n
      /\ loopbackDestinationSamples s n
         = specRoundedCount (_inputFormat s) (_outputFormat s) n).
Proof.
  intros Hn. split.
  - intros Hd Ho Hprod.
    rewrite numDeviceOutputSamples_exact by assumption. split; [reflexivity|].
    unfold specRoundedCount.
    pose proof (rounded_quotient_bounds
                  (n * (sampleRate (_outputFormat s) * channelCount (_outputFormat s)))
                  (sampleRate (_desiredOutputFormat s) * channelCount (_desiredOutputFormat s))
                  ltac:(nia) ltac:(lia)) as Hb.
    replace (2 * n * (sampleRate (_outputFormat s) * channelCount (_outputFormat s)))
      with (2 * (n * (sampleRate (_outputFormat s) * channelCount (_outputFormat s))))
      by lia.
    lia.
  - intros Hir Hic Hor Hoc Hlimit.
    destruct (numDestinationSamplesRequired_rounded
                (_inputFormat s) (_outputFormat s) n Hir Hic Hor Hoc ltac:(lia))
      as [Hloop Hround].
    assert (Heq : loopbackDestinationSamples s n
                  = numDestinationSamplesRequired (_inputFormat s) (_outputFormat s) n).
    { unfold loopbackDestinationSamples.
      set (m := numDestinationSamplesRequired (_inputFormat s) (_outputFormat s) n) in *.
      change (2 ^ 30) with 1073741824 in Hloop.
      rewrite to_quint64_id by (change (2 ^ 64) with 18446744073709551616; lia).
      rewrite to_int_id by (unfold is_int, INT_MIN, INT_MAX; lia).
      rewrite Z.max_r by lia. apply Z.div_mul. lia. }
    rewrite Heq. split; [reflexivity|exact Hround].
Qed.

End SampleCountFacts.


(** ** Format negotiation *)

Module FormatNegotiationFacts.
Import FormatNegotiation.

Section WithConstants.
Variable K : AudioConstants.

(** C4 (as the code has it).  [adjustedFormatForAudioDevice] always
    returns a flag and a format.  The flag is [false] exactly when the device does not support
    the desired format, the mono-to-stereo fallback does not apply, and
    the sample-rate preference leaves the desired format as it is; the
    format handed back is then the desired format itself.  In every other
    case the flag is [true] and the format is the desired one (supported),
    its stereo variant, or the device's nearest format to the adjusted
    one. *)
Theorem negotiation_fails_only_when_nothing_was_adjusted
    (audioDevice : QAudioDeviceInfo) (desired adjusted : QAudioFormat) :
  let result := adjustedFormatForAudioDevice K audioDevice desired adjusted in
  (result.1 = false <->
     isFormatSupported audioDevice desired = false
     /\ ~ (channelCount desired = 1
           /\ isFormatSupported audioDevice (setChannelCount 2 desired) = true)
     /\ preferredSampleRate K audioDevice desired = desired)
  /\ (result.1 = false -> result.2 = desired)
  /\ (result.1 = true ->
        (isFormatSupported audioDevice desired = true /\ result.2 = desired)
        \/ (isFormatSupported audioDevice desired = false
            /\ channelCount desired = 1
            /\ isFormatSupported audioDevice (setChannelCount 2 desired) = true
            /\ result.2 = setChannelCount 2 desired)
        \/ (isFormatSupported audioDevice desired = false
            /\ preferredSampleRate K audioDevice desired <> desired
            /\ result.2
               = nearestFormat audioDevice (preferredSampleRate K audioDevice desired))).
Proof.
  cbv zeta. unfold adjustedFormatForAudioDevice.
  destruct (isFormatSupported audioDevice desired) eqn:Hs; cbn [negb].
  { cbn [fst snd]. split; [split; [discriminate|intros [H _]; discriminate]|].
    split; [discriminate|]. intros _. left. split; reflexivity. }
  destruct (decide (channelCount desired = 1)) as [Hmono|Hmono].
  - destruct (isFormatSupported audioDevice (setChannelCount 2 desired)) eqn:Hst.
    + cbn [fst snd]. split; [split; [discriminate|intros (_ & H & _); tauto]|].
      split; [discriminate|]. intros _. right. left. repeat split; assumption.
    + destruct (decide (preferredSampleRate K audioDevice desired <> desired)) as [Hp|Hp];
        cbn [fst snd].
      * split; [split; [discriminate|intros (_ & _ & H); tauto]|].
        split; [discriminate|]. intros _. right. right. repeat split; assumption.
      * apply dec_stable in Hp.
        split; [split; [intros _; repeat split; [intros [_ H]; discriminate|exact Hp]
                       |reflexivity]|].
        split; [intros _; exact Hp|discriminate].
  - destruct (decide (preferredSampleRate K audioDevice desired <> desired)) as [Hp|Hp];
      cbn [fst snd].
    + split; [split; [discriminate|intros (_ & _ & H); tauto]|].
      split; [discriminate|]. intros _. right. right. repeat split; assumption.
    + apply dec_stable in Hp.
      split; [split; [intros _; repeat split; [intros [H _]; tauto|exact Hp]
                     |reflexivity]|].
      split; [intros _; exact Hp|discriminate].
Qed.

End WithConstants.
End FormatNegotiationFacts.

Module FormatNegotiationExample.
Import FormatNegotiation.

(** The device supports the desired format: it is chosen. *)
Lemma negotiation_keeps_supported_format :
  adjustedFormatForAudioDevice Sample.constants (Sample.deviceAt 1 24000)
    (Sample.pcm 24000 1) Client.defaultFormat
  = (true, Sample.pcm 24000 1).
Proof. reflexivity. Qed.

(** Mono is desired and the device supports only stereo at the same rate:
    the stereo variant is chosen. *)
Lemma negotiation_upgrades_mono_to_stereo :
  adjustedFormatForAudioDevice Sample.constants (Sample.stereoOnlyDevice 1 48000)
    (Sample.pcm 48000 1) Client.defaultFormat
  = (true, Sample.pcm 48000 2).
Proof. reflexivity. Qed.

(** The device runs at 44.1 kHz only: the rate is adjusted. *)
Lemma negotiation_adjusts_sample_rate :
  adjustedFormatForAudioDevice Sample.constants (Sample.deviceAt 1 44100)
    (Sample.pcm 24000 1) Client.defaultFormat
  = (true, Sample.pcm 44100 1).
Proof. reflexivity. Qed.

(** The claim of C4 fails on a device that supports nothing and lists none
    of the preferred rates: the negotiation fails and hands back the desired
    format, although the device's nearest format (at 16 kHz) is not the
    desired format; the nearest format is not consulted. *)
Lemma negotiation_fails_without_consulting_nearest_format :
  adjustedFormatForAudioDevice Sample.constants (Sample.bareDevice 1)
    (Sample.pcm 24000 2) Client.defaultFormat
  = (false, Sample.pcm 24000 2)
  /\ nearestFormat (Sample.bareDevice 1) (Sample.pcm 24000 2) = Sample.pcm 16000 2
  /\ nearestFormat (Sample.bareDevice 1) (Sample.pcm 24000 2) <> Sample.pcm 24000 2.
Proof. split; [reflexivity|]. split; [reflexivity|]. discriminate. Qed.

End FormatNegotiationExample.

(** ** Facts about single-precision arithmetic *)

Module Float32Facts.
Import Float32.

Lemma shr_1_nonneg mrs : 0 <= shr_m mrs -> 0 <= shr_m (shr_1 mrs).
Proof.
  destruct mrs as [m r s]. simpl.
  destruct m as [|p|p]; simpl; try lia; destruct p; simpl; lia.
Qed.

Lemma iter_shr_1_nonneg p mrs : 0 <= shr_m mrs -> 0 <= shr_m (SpecFloat.iter_pos shr_1 p mrs).
Proof.
  revert mrs. induction p as [p IH|p IH|]; intros mrs H; simpl.
  - apply IH, IH, shr_1_nonneg, H.
  - apply IH, IH, H.
  - apply shr_1_nonneg, H.
Qed.

Lemma shr_nonneg mrs e n : 0 <= shr_m mrs -> 0 <= shr_m (shr mrs e n).1.
Proof.
  intros H. unfold shr. destruct n; simpl; auto. apply iter_shr_1_nonneg, H.
Qed.

Lemma shr_fexp_nonneg m e l : 0 <= m -> 0 <= shr_m (shr_fexp prec emax m e l).1.
Proof.
  intros H. unfold shr_fexp. apply shr_nonneg. destruct l as [|[]]; simpl; exact H.
Qed.

Lemma round_nearest_even_nonneg m l : 0 <= m -> 0 <= round_nearest_even m l.
Proof.
  intros H. unfold round_nearest_even. destruct l as [|[]]; try lia.
  destruct (Z.even m); lia.
Qed.

(** A rounded non-negative value is not negative (and not a NaN). *)
Lemma binary_round_aux_nonneg m e l :
  0 <= m -> nonneg (binary_round_aux prec emax false m e l) = true.
Proof.
  intros H. unfold binary_round_aux.
  pose proof (shr_fexp_nonneg m e l H) as H1.
  destruct (shr_fexp prec emax m e l) as [mrs' e'] eqn:E1. simpl in H1.
  pose proof (shr_fexp_nonneg _ e' loc_Exact
                (round_nearest_even_nonneg _ (loc_of_shr_record mrs') H1)) as H2.
  destruct (shr_fexp prec emax _ e' loc_Exact) as [mrs'' e''] eqn:E2. simpl in H2.
  destruct (shr_m mrs'') as [|p|p]; try reflexivity; try lia.
  destruct (e'' <=? emax - prec); reflexivity.
Qed.

Lemma add_nonneg x y : nonneg x = true -> nonneg y = true -> nonneg (add x y) = true.
Proof.
  destruct x as [sx|sx| |sx mx ex], y as [sy|sy| |sy my ey];
    try destruct sx; try destruct sy; try discriminate; try reflexivity.
  intros _ _. unfold add, SFadd. cbn [cond_Zopp].
  unfold binary_normalize.
  match goal with |- context [Z.pos ?a + Z.pos ?b] =>
    change (Z.pos a + Z.pos b) with (Z.pos (a + b)) end.
  unfold binary_round.
  destruct (shl_align _ _ _) as [mz ez]. apply binary_round_aux_nonneg. lia.
Qed.

Lemma nonneg_zero : nonneg zero = true.
Proof. reflexivity. Qed.

Lemma nonneg_minus_one : nonneg minus_one = false.
Proof. reflexivity. Qed.

End Float32Facts.

(** ** Frame lemmas: what the operations leave alone *)

Module ClientFacts.
Import Client Float32Facts MachineIntFacts.

(** Decides the branches of an operation built from conditionals and
    field updates. *)
Ltac frame :=
  intros;
  repeat match goal with
         | H : Some _ = Some _ |- _ => inversion H; subst; clear H
         | H : None = Some _ |- _ => discriminate H
         | H : (_, _) = (_, _) |- _ => inversion H; subst; clear H
         | H : context [match ?x with _ => _ end] |- _ => destruct x eqn:?
         | |- context [match ?x with _ => _ end] => destruct x eqn:?
         end;
  try reflexivity.

(** Replaces the result [t] of a sub-operation by a fresh state of which
    only the fact [H] is kept. *)
Ltac abstract_state t H :=
  let c := fresh "c" in
  let Hc := fresh "Hc" in
  pose proof H as Hc; revert Hc; generalize t; intros c Hc.

Section WithContext.
Variable K : AudioConstants.
Variable X : Collaborators.

Lemma cleanupInput_sourceFlags s : sourceFlags (cleanupInput s) = sourceFlags s.
Proof. unfold cleanupInput. frame. Qed.

Lemma setupInputResampler_sourceFlags s s' :
  setupInputResampler X s = Some s' -> sourceFlags s' = sourceFlags s.
Proof. unfold setupInputResampler. frame. Qed.

Lemma startInput_sourceFlags d s : sourceFlags (startInput K d s).2 = sourceFlags s.
Proof. unfold startInput. frame. Qed.

Lemma switchInputToAudioDevice_sourceFlags d s :
  sourceFlags (switchInputToAudioDevice K X d s).2 = sourceFlags s.
Proof.
  unfold switchInputToAudioDevice.
  abstract_state (cleanupInput s) (cleanupInput_sourceFlags s).
  cbv zeta.
  destruct (negb (isNull d)); [|exact Hc].
  match goal with |- context [FormatNegotiation.adjustedFormatForAudioDevice ?a ?b ?c ?d] =>
    generalize (FormatNegotiation.adjustedFormatForAudioDevice a b c d) end.
  intros [ok adj]. cbn [fst snd].
  destruct ok; [|exact Hc].
  match goal with |- context [setupInputResampler X ?t] =>
    destruct (setupInputResampler X t) as [s1|] eqn:E end.
  - rewrite startInput_sourceFlags. apply setupInputResampler_sourceFlags in E. rewrite E. exact Hc.
  - exact Hc.
Qed.

Lemma cleanupOutput_sourceFlags s : sourceFlags (cleanupOutput s) = sourceFlags s.
Proof. unfold cleanupOutput. frame. Qed.

Lemma setupOutputResampler_sourceFlags s s' :
  setupOutputResampler X s = Some s' -> sourceFlags s' = sourceFlags s.
Proof. unfold setupOutputResampler. frame. Qed.

Lemma startOutput_sourceFlags s : sourceFlags (startOutput K s) = sourceFlags s.
Proof. reflexivity. Qed.

Lemma switchOutputToAudioDevice_sourceFlags d s :
  sourceFlags (switchOutputToAudioDevice K X d s).2 = sourceFlags s.
Proof.
  unfold switchOutputToAudioDevice.
  abstract_state (cleanupOutput s) (cleanupOutput_sourceFlags s).
  cbv zeta.
  destruct (negb (isNull d)); [|exact Hc].
  match goal with |- context [FormatNegotiation.adjustedFormatForAudioDevice ?a ?b ?c ?d] =>
    generalize (FormatNegotiation.adjustedFormatForAudioDevice a b c d) end.
  intros [ok adj]. cbn [fst snd].
  destruct ok; [|exact Hc].
  match goal with |- context [setupOutputResampler X ?t] =>
    destruct (setupOutputResampler X t) as [s1|] eqn:E end.
  - cbn [snd]. rewrite startOutput_sourceFlags.
    apply setupOutputResampler_sourceFlags in E. rewrite E. exact Hc.
  - exact Hc.
Qed.

Lemma setOutputBufferSize_sourceFlags d n s :
  sourceFlags (setOutputBufferSize K X d n s) = sourceFlags s.
Proof.
  unfold setOutputBufferSize. cbv zeta.
  destruct (decide _); [|reflexivity].
  match goal with |- context [if ?c is Some _ then _ else _] => destruct c end;
    [rewrite switchOutputToAudioDevice_sourceFlags|]; reflexivity.
Qed.

Lemma outputNotify_sourceFlags d r t s :
  sourceFlags (outputNotify K X d r t s) = sourceFlags s.
Proof.
  unfold outputNotify. cbv zeta.
  destruct (decide (r > 0)); [|reflexivity].
  destruct (_outputStarveDetectionEnabled s); [|reflexivity].
  destruct (decide _); [reflexivity|].
  destruct (decide _); [|reflexivity].
  change (sourceFlags (set_outputStarveDetectionCount 0
                         (set_outputStarveDetectionStartTimeMsec ?v ?s)))
    with (sourceFlags s).
  rewrite setOutputBufferSize_sourceFlags. reflexivity.
Qed.

Lemma handleLocalEchoAndReverb_sourceFlags input s s' :
  handleLocalEchoAndReverb X input s = Some s' -> sourceFlags s' = sourceFlags s.
Proof.
  unfold handleLocalEchoAndReverb.
  destruct (negb (loopbackWanted s)); [frame|].
  assert (H1 : sourceFlags (startLoopbackDevice X s) = sourceFlags s).
  { unfold startLoopbackDevice. frame. }
  abstract_state (startLoopbackDevice X s) H1. clear H1.
  destruct (setupLoopbackResampler X c) as [s1|] eqn:E.
  - assert (H2 : sourceFlags s1 = sourceFlags c).
    { revert E. unfold setupLoopbackResampler. frame. }
    unfold renderLoopback. cbv zeta. intros H.
    destruct (Resampler.possibleResampling _ _ _ _ _ _ _ _) eqn:E2; [|discriminate].
    cbn [mbind option_bind] in H.
    destruct (_loopbackOutputDevice s1); injection H as <-;
      (transitivity (sourceFlags s1); [reflexivity|]; rewrite H2; exact Hc).
  - frame. auto.
Qed.

Lemma sendFrame_sourceFlags env b n s : sourceFlags (sendFrame env b n s) = sourceFlags s.
Proof. unfold sendFrame. destruct (env_mixerActive env); reflexivity. Qed.

Lemma unmutedFrame_sourceFlags env s s' :
  unmutedFrame K X env s = Some s' -> sourceFlags s' = sourceFlags s.
Proof.
  unfold unmutedFrame. cbv zeta.
  destruct (resampledNetworkSamples K X s) as [samples|]; [|discriminate].
  cbn [mbind option_bind].
  destruct (decide _); [|discriminate].
  destruct (usesNoiseGate _).
  - destruct (env_gateClipped env); intros H; inversion H; reflexivity.
  - destruct (enumerateSamples _ _ _ _). intros H; inversion H; reflexivity.
Qed.

Lemma processNetworkFrame_sourceFlags env s s' :
  processNetworkFrame K X env s = Some s' -> sourceFlags s' = sourceFlags s.
Proof.
  unfold processNetworkFrame. cbv zeta.
  destruct (negb (_muted s)).
  - destruct (unmutedFrame K X env s) as [s1|] eqn:E; [|discriminate].
    cbn [mbind option_bind]. intros H; inversion H.
    rewrite sendFrame_sourceFlags. eapply unmutedFrame_sourceFlags; eauto.
  - cbn [mbind option_bind]. intros H; inversion H.
    rewrite sendFrame_sourceFlags. reflexivity.
Qed.

Lemma inputLoop_sourceFlags fuel i envs s n s' :
  inputLoop K X fuel i envs s = Some (n, s') -> sourceFlags s' = sourceFlags s.
Proof.
  revert i s. induction fuel as [|fuel IH]; intros i s; cbn [inputLoop];
    destruct (decide _); try discriminate; try (intros H; inversion H; reflexivity).
  destruct (processNetworkFrame K X (envs i) s) as [s1|] eqn:E; [|discriminate].
  cbn [mbind option_bind]. intros H. apply IH in H. rewrite H.
  eapply processNetworkFrame_sourceFlags; eauto.
Qed.

Lemma handleAudioInput_sourceFlags readAll envs s n s' :
  handleAudioInput K X readAll envs s = Some (n, s') -> sourceFlags s' = sourceFlags s.
Proof.
  unfold handleAudioInput. cbv zeta.
  destruct (handleLocalEchoAndReverb X _ s) as [s1|] eqn:E; [|discriminate].
  cbn [mbind option_bind]. intros H. apply inputLoop_sourceFlags in H.
  rewrite H. cbn. eapply handleLocalEchoAndReverb_sourceFlags in E. exact E.
Qed.

Lemma readData_sourceFlags data maxSize unplayed s r :
  readData X data maxSize unplayed s = Some r -> sourceFlags r.2 = sourceFlags s.
Proof.
  unfold readData. cbv zeta.
  destruct (popSamples X _ _ _) as [popped stream].
  match goal with |- context [mbind _ ?m] => destruct m as [[d w]|] end; [|discriminate].
  cbn [mbind option_bind].
  destruct (_ && _); intros H; inversion H; reflexivity.
Qed.


Lemma start_sourceFlags inputDevice outputDevice s :
  sourceFlags (start K X inputDevice outputDevice s) = sourceFlags s.
Proof.
  unfold start. cbv zeta.
  rewrite switchOutputToAudioDevice_sourceFlags, switchInputToAudioDevice_sourceFlags.
  reflexivity.
Qed.

Lemma stop_sourceFlags s : sourceFlags (stop K X s) = sourceFlags s.
Proof.
  unfold stop. cbv zeta.
  match goal with |- context [if ?c is Some _ then _ else _] => destruct c end;
    [change (sourceFlags (set_loopbackResampler None ?t)) with (sourceFlags t)|];
    rewrite switchOutputToAudioDevice_sourceFlags, switchInputToAudioDevice_sourceFlags;
    reflexivity.
Qed.

Lemma setIsStereoInput_sourceFlags device isStereoInput s :
  sourceFlags (setIsStereoInput K X device isStereoInput s) = sourceFlags s.
Proof.
  unfold setIsStereoInput. cbv zeta.
  destruct (negb _); [|reflexivity].
  rewrite switchInputToAudioDevice_sourceFlags.
  destruct isStereoInput; reflexivity.
Qed.

(** Exactly one source flag is set in the states that [step] relates to
    a state in which exactly one is set. *)
Lemma step_exactly_one_source s s' :
  step K X s s' ->
  _toneSourceEnabled s = negb (_noiseSourceEnabled s) ->
  _toneSourceEnabled s' = negb (_noiseSourceEnabled s').
Proof.
  intros Hstep Hs.
  assert (Hframe : sourceFlags s' = sourceFlags s ->
                   _toneSourceEnabled s' = negb (_noiseSourceEnabled s')).
  { unfold sourceFlags. intros H. injection H as -> ->. exact Hs. }
  destruct Hstep; try (apply Hframe; reflexivity); try reflexivity.
  - apply Hframe, start_sourceFlags.
  - apply Hframe, stop_sourceFlags.
  - apply Hframe, setIsStereoInput_sourceFlags.
  - apply Hframe, switchInputToAudioDevice_sourceFlags.
  - apply Hframe, switchOutputToAudioDevice_sourceFlags.
  - apply Hframe, setOutputBufferSize_sourceFlags.
  - apply Hframe, outputNotify_sourceFlags.
  - eapply Hframe, handleAudioInput_sourceFlags; eauto.
  - eapply Hframe, processNetworkFrame_sourceFlags; eauto.
  - match goal with H : readData _ _ _ _ _ = Some _ |- _ =>
      apply readData_sourceFlags in H; exact (Hframe H) end.
Qed.

Lemma reachable_exactly_one_source s :
  reachable K X s -> _toneSourceEnabled s = negb (_noiseSourceEnabled s).
Proof.
  induction 1 as [| s s' _ IH Hstep]; [reflexivity|].
  eapply step_exactly_one_source; eauto.
Qed.

(** C10.  In a reachable state the tone and noise flags are never both
    set; a new client has only the tone flag set, and each selection sets
    its own flag and clears the other.  A block of samples is therefore
    rendered by at most one generator: the noise generator never runs on
    a block the tone generator runs on. *)
Theorem source_flags_mutually_exclusive (s : AudioClient) :
  reachable K X s ->
  ~ (_toneSourceEnabled s = true /\ _noiseSourceEnabled s = true)
  /\ (forall stream packetBuffer frames enabled period threshold,
        sourceFlags (newAudioClient stream packetBuffer frames enabled period threshold)
        = (true, false))
  /\ sourceFlags (selectAudioSourcePinkNoise s) = (false, true)
  /\ sourceFlags (selectAudioSourceSine440 s) = (true, false)
  /\ (forall frames,
        _audioSourceInjectEnabled s = true ->
        injectAudioSource X s frames
        = sourceGainRender X
            (if _toneSourceEnabled s then toneSourceRender X frames
             else noiseSourceRender X frames)).
Proof.
  intros Hreach. pose proof (reachable_exactly_one_source s Hreach) as Hone.
  repeat split.
  - intros [Ht Hn]. rewrite Ht, Hn in Hone. discriminate.
  - intros frames Hinject. unfold injectAudioSource. rewrite Hinject.
    destruct (_toneSourceEnabled s); [reflexivity|].
    destruct (_noiseSourceEnabled s); [reflexivity|discriminate].
Qed.

(** *** The input-processing loop *)

Lemma sendFrame_frameView env b n s : frameView (sendFrame env b n s) = frameView s.
Proof. unfold sendFrame. destruct (env_mixerActive env); reflexivity. Qed.

Lemma sendFrame_timer env b n s :
  _timeSinceLastClip (sendFrame env b n s) = _timeSinceLastClip s.
Proof. unfold sendFrame. destruct (env_mixerActive env); reflexivity. Qed.

Lemma sendFrame_sequenceNumber env b n s :
  _outgoingAvatarAudioSequenceNumber (sendFrame env b n s)
  = if env_mixerActive env
    then to_quint16 (_outgoingAvatarAudioSequenceNumber s + 1)
    else _outgoingAvatarAudioSequenceNumber s.
Proof. unfold sendFrame. destruct (env_mixerActive env); reflexivity. Qed.

Lemma enumerateSamples_timer samples loudness t :
  (enumerateSamples K samples loudness t).2
  = if existsb (sampleClips K) samples then Float32.zero else t.
Proof.
  revert loudness t. induction samples as [|x l IH]; intros loudness t; [reflexivity|].
  cbn [enumerateSamples existsb]. rewrite IH.
  destruct (sampleClips K x); cbn [orb]; [|reflexivity].
  destruct (existsb _ l); reflexivity.
Qed.

Lemma unmutedFrame_inv env s s' :
  unmutedFrame K X env s = Some s' ->
  frameView s' = frameView s
  /\ _outgoingAvatarAudioSequenceNumber s' = _outgoingAvatarAudioSequenceNumber s
  /\ _timeSinceLastClip s'
     = if clipDetected K X env s then Float32.zero else advanceClipTimer K s.
Proof.
  unfold unmutedFrame, clipDetected. cbv zeta.
  destruct (resampledNetworkSamples K X s) as [samples|]; [|discriminate].
  cbn [mbind option_bind].
  destruct (decide _); [|discriminate].
  change (usesNoiseGate (set_timeSinceLastClip ?t (set_inputRingBuffer ?r s)))
    with (usesNoiseGate s).
  destruct (usesNoiseGate s).
  - destruct (env_gateClipped env); intros H; injection H as <-; repeat split.
  - change (numNetworkSamples K (set_timeSinceLastClip ?t (set_inputRingBuffer ?r s)))
      with (numNetworkSamples K s).
    match goal with |- context [enumerateSamples K ?l ?a ?b] =>
      pose proof (enumerateSamples_timer l a b) as Ht;
      destruct (enumerateSamples K l a b) as [loudness t] end.
    cbn [snd] in Ht. intros H; injection H as <-. repeat split. exact Ht.
Qed.

Lemma processNetworkFrame_inv env s s' :
  processNetworkFrame K X env s = Some s' ->
  frameView s' = frameView s
  /\ _outgoingAvatarAudioSequenceNumber s'
     = (if env_mixerActive env
        then to_quint16 (_outgoingAvatarAudioSequenceNumber s + 1)
        else _outgoingAvatarAudioSequenceNumber s)
  /\ _timeSinceLastClip s'
     = if _muted s then Float32.zero
       else if clipDetected K X env s then Float32.zero else advanceClipTimer K s.
Proof.
  unfold processNetworkFrame. cbv zeta.
  destruct (_muted s) eqn:Hm; cbn [negb].
  - cbn [mbind option_bind]. intros H; injection H as <-.
    rewrite sendFrame_frameView, sendFrame_timer, sendFrame_sequenceNumber.
    repeat split.
  - destruct (unmutedFrame K X env s) as [s1|] eqn:E; [|discriminate].
    cbn [mbind option_bind]. intros H; injection H as <-.
    apply unmutedFrame_inv in E. destruct E as (Hv & Hseq & Ht).
    rewrite sendFrame_frameView, sendFrame_timer, sendFrame_sequenceNumber.
    rewrite Hv, Hseq, Ht. repeat split.
Qed.

Lemma frameView_clipTimerIncrement s s' :
  frameView s' = frameView s -> clipTimerIncrement K s' = clipTimerIncrement K s.
Proof.
  unfold frameView, clipTimerIncrement, numNetworkSamples. intros H.
  injection H as _ -> _. reflexivity.
Qed.

Lemma frameView_inputSamplesRequired s s' :
  frameView s' = frameView s -> inputSamplesRequired K s' = inputSamplesRequired K s.
Proof.
  unfold frameView, inputSamplesRequired, calculateDeviceToNetworkInputRatio. intros H.
  injection H as _ _ ->. reflexivity.
Qed.

Lemma accumulate_nonneg n d t :
  Float32.nonneg d = true -> Float32.nonneg t = true ->
  Float32.nonneg (accumulate n d t) = true.
Proof.
  intros Hd. revert t. induction n as [|n IH]; intros t Ht; [exact Ht|].
  cbn [accumulate]. apply IH, add_nonneg; assumption.
Qed.

Lemma quietFrames_timer envs s s' :
  Float32.nonneg (clipTimerIncrement K s) = true ->
  Float32.nonneg (_timeSinceLastClip s) = true ->
  quietFrames K X envs s = Some s' ->
  _timeSinceLastClip s'
  = accumulate (length envs) (clipTimerIncrement K s) (_timeSinceLastClip s).
Proof.
  revert s. induction envs as [|env rest IH]; intros s Hd Ht; cbn [quietFrames].
  - intros H; injection H as <-. reflexivity.
  - destruct (_muted s) eqn:Hm; [discriminate|].
    destruct (clipDetected K X env s) eqn:Hc; [discriminate|]. cbn [negb andb].
    destruct (processNetworkFrame K X env s) as [s1|] eqn:E; [|discriminate].
    cbn [mbind option_bind]. intros Hrun.
    apply processNetworkFrame_inv in E. destruct E as (Hv & _ & Htimer).
    rewrite Hm, Hc in Htimer. unfold advanceClipTimer in Htimer. rewrite Ht in Htimer.
    pose proof (frameView_clipTimerIncrement _ _ Hv) as Hd1.
    cbn [length accumulate]. rewrite <- Htimer, <- Hd1.
    apply IH; [rewrite Hd1; exact Hd | | exact Hrun].
    rewrite Htimer. apply add_nonneg; assumption.
Qed.


Lemma inputLoop_sequenceNumber fuel i envs s n s' :
  0 <= _outgoingAvatarAudioSequenceNumber s < 2 ^ 16 ->
  inputLoop K X fuel i envs s = Some (n, s') ->
  (i <= n)%nat
  /\ _outgoingAvatarAudioSequenceNumber s'
     = (_outgoingAvatarAudioSequenceNumber s + activeIterations envs i (n - i)) mod 2 ^ 16.
Proof.
  revert i s. induction fuel as [|fuel IH]; intros i s Hrange; cbn [inputLoop];
    destruct (decide _); try discriminate.
  - intros H; injection H as <- <-. split; [lia|].
    rewrite Nat.sub_diag. cbn [activeIterations]. rewrite Z.add_0_r.
    symmetry. apply Z.mod_small. exact Hrange.
  - destruct (processNetworkFrame K X (envs i) s) as [s1|] eqn:E; [|discriminate].
    cbn [mbind option_bind]. intros H.
    apply processNetworkFrame_inv in E. destruct E as (_ & Hs1 & _).
    apply IH in H.
    + destruct H as [Hle Hseq]. split; [lia|]. rewrite Hseq, Hs1.
      replace (n - i)%nat with (S (n - S i)) by lia. cbn [activeIterations].
      unfold to_quint16, wrap_unsigned.
      destruct (env_mixerActive (envs i)).
      * rewrite Z.add_mod_idemp_l by lia. f_equal. lia.
      * rewrite Z.add_0_l. reflexivity.
    + rewrite Hs1. destruct (env_mixerActive (envs i)); [|exact Hrange].
      unfold to_quint16, wrap_unsigned. apply Z.mod_pos_bound. lia.
  - intros H; injection H as <- <-. split; [lia|].
    rewrite Nat.sub_diag. cbn [activeIterations]. rewrite Z.add_0_r.
    symmetry. apply Z.mod_small. exact Hrange.
Qed.

Lemma handleLocalEchoAndReverb_sequenceNumber input s s' :
  handleLocalEchoAndReverb X input s = Some s' ->
  _outgoingAvatarAudioSequenceNumber s' = _outgoingAvatarAudioSequenceNumber s.
Proof.
  unfold handleLocalEchoAndReverb.
  destruct (negb (loopbackWanted s)); [intros H1; injection H1 as <-; reflexivity|].
  assert (H1 : _outgoingAvatarAudioSequenceNumber (startLoopbackDevice X s)
               = _outgoingAvatarAudioSequenceNumber s).
  { unfold startLoopbackDevice. frame. }
  abstract_state (startLoopbackDevice X s) H1. clear H1.
  destruct (setupLoopbackResampler X c) as [s2|] eqn:E.
  - assert (H2 : _outgoingAvatarAudioSequenceNumber s2 = _outgoingAvatarAudioSequenceNumber c).
    { revert E. unfold setupLoopbackResampler. frame. }
    unfold renderLoopback. cbv zeta. intros H3.
    destruct (Resampler.possibleResampling _ _ _ _ _ _ _ _) eqn:E2; [|discriminate].
    cbn [mbind option_bind] in H3.
    destruct (_loopbackOutputDevice s2); injection H3 as <-;
      (transitivity (_outgoingAvatarAudioSequenceNumber s2); [reflexivity|]); congruence.
  - intros H1; injection H1 as <-. congruence.
Qed.

(** The whole of [handleAudioInput]: the sequence number advances by the
    number of iterations in which a mixer with an active socket was known,
    modulo [2^16]. *)
Lemma handleAudioInput_sequenceNumber readAll envs s n s' :
  0 <= _outgoingAvatarAudioSequenceNumber s < 2 ^ 16 ->
  handleAudioInput K X readAll envs s = Some (n, s') ->
  _outgoingAvatarAudioSequenceNumber s'
  = (_outgoingAvatarAudioSequenceNumber s + activeIterations envs 0 n) mod 2 ^ 16.
Proof.
  unfold handleAudioInput. cbv zeta. intros Hrange.
  destruct (handleLocalEchoAndReverb X _ s) as [s1|] eqn:E; [|discriminate].
  cbn [mbind option_bind]. intros H.
  apply handleLocalEchoAndReverb_sequenceNumber in E.
  apply inputLoop_sequenceNumber in H.
  - destruct H as [_ H]. rewrite H, Nat.sub_0_r.
    change (_outgoingAvatarAudioSequenceNumber (set_inputRingBuffer ?r s1))
      with (_outgoingAvatarAudioSequenceNumber s1).
    rewrite E. reflexivity.
  - change (_outgoingAvatarAudioSequenceNumber (set_inputRingBuffer ?r s1))
      with (_outgoingAvatarAudioSequenceNumber s1).
    rewrite E. exact Hrange.
Qed.

(** C1 (as the code has it).  One iteration of the input-processing loop
    increments the outgoing sequence number exactly once, modulo [2^16],
    when a mixer with an active socket is known, and leaves it unchanged
    otherwise; neither the mute state nor the outcome of the send matters. *)
Theorem sequence_number_per_processed_frame (env : FrameEnv) (s s' : AudioClient) :
  processNetworkFrame K X env s = Some s' ->
  _outgoingAvatarAudioSequenceNumber s'
  = if env_mixerActive env
    then (_outgoingAvatarAudioSequenceNumber s + 1) mod 2 ^ 16
    else _outgoingAvatarAudioSequenceNumber s.
Proof. intros H. apply processNetworkFrame_inv in H. apply H. Qed.

(** For a client that sends mono, what the loop adds to the clip timer is
    the duration of a network frame. *)
Lemma clipTimerIncrement_mono s :
  _isStereoInput s = false -> clipTimerIncrement K s = specFrameDuration K.
Proof.
  intros Hmono. unfold clipTimerIncrement, specFrameDuration, numNetworkSamples.
  rewrite Hmono. reflexivity.
Qed.

(** C6 (as the code has it, for a client that sends mono).  The clip timer
    of a new client is the negative sentinel [-1.0f], and an unmuted frame
    without a clip leaves a negative timer as it is.  An unmuted frame in
    which a clip is detected resets the timer to [0.0f].  An unmuted frame
    without a clip adds the frame duration [d] to a timer that is not
    negative, so after a clip followed by [N] such frames the timer is the
    single-precision sum of [N] terms [d] added to [0.0f] one after the
    other.  A muted frame sets the timer to [0.0f] and adds nothing. *)
Theorem clip_timer_after_clip (env : FrameEnv) (envs : list FrameEnv) (s s1 sN : AudioClient) :
  _isStereoInput s = false ->
  _muted s = false ->
  clipDetected K X env s = true ->
  processNetworkFrame K X env s = Some s1 ->
  Float32.nonneg (specFrameDuration K) = true ->
  quietFrames K X envs s1 = Some sN ->
  (forall stream packetBuffer frames enabled period threshold,
     _timeSinceLastClip (newAudioClient stream packetBuffer frames enabled period threshold)
     = Float32.minus_one)
  /\ Float32.nonneg Float32.minus_one = false
  /\ (forall env' t t',
        _muted t = false -> clipDetected K X env' t = false ->
        Float32.nonneg (_timeSinceLastClip t) = false ->
        processNetworkFrame K X env' t = Some t' ->
        _timeSinceLastClip t' = _timeSinceLastClip t)
  /\ _timeSinceLastClip s1 = Float32.zero
  /\ (forall env' t t',
        _isStereoInput t = false -> _muted t = false -> clipDetected K X env' t = false ->
        Float32.nonneg (_timeSinceLastClip t) = true ->
        processNetworkFrame K X env' t = Some t' ->
        _timeSinceLastClip t' = Float32.add (_timeSinceLastClip t) (specFrameDuration K))
  /\ _timeSinceLastClip sN
     = accumulate (length envs) (specFrameDuration K) Float32.zero
  /\ (forall env' t t',
        _muted t = true -> processNetworkFrame K X env' t = Some t' ->
        _timeSinceLastClip t' = Float32.zero).
Proof.
  intros Hmono Hm Hc Hframe Hd Hrun.
  apply processNetworkFrame_inv in Hframe. destruct Hframe as (Hv & _ & Ht).
  rewrite Hm, Hc in Ht.
  assert (Hmono1 : _isStereoInput s1 = false).
  { unfold frameView in Hv. injection Hv as _ -> _. exact Hmono. }
  split; [reflexivity|]. split; [reflexivity|]. split.
  { intros env' t t' Hmt Hct Hneg Hstep.
    apply processNetworkFrame_inv in Hstep. destruct Hstep as (_ & _ & Htimer).
    rewrite Hmt, Hct in Htimer. unfold advanceClipTimer in Htimer.
    rewrite Hneg in Htimer. exact Htimer. }
  split; [exact Ht|]. split.
  { intros env' t t' Hst Hmt Hct Hpos Hstep.
    apply processNetworkFrame_inv in Hstep. destruct Hstep as (_ & _ & Htimer).
    rewrite Hmt, Hct in Htimer. unfold advanceClipTimer in Htimer.
    rewrite Hpos, (clipTimerIncrement_mono t Hst) in Htimer. exact Htimer. }
  split.
  - rewrite <- Ht, <- (clipTimerIncrement_mono s1 Hmono1).
    apply quietFrames_timer; [|rewrite Ht; reflexivity|exact Hrun].
    rewrite (clipTimerIncrement_mono s1 Hmono1). exact Hd.
  - intros env' t t' Hmuted Hstep.
    apply processNetworkFrame_inv in Hstep. destruct Hstep as (_ & _ & Hzero).
    rewrite Hmuted in Hzero. exact Hzero.
Qed.

(** A muted frame sets the clip timer to [0.0f], whatever it was. *)
Lemma muted_frame_zeroes_clip_timer env s s' :
  _muted s = true ->
  processNetworkFrame K X env s = Some s' ->
  _timeSinceLastClip s' = Float32.zero.
Proof.
  intros Hm H. apply processNetworkFrame_inv in H. destruct H as (_ & _ & Ht).
  rewrite Hm in Ht. exact Ht.
Qed.

(** An unmuted frame without a clip adds the frame duration to a timer
    that is not negative and keeps a negative one. *)
Lemma quiet_frame_advances_clip_timer env s s' :
  _muted s = false ->
  clipDetected K X env s = false ->
  processNetworkFrame K X env s = Some s' ->
  _timeSinceLastClip s'
  = if Float32.nonneg (_timeSinceLastClip s)
    then Float32.add (_timeSinceLastClip s) (clipTimerIncrement K s)
    else _timeSinceLastClip s.
Proof.
  intros Hm Hc H. apply processNetworkFrame_inv in H. destruct H as (_ & _ & Ht).
  rewrite Hm, Hc in Ht. exact Ht.
Qed.

(** A muted iteration always completes. *)
Lemma muted_frame_completes env s :
  _muted s = true -> is_Some (processNetworkFrame K X env s).
Proof. intros Hm. unfold processNetworkFrame. rewrite Hm. cbn. eauto. Qed.

(** *** Starve detection *)

Lemma cleanupOutput_starveView s : starveView (cleanupOutput s) = starveView s.
Proof. unfold cleanupOutput. frame. Qed.

Lemma setupOutputResampler_starveView s s' :
  setupOutputResampler X s = Some s' -> starveView s' = starveView s.
Proof. unfold setupOutputResampler. frame. Qed.

Lemma switchOutputToAudioDevice_starveView d s :
  starveView (switchOutputToAudioDevice K X d s).2 = starveView s.
Proof.
  unfold switchOutputToAudioDevice.
  abstract_state (cleanupOutput s) (cleanupOutput_starveView s).
  cbv zeta.
  destruct (negb (isNull d)); [|exact Hc].
  match goal with |- context [FormatNegotiation.adjustedFormatForAudioDevice ?a ?b ?c ?d] =>
    generalize (FormatNegotiation.adjustedFormatForAudioDevice a b c d) end.
  intros [ok adj]. cbn [fst snd].
  destruct ok; [|exact Hc].
  match goal with |- context [setupOutputResampler X ?t] =>
    destruct (setupOutputResampler X t) as [s1|] eqn:E end.
  - cbn [snd]. apply setupOutputResampler_starveView in E.
    transitivity (starveView s1); [reflexivity|]. rewrite E. exact Hc.
  - exact Hc.
Qed.

Lemma setOutputBufferSize_starveView d n s :
  starveView (setOutputBufferSize K X d n s)
  = (clampFrames K n, _outputStarveDetectionEnabled s,
     _outputStarveDetectionPeriodMsec s, _outputStarveDetectionThreshold s,
     _outputStarveDetectionStartTimeMsec s, _outputStarveDetectionCount s).
Proof.
  unfold setOutputBufferSize. cbv zeta. fold (clampFrames K n).
  destruct (decide _) as [Hne|Heq].
  - match goal with |- context [if ?c is Some _ then _ else _] => destruct c end;
      [rewrite switchOutputToAudioDevice_starveView|]; reflexivity.
  - apply dec_stable in Heq. unfold starveView. rewrite <- Heq. reflexivity.
Qed.

(** What one notification does to the starve detection. *)
Lemma outputNotify_starveView d recent now s :
  starveView (outputNotify K X d recent now s)
  = if bool_decide (recent > 0) && _outputStarveDetectionEnabled s then
      if windowExpired now s then
        (_outputBufferSizeFrames s, _outputStarveDetectionEnabled s,
         _outputStarveDetectionPeriodMsec s, _outputStarveDetectionThreshold s,
         now / 1000, 0)
      else if thresholdCrossed recent now s then
        (clampFrames K (to_int (_outputBufferSizeFrames s + 1)),
         _outputStarveDetectionEnabled s,
         _outputStarveDetectionPeriodMsec s, _outputStarveDetectionThreshold s,
         now / 1000, 0)
      else
        (_outputBufferSizeFrames s, _outputStarveDetectionEnabled s,
         _outputStarveDetectionPeriodMsec s, _outputStarveDetectionThreshold s,
         _outputStarveDetectionStartTimeMsec s,
         to_int (_outputStarveDetectionCount s + recent))
    else starveView s.
Proof.
  unfold outputNotify, thresholdCrossed, windowExpired. cbv zeta.
  destruct (decide (recent > 0)) as [Hr|Hr].
  2: { rewrite bool_decide_eq_false_2 by exact Hr. reflexivity. }
  rewrite (bool_decide_eq_true_2 _ Hr). cbn [andb].
  destruct (_outputStarveDetectionEnabled s) eqn:He; [|reflexivity].
  destruct (decide (to_quint64 _ > _)) as [Hexp|Hexp].
  { rewrite bool_decide_eq_true_2 by exact Hexp. unfold starveView. cbn. rewrite He. reflexivity. }
  rewrite (bool_decide_eq_false_2 _ Hexp). cbn [negb andb].
  change (_outputStarveDetectionCount (set_outputStarveDetectionCount ?v s)) with v.
  change (_outputStarveDetectionThreshold (set_outputStarveDetectionCount ?v s))
    with (_outputStarveDetectionThreshold s).
  destruct (decide (to_int _ > _)) as [Hc|Hc].
  - rewrite bool_decide_eq_true_2 by exact Hc.
    match goal with |- context [setOutputBufferSize K X d ?n ?t] =>
      pose proof (setOutputBufferSize_starveView d n t) as Hv;
      revert Hv; generalize (setOutputBufferSize K X d n t); intros c Hv end.
    unfold starveView in *. cbn in *. injection Hv as -> -> -> -> _ _.
    rewrite He. reflexivity.
  - rewrite bool_decide_eq_false_2 by exact Hc. unfold starveView. cbn. rewrite He. reflexivity.
Qed.



(** *** The output device read *)

Lemma length_sample_bytes (it : nat -> Z) (indices : list nat) :
  length (flat_map (fun i => int16Bytes (it i)) indices) = (2 * length indices)%nat.
Proof.
  induction indices as [|i l IH]; [reflexivity|].
  cbn [flat_map]. rewrite length_app, IH. cbn [int16Bytes length]. lia.
Qed.

(** C7.  Let [readData] be called with a request of [maxSize] bytes that
    fits an [int], on a buffer of at least [maxSize] bytes, and let the
    stream pop no more samples than requested.  The call returns.  If the
    stream popped [k > 0] samples, their [2 * k] bytes are copied to the
    start of the buffer, the rest of the buffer is untouched and [2 * k] is
    returned; otherwise the first [maxSize] bytes are set to zero and
    [maxSize] is returned. *)
Theorem read_copies_popped_samples_or_fills_silence
    (data : list Z) (maxSize bytesAudioOutputUnplayed : Z) (s : AudioClient) :
  0 <= maxSize <= INT_MAX ->
  maxSize <= Z.of_nat (length data) ->
  (popSamples X (_receivedAudioStream s) (maxSize / 2) false).1 <= maxSize / 2 ->
  let popped := (popSamples X (_receivedAudioStream s) (maxSize / 2) false).1 in
  let stream := (popSamples X (_receivedAudioStream s) (maxSize / 2) false).2 in
  exists s',
    readData X data maxSize bytesAudioOutputUnplayed s
    = Some (if decide (popped > 0) then 2 * popped else maxSize,
            if decide (popped > 0)
            then flat_map (fun i => int16Bytes (getLastPopOutput stream i))
                   (seq 0 (Z.to_nat popped))
                 ++ drop (Z.to_nat (2 * popped)) data
            else replicate (Z.to_nat maxSize) 0 ++ drop (Z.to_nat maxSize) data,
            s')
    /\ _receivedAudioStream s' = stream.
Proof.
  intros Hsize Hdata Hpop popped stream. subst popped stream. unfold readData.
  assert (Hreq : to_int (to_quint64 maxSize / 2) = maxSize / 2).
  { unfold INT_MAX in Hsize. rewrite to_quint64_id by lia.
    apply to_int_id. unfold is_int, INT_MIN, INT_MAX.
    pose proof (Z.div_pos maxSize 2). pose proof (Z.div_le_upper_bound maxSize 2 maxSize).
    lia. }
  rewrite Hreq. clear Hreq.
  destruct (popSamples X (_receivedAudioStream s) (maxSize / 2) false) as [popped stream].
  cbn [fst snd] in *.
  assert (Hhalf : 2 * (maxSize / 2) <= maxSize) by (apply Z.mul_div_le; lia).
  destruct (decide (popped > 0)) as [Hpos|Hnon].
  - unfold readSamplesInto.
    pose proof (length_sample_bytes (getLastPopOutput stream) (seq 0 (Z.to_nat popped))) as Hlen.
    rewrite length_seq in Hlen.
    destruct (decide _) as [_|Hbad]; [|exfalso; apply Hbad; rewrite Hlen; lia].
    cbn [mbind option_bind]. rewrite Hlen.
    replace (2 * Z.to_nat popped)%nat with (Z.to_nat (2 * popped)) by lia.
    assert (Hw : to_int (to_quint64 popped * 2) = 2 * popped).
    { unfold INT_MAX in Hsize. rewrite to_quint64_id by lia.
      rewrite to_int_id; [lia|]. unfold is_int, INT_MIN, INT_MAX. lia. }
    rewrite Hw. eexists. split; [reflexivity|]. destruct (_ && _); reflexivity.
  - unfold memsetZero.
    destruct (decide _) as [_|Hbad]; [|exfalso; apply Hbad; lia].
    cbn [mbind option_bind].
    rewrite to_int_id by (unfold is_int, INT_MIN, INT_MAX in *; lia).
    eexists. split; [reflexivity|]. destruct (_ && _); reflexivity.
Qed.

(** A read changes the unfulfilled-read counter by at most one increment,
    and leaves it unchanged when it pops at least one sample or when the
    output device still holds unplayed bytes. *)
Lemma unfulfilled_reads_counted_only_when_device_is_drained
    (data data' : list Z) (maxSize bytesAudioOutputUnplayed bytesWritten : Z)
    (s s' : AudioClient) :
  readData X data maxSize bytesAudioOutputUnplayed s = Some (bytesWritten, data', s') ->
  let popped := (popSamples X (_receivedAudioStream s)
                   (to_int (to_quint64 maxSize / 2)) false).1 in
  (_unfulfilledReads s' = _unfulfilledReads s
   \/ _unfulfilledReads s' = to_int (_unfulfilledReads s + 1))
  /\ (0 < popped <= INT_MAX -> _unfulfilledReads s' = _unfulfilledReads s)
  /\ (bytesAudioOutputUnplayed <> 0 -> _unfulfilledReads s' = _unfulfilledReads s)
  /\ (_unfulfilledReads s' <> _unfulfilledReads s ->
      bytesAudioOutputUnplayed = 0 /\ bytesWritten = 0).
Proof.
  unfold readData. cbv zeta.
  destruct (popSamples X (_receivedAudioStream s) _ false) as [popped stream].
  cbn [fst].
  match goal with |- context [mbind _ ?m] => destruct m as [[d w]|] eqn:E end;
    [|discriminate].
  cbn [mbind option_bind].
  destruct (bool_decide (bytesAudioOutputUnplayed = 0)) eqn:Hu;
    destruct (bool_decide (w = 0)) eqn:Hw; cbn [andb];
    intros H; injection H as <- <- <-; cbn.
  2-4: repeat split; auto; intros; congruence.
  apply bool_decide_eq_true_1 in Hu, Hw. subst w.
  repeat split; auto; try congruence.
  intros [Hpos Hle]. exfalso.
  destruct (decide (popped > 0)) as [_|]; [|lia].
  destruct (readSamplesInto _ _ _) as [d'|]; [|discriminate].
  cbn [mbind option_bind] in E. injection E as _ Hz.
  unfold to_int, wrap_signed, to_quint64, wrap_unsigned, INT_MAX in *.
  change (2 ^ (32 - 1)) with 2147483648 in Hz. change (2 ^ 32) with 4294967296 in Hz.
  change (2 ^ 64) with 18446744073709551616 in Hz.
  rewrite (Z.mod_small popped) in Hz by lia.
  assert (Hmod : (popped * 2 + 2147483648) mod 4294967296 = 2147483648) by lia.
  destruct (Z.le_gt_cases 1073741824 popped).
  + rewrite <- (Z_mod_plus_full _ (-1)) in Hmod. rewrite Z.mod_small in Hmod; lia.
  + rewrite Z.mod_small in Hmod; lia.
Qed.

(** C8.  An underrun is a read for which the stream pops no sample.  Such
    a read of [maxSize] bytes writes [maxSize] bytes of silence and reports
    them as written; since the counter is incremented only when the reported
    count is zero and the device holds no unplayed bytes, an underrun is
    counted exactly when it is a read of no bytes on a drained device.  An
    underrun of one byte or more leaves the counter as it is, on a drained
    device as well. *)
Theorem underrun_is_counted_only_for_a_read_of_no_bytes
    (data : list Z) (maxSize bytesAudioOutputUnplayed : Z) (s : AudioClient) :
  0 <= maxSize <= INT_MAX ->
  maxSize <= Z.of_nat (length data) ->
  (popSamples X (_receivedAudioStream s) (maxSize / 2) false).1 <= 0 ->
  exists s',
    readData X data maxSize bytesAudioOutputUnplayed s
    = Some (maxSize, replicate (Z.to_nat maxSize) 0 ++ drop (Z.to_nat maxSize) data, s')
    /\ _unfulfilledReads s'
       = (if bool_decide (bytesAudioOutputUnplayed = 0) && bool_decide (maxSize = 0)
          then to_int (_unfulfilledReads s + 1)
          else _unfulfilledReads s)
    /\ (0 < maxSize -> _unfulfilledReads s' = _unfulfilledReads s).
Proof.
  intros Hsize Hdata Hpop. unfold readData.
  assert (Hreq : to_int (to_quint64 maxSize / 2) = maxSize / 2).
  { unfold INT_MAX in Hsize. rewrite to_quint64_id by lia.
    apply to_int_id. unfold is_int, INT_MIN, INT_MAX.
    pose proof (Z.div_pos maxSize 2). pose proof (Z.div_le_upper_bound maxSize 2 maxSize).
    lia. }
  rewrite Hreq. clear Hreq.
  destruct (popSamples X (_receivedAudioStream s) (maxSize / 2) false) as [popped stream].
  cbn [fst] in Hpop.
  destruct (decide (popped > 0)) as [Hpos|_]; [lia|].
  unfold memsetZero.
  destruct (decide _) as [_|Hbad]; [|exfalso; apply Hbad; lia].
  cbn [mbind option_bind].
  rewrite to_int_id by (unfold is_int, INT_MIN, INT_MAX in *; lia).
  destruct (bool_decide (bytesAudioOutputUnplayed = 0)) eqn:Hu;
    destruct (bool_decide (maxSize = 0)) eqn:Hz; cbn [andb];
    eexists; (split; [reflexivity|]); (split; [reflexivity|]); intros Hpos;
    try reflexivity.
  apply bool_decide_eq_true_1 in Hz. lia.
Qed.

(** *** Resampler contexts *)

Lemma cleanupInput_resampler s :
  _inputToNetworkResampler (cleanupInput s) = None
  /\ _desiredInputFormat (cleanupInput s) = _desiredInputFormat s.
Proof. unfold cleanupInput. frame; auto. Qed.

Lemma setupInputResampler_spec s s' :
  _inputToNetworkResampler s = None ->
  setupInputResampler X s = Some s' ->
  _inputFormat s' = _inputFormat s
  /\ _desiredInputFormat s' = _desiredInputFormat s
  /\ (is_Some (_inputToNetworkResampler s')
      <-> sampleRate (_inputFormat s) <> sampleRate (_desiredInputFormat s)).
Proof.
  unfold setupInputResampler. intros Hnone.
  destruct (decide _) as [[_ Hrate]|Hsame].
  - destruct (Resampler.soxrResamplerFromInputFormatToOutputFormat _ _ _) as [r|];
      [|discriminate].
    intros H; injection H as <-. repeat split; eauto.
  - intros H; injection H as <-. repeat split.
    + rewrite Hnone. intros [? ?]; discriminate.
    + intros Hrate. exfalso. apply Hsame. split; [congruence|exact Hrate].
Qed.

Lemma startInput_resampler d s :
  _inputToNetworkResampler (startInput K d s).2 = _inputToNetworkResampler s
  /\ _inputFormat (startInput K d s).2 = _inputFormat s
  /\ _desiredInputFormat (startInput K d s).2 = _desiredInputFormat s.
Proof. unfold startInput. frame; auto. Qed.

(** After an input switch that reports success, the input-to-network
    resampler exists exactly when the negotiated input format and the
    desired input format differ in sample rate. *)
Lemma switchInputToAudioDevice_resampler d s s' :
  switchInputToAudioDevice K X d s = (true, s') ->
  is_Some (_inputToNetworkResampler s')
  <-> sampleRate (_inputFormat s') <> sampleRate (_desiredInputFormat s').
Proof.
  unfold switchInputToAudioDevice.
  destruct (cleanupInput_resampler s) as [Hnone _]. revert Hnone.
  generalize (cleanupInput s). intros c Hnone. cbv zeta.
  destruct (negb (isNull d)); [|discriminate].
  match goal with |- context [FormatNegotiation.adjustedFormatForAudioDevice ?a ?b ?c ?d] =>
    generalize (FormatNegotiation.adjustedFormatForAudioDevice a b c d) end.
  intros [ok adj]. cbn [fst snd].
  destruct ok; [|discriminate].
  match goal with |- context [setupInputResampler X ?t] =>
    destruct (setupInputResampler X t) as [s1|] eqn:E end; [|discriminate].
  apply setupInputResampler_spec in E; [|exact Hnone].
  destruct E as (Hf & Hd & Hiff). intros H.
  destruct (startInput_resampler d s1) as (Hr2 & Hf2 & Hd2).
  rewrite H in Hr2, Hf2, Hd2. cbn [snd] in Hr2, Hf2, Hd2.
  rewrite Hr2, Hf2, Hd2, Hf, Hd. exact Hiff.
Qed.

Lemma cleanupOutput_resamplers s :
  _networkToOutputResampler (cleanupOutput s) = None
  /\ _loopbackResampler (cleanupOutput s) = None.
Proof. unfold cleanupOutput. frame; auto. Qed.

Lemma setupOutputResampler_spec s s' :
  _networkToOutputResampler s = None ->
  setupOutputResampler X s = Some s' ->
  _outputFormat s' = _outputFormat s
  /\ _desiredOutputFormat s' = _desiredOutputFormat s
  /\ _loopbackResampler s' = _loopbackResampler s
  /\ (is_Some (_networkToOutputResampler s')
      <-> sampleRate (_desiredOutputFormat s) <> sampleRate (_outputFormat s)).
Proof.
  unfold setupOutputResampler. intros Hnone.
  destruct (decide _) as [[_ Hrate]|Hsame].
  - destruct (Resampler.soxrResamplerFromInputFormatToOutputFormat _ _ _) as [r|];
      [|discriminate].
    intros H; injection H as <-. repeat split; eauto.
  - intros H; injection H as <-. repeat split.
    + rewrite Hnone. intros [? ?]; discriminate.
    + intros Hrate. exfalso. apply Hsame. split; [congruence|exact Hrate].
Qed.

(** After an output switch that reports success, the network-to-output
    resampler exists exactly when the desired output format and the
    negotiated output format differ in sample rate, and there is no
    loopback resampler. *)
Lemma switchOutputToAudioDevice_resampler d s s' :
  switchOutputToAudioDevice K X d s = (true, s') ->
  (is_Some (_networkToOutputResampler s')
   <-> sampleRate (_desiredOutputFormat s') <> sampleRate (_outputFormat s'))
  /\ _loopbackResampler s' = None.
Proof.
  unfold switchOutputToAudioDevice.
  destruct (cleanupOutput_resamplers s) as [Hnone Hloop]. revert Hnone Hloop.
  generalize (cleanupOutput s). intros c Hnone Hloop. cbv zeta.
  destruct (negb (isNull d)); [|discriminate].
  match goal with |- context [FormatNegotiation.adjustedFormatForAudioDevice ?a ?b ?c ?d] =>
    generalize (FormatNegotiation.adjustedFormatForAudioDevice a b c d) end.
  intros [ok adj]. cbn [fst snd].
  destruct ok; [|discriminate].
  match goal with |- context [setupOutputResampler X ?t] =>
    destruct (setupOutputResampler X t) as [s1|] eqn:E end; [|discriminate].
  apply setupOutputResampler_spec in E; [|exact Hnone].
  destruct E as (Hf & Hd & Hl & Hiff). intros H. injection H as <-.
  change (_networkToOutputResampler (startOutput K s1)) with (_networkToOutputResampler s1).
  change (_desiredOutputFormat (startOutput K s1)) with (_desiredOutputFormat s1).
  change (_outputFormat (startOutput K s1)) with (_outputFormat s1).
  change (_loopbackResampler (startOutput K s1)) with (_loopbackResampler s1).
  rewrite Hf, Hd, Hl. split; [exact Hiff|exact Hloop].
Qed.

(** After the setup of the loopback, a resampler exists when the input and
    output formats differ in sample rate. *)
Lemma setupLoopbackResampler_exists s s' :
  setupLoopbackResampler X s = Some s' ->
  sampleRate (_inputFormat s') <> sampleRate (_outputFormat s') ->
  is_Some (_loopbackResampler s').
Proof.
  unfold setupLoopbackResampler.
  destruct (bool_decide (sampleRate (_inputFormat s) <> sampleRate (_outputFormat s)))
    eqn:Hrate; cbn [andb].
  - destruct (bool_decide (is_Some (_loopbackResampler s))) eqn:Hsome; cbn [negb].
    + intros H; injection H as <-. intros _. apply bool_decide_eq_true_1 in Hsome. exact Hsome.
    + destruct (Resampler.soxrResamplerFromInputFormatToOutputFormat _ _ _) as [r|];
        [|discriminate].
      intros H; injection H as <-. intros _. cbn. eauto.
  - intros H; injection H as <-. intros Hne.
    apply bool_decide_eq_false_1 in Hrate. contradiction.
Qed.

(** The setup of the loopback keeps a resampler that is already there,
    whatever the formats are now. *)
Lemma setupLoopbackResampler_keeps_existing s r :
  _loopbackResampler s = Some r -> setupLoopbackResampler X s = Some s.
Proof.
  unfold setupLoopbackResampler. intros Hr. rewrite Hr.
  rewrite (bool_decide_eq_true_2 (is_Some (Some r))) by eauto.
  cbn [negb]. rewrite andb_false_r. reflexivity.
Qed.

(** The input switch does not touch the loopback resampler. *)
Lemma switchInputToAudioDevice_loopbackResampler d s :
  _loopbackResampler (switchInputToAudioDevice K X d s).2 = _loopbackResampler s.
Proof.
  unfold switchInputToAudioDevice.
  assert (H0 : _loopbackResampler (cleanupInput s) = _loopbackResampler s).
  { unfold cleanupInput. frame. }
  abstract_state (cleanupInput s) H0. clear H0.
  cbv zeta.
  destruct (negb (isNull d)); [|exact Hc].
  match goal with |- context [FormatNegotiation.adjustedFormatForAudioDevice ?a ?b ?c ?d] =>
    generalize (FormatNegotiation.adjustedFormatForAudioDevice a b c d) end.
  intros [ok adj]. cbn [fst snd].
  destruct ok; [|exact Hc].
  match goal with |- context [setupInputResampler X ?t] =>
    destruct (setupInputResampler X t) as [s1|] eqn:E end; [|exact Hc].
  assert (H1 : _loopbackResampler s1 = _loopbackResampler c).
  { revert E. unfold setupInputResampler. frame. }
  rewrite <- Hc, <- H1. unfold startInput. frame.
Qed.

End WithContext.
End ClientFacts.

(** ** Source selection on the sample configuration *)

Module SourceSelectionExample.
Import Client ClientFacts.

(** C10 on the state reached by selecting the noise source on a new client. *)
Lemma source_flags_mutually_exclusive_witness :
  let s := selectAudioSourcePinkNoise (Sample.fresh 3) in
  ~ (_toneSourceEnabled s = true /\ _noiseSourceEnabled s = true)
  /\ (forall stream packetBuffer frames enabled period threshold,
        sourceFlags (newAudioClient stream packetBuffer frames enabled period threshold)
        = (true, false))
  /\ sourceFlags (selectAudioSourcePinkNoise s) = (false, true)
  /\ sourceFlags (selectAudioSourceSine440 s) = (true, false)
  /\ (forall frames,
        _audioSourceInjectEnabled s = true ->
        injectAudioSource Sample.collaborators s frames
        = sourceGainRender Sample.collaborators
            (if _toneSourceEnabled s then toneSourceRender Sample.collaborators frames
             else noiseSourceRender Sample.collaborators frames)).
Proof.
  apply (source_flags_mutually_exclusive Sample.constants Sample.collaborators).
  eapply reachable_step.
  - apply reachable_new.
  - apply step_selectAudioSourcePinkNoise.
Defined.

End SourceSelectionExample.

(** ** The input-processing loop on the sample configuration *)

Module InputLoopExample.
Import Client ClientFacts.

(** C1 at sequence number 65535, muted, with a failing send: the next
    number is 0. *)
Lemma sequence_number_per_processed_frame_witness :
  exists s',
    processNetworkFrame Sample.constants Sample.collaborators (Sample.quietEnv true)
      (toggleMute (set_outgoingAvatarAudioSequenceNumber 65535 Sample.started)) = Some s'
    /\ _outgoingAvatarAudioSequenceNumber s' = 0.
Proof.
  destruct (processNetworkFrame Sample.constants Sample.collaborators (Sample.quietEnv true)
              (toggleMute (set_outgoingAvatarAudioSequenceNumber 65535 Sample.started)))
    as [s'|] eqn:E; [|vm_compute in E; discriminate E].
  exists s'. split; [reflexivity|].
  rewrite (sequence_number_per_processed_frame Sample.constants Sample.collaborators _ _ _ E).
  reflexivity.
Defined.

(** The claim of C1 fails without a mixer: [handleAudioInput] consumes one
    quantum of 256 samples in one iteration and the sequence number stays 0. *)
Lemma sequence_number_unchanged_without_mixer :
  exists s',
    handleAudioInput Sample.constants Sample.collaborators (replicate 256 100)
      (fun _ => Sample.quietEnv false) Sample.idle = Some (1%nat, s')
    /\ _outgoingAvatarAudioSequenceNumber Sample.idle = 0
    /\ _outgoingAvatarAudioSequenceNumber s' = 0
    /\ _outgoingAvatarAudioSequenceNumber s' <> (0 + 1) mod 2 ^ 16.
Proof.
  eexists. split; [vm_compute; reflexivity|]. vm_compute. repeat split; discriminate.
Qed.

(** C6 on a frame in which the gate reports a clip, followed by two quiet
    frames: the timer is [0.0f] and then [d + d] for [d = 256 / 24000]. *)
Lemma clip_timer_after_clip_witness :
  exists s1 s3,
    processNetworkFrame Sample.constants Sample.collaborators Sample.clippingEnv Sample.started
    = Some s1
    /\ quietFrames Sample.constants Sample.collaborators
         [Sample.quietEnv true; Sample.quietEnv true] s1 = Some s3
    /\ (forall stream packetBuffer frames enabled period threshold,
          _timeSinceLastClip (newAudioClient stream packetBuffer frames enabled period threshold)
          = Float32.minus_one)
    /\ Float32.nonneg Float32.minus_one = false
    /\ (forall env' t t',
          _muted t = false ->
          clipDetected Sample.constants Sample.collaborators env' t = false ->
          Float32.nonneg (_timeSinceLastClip t) = false ->
          processNetworkFrame Sample.constants Sample.collaborators env' t = Some t' ->
          _timeSinceLastClip t' = _timeSinceLastClip t)
    /\ _timeSinceLastClip s1 = Float32.zero
    /\ (forall env' t t',
          _isStereoInput t = false -> _muted t = false ->
          clipDetected Sample.constants Sample.collaborators env' t = false ->
          Float32.nonneg (_timeSinceLastClip t) = true ->
          processNetworkFrame Sample.constants Sample.collaborators env' t = Some t' ->
          _timeSinceLastClip t'
          = Float32.add (_timeSinceLastClip t) (specFrameDuration Sample.constants))
    /\ _timeSinceLastClip s3
       = accumulate (length [Sample.quietEnv true; Sample.quietEnv true])
           (specFrameDuration Sample.constants) Float32.zero
    /\ (forall env' t t',
          _muted t = true ->
          processNetworkFrame Sample.constants Sample.collaborators env' t = Some t' ->
          _timeSinceLastClip t' = Float32.zero).
Proof.
  destruct (processNetworkFrame Sample.constants Sample.collaborators Sample.clippingEnv
              Sample.started) as [s1|] eqn:E1;
    [|vm_compute in E1; discriminate E1].
  destruct (quietFrames Sample.constants Sample.collaborators
              [Sample.quietEnv true; Sample.quietEnv true] s1) as [s3|] eqn:E3.
  - exists s1, s3. split; [reflexivity|]. split; [exact E3|].
    apply (clip_timer_after_clip Sample.constants Sample.collaborators Sample.clippingEnv
             [Sample.quietEnv true; Sample.quietEnv true] Sample.started s1 s3).
    + reflexivity.
    + reflexivity.
    + vm_compute. reflexivity.
    + exact E1.
    + vm_compute. reflexivity.
    + exact E3.
  - vm_compute in E1. injection E1 as <-. vm_compute in E3. discriminate E3.
Defined.

(** The sentinel: on a client that has never clipped, a quiet unmuted
    frame leaves the timer at [-1.0f]. *)
Lemma clip_timer_stays_at_the_sentinel :
  exists s1,
    handleAudioInput Sample.constants Sample.collaborators (replicate 256 100)
      (fun _ => Sample.quietEnv true) Sample.idle = Some (1%nat, s1)
    /\ _timeSinceLastClip Sample.idle = Float32.minus_one
    /\ _timeSinceLastClip s1 = Float32.minus_one.
Proof. eexists. split; [vm_compute; reflexivity|]. vm_compute. split; reflexivity. Qed.

(** With stereo input the loop adds [512 / 24000] per frame, the number of
    samples of both channels over the rate, which is twice the duration
    [256 / 24000] of the frame. *)
Lemma clip_timer_counts_both_channels_of_a_stereo_frame :
  exists s1,
    processNetworkFrame Sample.constants Sample.collaborators (Sample.quietEnv true)
      Sample.startedStereo = Some s1
    /\ _isStereoInput Sample.startedStereo = true
    /\ _timeSinceLastClip Sample.startedStereo = Float32.zero
    /\ _timeSinceLastClip s1
       = Float32.div (Float32.of_int 512) (Float32.of_int 24000)
    /\ specFrameDuration Sample.constants
       = Float32.div (Float32.of_int 256) (Float32.of_int 24000)
    /\ _timeSinceLastClip s1 <> specFrameDuration Sample.constants.
Proof.
  eexists. split; [vm_compute; reflexivity|]. vm_compute.
  repeat split; discriminate.
Qed.

(** The claim of C6 fails on a muted frame, which holds the timer at
    [0.0f] instead of adding the frame duration, and on six quiet frames,
    after which the rounded sum differs from the product [6 * d].  The first
    call of [handleAudioInput] processes one frame in which the gate reports
    a clip; the second, after [toggleMute], one muted frame; the third, in
    place of the second, six unmuted quiet frames. *)
Lemma clip_timer_not_a_multiple_of_the_frame_duration :
  exists s1 s2 s7,
    handleAudioInput Sample.constants Sample.collaborators (replicate 256 100)
      (fun _ => Sample.clippingEnv) Sample.idle = Some (1%nat, s1)
    /\ _timeSinceLastClip s1 = Float32.zero
    /\ handleAudioInput Sample.constants Sample.collaborators (replicate 256 100)
         (fun _ => Sample.quietEnv true) (toggleMute s1) = Some (1%nat, s2)
    /\ _timeSinceLastClip s2 = Float32.zero
    /\ _timeSinceLastClip s2
       <> Float32.add (_timeSinceLastClip s1) (specFrameDuration Sample.constants)
    /\ handleAudioInput Sample.constants Sample.collaborators (replicate (6 * 256) 100)
         (fun _ => Sample.quietEnv true) s1 = Some (6%nat, s7)
    /\ _timeSinceLastClip s7
       <> Float32.mul (Float32.of_int 6) (specFrameDuration Sample.constants).
Proof.
  eexists. eexists. eexists.
  split; [vm_compute; reflexivity|].
  split; [vm_compute; reflexivity|].
  split; [vm_compute; reflexivity|].
  split; [vm_compute; reflexivity|].
  split; [vm_compute; discriminate|].
  split; [vm_compute; reflexivity|].
  vm_compute. discriminate.
Qed.

End InputLoopExample.

(** ** Starve detection on the sample configuration *)

Module StarveDetectionExample.
Import Client ClientFacts.



End StarveDetectionExample.

(** ** The output device read on the sample configuration *)

Module OutputReadExample.
Import Client ClientFacts.

(** C7 on a request of 8 bytes when three samples can be popped: 6 bytes
    are returned and the last two bytes of the buffer are untouched. *)
Lemma read_copies_popped_samples_or_fills_silence_witness :
  exists s',
    readData Sample.collaborators (replicate 8 255) 8 0 Sample.withThreeSamples
    = Some (6, [7; 0; 7; 0; 7; 0; 255; 255], s')
    /\ _receivedAudioStream s' = Sample.streamWith 0.
Proof.
  refine (read_copies_popped_samples_or_fills_silence Sample.collaborators
            (replicate 8 255) 8 0 Sample.withThreeSamples _ _ _).
  - unfold INT_MAX. lia.
  - cbn. lia.
  - vm_compute. discriminate.
Defined.

(** The underrun: nothing can be popped, the 8 requested bytes are set to
    zero and 8 is returned. *)
Lemma read_fills_silence_on_underrun :
  exists s',
    readData Sample.collaborators (replicate 10 255) 8 0 (Sample.fresh 3)
    = Some (8, [0; 0; 0; 0; 0; 0; 0; 0; 255; 255], s').
Proof. eexists. vm_compute. reflexivity. Qed.

(** C8 on an underrun of 8 bytes on a drained device: 8 bytes of silence
    are reported as written and the counter stays 0. *)
Lemma underrun_is_counted_only_for_a_read_of_no_bytes_witness :
  exists s',
    readData Sample.collaborators (replicate 8 255) 8 0 (Sample.fresh 3)
    = Some (8, replicate (Z.to_nat 8) 0 ++ drop (Z.to_nat 8) (replicate 8 255), s')
    /\ _unfulfilledReads s'
       = (if bool_decide (0 = 0) && bool_decide (8 = 0)
          then to_int (_unfulfilledReads (Sample.fresh 3) + 1)
          else _unfulfilledReads (Sample.fresh 3))
    /\ (0 < 8 -> _unfulfilledReads s' = _unfulfilledReads (Sample.fresh 3)).
Proof.
  apply (underrun_is_counted_only_for_a_read_of_no_bytes Sample.collaborators
           (replicate 8 255) 8 0 (Sample.fresh 3)).
  - unfold INT_MAX. lia.
  - cbn. lia.
  - vm_compute. discriminate.
Defined.

(** The one read that is counted: a read of no bytes on a drained device. *)
Lemma read_of_no_bytes_is_counted :
  exists s',
    readData Sample.collaborators (replicate 8 255) 0 0 (Sample.fresh 3)
    = Some (0, replicate 8 255, s')
    /\ _unfulfilledReads (Sample.fresh 3) = 0
    /\ _unfulfilledReads s' = 1.
Proof. eexists. vm_compute. repeat split. Qed.

(** An underrun while the device still holds unplayed bytes: nothing can
    be popped, silence is substituted, and the counter stays 0. *)
Lemma underrun_not_counted_while_audio_is_unplayed :
  exists s',
    (popSamples Sample.collaborators (_receivedAudioStream (Sample.fresh 3)) 4 false).1 = 0
    /\ readData Sample.collaborators (replicate 8 255) 8 4096 (Sample.fresh 3)
       = Some (8, [0; 0; 0; 0; 0; 0; 0; 0], s')
    /\ _unfulfilledReads (Sample.fresh 3) = 0
    /\ _unfulfilledReads s' = 0.
Proof. eexists. vm_compute. repeat split. Qed.

(** The same underrun on a drained device: the read reports the 8 bytes of
    silence as written, and the counter stays 0 as well. *)
Lemma underrun_not_counted_on_drained_device :
  exists s',
    readData Sample.collaborators (replicate 8 255) 8 0 (Sample.fresh 3)
    = Some (8, [0; 0; 0; 0; 0; 0; 0; 0], s')
    /\ _unfulfilledReads (Sample.fresh 3) = 0
    /\ _unfulfilledReads s' = 0.
Proof. eexists. vm_compute. repeat split. Qed.

End OutputReadExample.

(** ** Resampler contexts on the sample configuration *)

Module ResamplerExample.
Import Client ClientFacts.

(** C9.  The loopback resampler outlives an input switch: on 44.1 kHz
    input and 48 kHz output the loopback creates a resampler; after the
    input is switched to a 48 kHz device the next loopback still runs with
    that resampler, although the input and output rates are now equal. *)
Theorem stale_loopback_resampler_after_input_switch :
  exists s1 s3,
    handleAudioInput Sample.constants Sample.collaborators (replicate 10 100)
      (fun _ => Sample.quietEnv true) Sample.echoing
    = Some (0%nat, s1)
    /\ _loopbackResampler s1 = Some {| soxr_input_rate := 44100; soxr_output_rate := 48000 |}
    /\ switchInputToAudioDevice Sample.constants Sample.collaborators
         (Sample.deviceAt 3 48000) s1
       = (true, (switchInputToAudioDevice Sample.constants Sample.collaborators
                   (Sample.deviceAt 3 48000) s1).2)
    /\ handleAudioInput Sample.constants Sample.collaborators (replicate 10 100)
         (fun _ => Sample.quietEnv true)
         (switchInputToAudioDevice Sample.constants Sample.collaborators
            (Sample.deviceAt 3 48000) s1).2
       = Some (0%nat, s3)
    /\ length (loopbackWritten s3) = 2%nat
    /\ sampleRate (_inputFormat s3) = 48000
    /\ sampleRate (_outputFormat s3) = 48000
    /\ _loopbackResampler s3
       = Some {| soxr_input_rate := 44100; soxr_output_rate := 48000 |}.
Proof.
  eexists. eexists.
  split; [vm_compute; reflexivity|].
  split; [vm_compute; reflexivity|].
  split; [vm_compute; reflexivity|].
  split; [vm_compute; reflexivity|].
  vm_compute. repeat split.
Qed.

End ResamplerExample.

(** ** Destination sample counts on the sample configuration *)

Module SampleCountExample.
Import SampleCount SampleCountFacts Client.

(** C3 on 480 samples and a client on 44.1 kHz devices: the render path
    asks for 882 samples and the loopback path for 480. *)
Lemma destination_sample_counts_witness :
  (numDeviceOutputSamples (_desiredOutputFormat Sample.onFortyFour)
     (_outputFormat Sample.onFortyFour) 480
   = 480 * (sampleRate (_outputFormat Sample.onFortyFour)
            * channelCount (_outputFormat Sample.onFortyFour))
     / (sampleRate (_desiredOutputFormat Sample.onFortyFour)
        * channelCount (_desiredOutputFormat Sample.onFortyFour))
   /\ specRoundedCount (_desiredOutputFormat Sample.onFortyFour)
        (_outputFormat Sample.onFortyFour) 480 - 1
      <= numDeviceOutputSamples (_desiredOutputFormat Sample.onFortyFour)
           (_outputFormat Sample.onFortyFour) 480
      <= specRoundedCount (_desiredOutputFormat Sample.onFortyFour)
           (_outputFormat Sample.onFortyFour) 480)
  /\ (loopbackDestinationSamples Sample.onFortyFour 480
      = numDestinationSamplesRequired (_inputFormat Sample.onFortyFour)
          (_outputFormat Sample.onFortyFour) 480
      /\ loopbackDestinationSamples Sample.onFortyFour 480
         = specRoundedCount (_inputFormat Sample.onFortyFour)
             (_outputFormat Sample.onFortyFour) 480).
Proof.
  destruct (destination_sample_counts Sample.onFortyFour 480 ltac:(lia)) as [Hrender Hloop].
  split.
  - apply Hrender.
    + vm_compute. split; [reflexivity|discriminate].
    + vm_compute. discriminate.
    + vm_compute. discriminate.
  - apply Hloop.
    + vm_compute. tauto.
    + vm_compute. tauto.
    + vm_compute. tauto.
    + vm_compute. tauto.
    + lia.
Defined.

(** The claim of C3 fails on the render path: one stereo network frame of
    512 samples at 24 kHz, rendered on a 44.1 kHz stereo device, asks for
    940 samples, and [512 * 44100 / 24000 = 940.8] rounds to 941.  It also
    fails on the loopback path at a tie: 360 samples from 8 kHz mono to
    22.05 kHz stereo are [1984.5] samples, for which 1984 are requested. *)
Lemma render_path_truncates_the_sample_count :
  (exists out,
     processReceivedSamples Sample.collaborators (replicate 512 0) [] Sample.onFortyFour
     = Some out
     /\ length out = 940%nat)
  /\ numDeviceOutputSamples (_desiredOutputFormat Sample.onFortyFour)
       (_outputFormat Sample.onFortyFour) 512 = 940
  /\ specRoundedCount (_desiredOutputFormat Sample.onFortyFour)
       (_outputFormat Sample.onFortyFour) 512 = 941
  /\ numDestinationSamplesRequired (Sample.pcm 8000 1) (Sample.pcm 22050 2) 360 = 1984
  /\ specRoundedCount (Sample.pcm 8000 1) (Sample.pcm 22050 2) 360 = 1985.
Proof.
  split; [eexists; split; vm_compute; reflexivity|].
  vm_compute. repeat split.
Qed.

(** 480 stereo samples from 48 kHz to 44.1 kHz are 441 samples. *)
Lemma numDestinationSamplesRequired_480 :
  numDestinationSamplesRequired (Sample.pcm 48000 2) (Sample.pcm 44100 2) 480 = 441.
Proof. vm_compute. reflexivity. Qed.

End SampleCountExample.

(** * Further properties of the client *)

(** ** Channel conversion: further properties *)

Module ChannelConversionProperties.
Import ChannelConversion MachineIntFacts ChannelConversionFacts.

(** The mono-to-stereo loop started at index [i]: it writes the pairs of
    the [iters] source samples from [i] on and leaves the other destination
    samples; a property of all samples of both arrays holds of the result. *)
Lemma monoToStereoLoop_spec (P : Z -> Prop) (iters i : nat) (src dst : list Z) :
  (i + iters <= length src)%nat ->
  (2 * (i + iters) <= length dst)%nat ->
  exists dst',
    monoToStereoLoop iters i src dst = Some dst'
    /\ length dst' = length dst
    /\ (forall j x, (i <= j < i + iters)%nat -> src !! j = Some x ->
          dst' !! (2 * j)%nat = Some x /\ dst' !! (2 * j + 1)%nat = Some x)
    /\ (forall k, (k < 2 * i \/ 2 * (i + iters) <= k)%nat -> dst' !! k = dst !! k)
    /\ (Forall P src -> Forall P dst -> Forall P dst').
Proof.
  revert i dst. induction iters as [|iters IH]; intros i dst Hsrc Hdst.
  - exists dst. cbn [monoToStereoLoop].
    split; [reflexivity|]. split; [reflexivity|].
    split; [intros j x Hj; lia|]. split; [reflexivity|auto].
  - destruct (lookup_lt_is_Some_2 src i) as [x Hx]; [lia|].
    cbn [monoToStereoLoop]. rewrite Hx. cbn [mbind option_bind].
    destruct (decide (i * 2 + 1 < length dst)%nat) as [_|]; [|lia].
    destruct (IH (i + 1)%nat (<[(i * 2)%nat := x]> (<[(i * 2 + 1)%nat := x]> dst)))
      as (dst' & Hrun & Hlen & Hwritten & Hkept & Hall).
    { lia. } { rewrite !length_insert. lia. }
    exists dst'. split; [exact Hrun|].
    split; [rewrite Hlen, !length_insert; reflexivity|]. split; [|split].
    + intros j y Hj Hy. destruct (decide (j = i)) as [->|Hne].
      * rewrite Hx in Hy. injection Hy as <-.
        rewrite !Hkept by lia. split.
        -- replace (2 * i)%nat with (i * 2)%nat by lia.
           apply list_lookup_insert_eq. rewrite length_insert. lia.
        -- replace (2 * i + 1)%nat with (i * 2 + 1)%nat by lia.
           rewrite list_lookup_insert_ne by lia.
           apply list_lookup_insert_eq. lia.
      * apply Hwritten; [lia|exact Hy].
    + intros k Hk. rewrite Hkept by lia.
      rewrite !list_lookup_insert_ne by lia. reflexivity.
    + intros Hs Hd. apply Hall; [exact Hs|].
      pose proof (Forall_lookup_1 _ _ _ _ Hs Hx) as Hpx.
      apply Forall_insert; [apply Forall_insert|]; assumption.
Qed.

(** The stereo-to-mono loop reads two source samples per iteration: it is
    undefined when the source ends before the last pair does. *)
Lemma stereoToMonoLoop_short_source (iters i : nat) (src dst : list Z) :
  (0 < iters)%nat -> (length src < i + 2 * iters)%nat ->
  stereoToMonoLoop iters i src dst = None.
Proof.
  revert i dst. induction iters as [|iters IH]; intros i dst Hpos Hshort; [lia|].
  cbn [stereoToMonoLoop].
  destruct (src !! i) as [a|] eqn:Ha; [|reflexivity]. cbn [mbind option_bind].
  destruct (src !! (i + 1)%nat) as [b|] eqn:Hb; [|reflexivity]. cbn [mbind option_bind].
  destruct (decide _); [|reflexivity].
  apply lookup_lt_Some in Hb.
  apply IH; lia.
Qed.

(** X1.  Mono-to-stereo conversion of [n] samples succeeds when the source
    holds [n] samples and the destination [2 * n]; destination samples
    [2 * j] and [2 * j + 1] are both source sample [j], and the destination
    beyond [2 * n] is untouched. *)
Theorem mono_to_stereo_duplicates_each_sample
    (src dst : list Z) (n : nat) (sourceFormat destinationFormat : QAudioFormat) :
  channelCount sourceFormat = 1 ->
  channelCount destinationFormat = 2 ->
  (n <= length src)%nat ->
  (2 * n <= length dst)%nat ->
  exists dst',
    sampleChannelConversion src dst n sourceFormat destinationFormat = Some (true, dst')
    /\ length dst' = length dst
    /\ (forall j x, (j < n)%nat -> src !! j = Some x ->
          dst' !! (2 * j)%nat = Some x /\ dst' !! (2 * j + 1)%nat = Some x)
    /\ (forall k, (2 * n <= k)%nat -> dst' !! k = dst !! k).
Proof.
  intros Hs Hd Hsrc Hdst. unfold sampleChannelConversion.
  destruct (decide (channelCount sourceFormat = 2 /\ channelCount destinationFormat = 1))
    as [[H _]|_]; [lia|].
  destruct (decide (channelCount sourceFormat = 1 /\ channelCount destinationFormat = 2))
    as [_|H]; [|tauto].
  destruct (monoToStereoLoop_spec (fun _ => True) n 0 src dst)
    as (dst' & Hrun & Hlen & Hwritten & Hkept & _); [lia|lia|].
  exists dst'. rewrite Hrun. split; [reflexivity|]. split; [exact Hlen|]. split.
  - intros j x Hj. apply Hwritten. lia.
  - intros k Hk. apply Hkept. lia.
Qed.

Lemma mono_to_stereo_duplicates_each_sample_witness :
  exists dst',
    sampleChannelConversion [5; -7] [0; 0; 0; 0; 9] 2 (Sample.pcm 24000 1) (Sample.pcm 24000 2)
    = Some (true, dst')
    /\ length dst' = length [0; 0; 0; 0; 9]
    /\ (forall j x, (j < 2)%nat -> [5; -7] !! j = Some x ->
          dst' !! (2 * j)%nat = Some x /\ dst' !! (2 * j + 1)%nat = Some x)
    /\ (forall k, (2 * 2 <= k)%nat -> dst' !! k = [0; 0; 0; 0; 9] !! k).
Proof.
  apply (mono_to_stereo_duplicates_each_sample [5; -7] [0; 0; 0; 0; 9] 2
           (Sample.pcm 24000 1) (Sample.pcm 24000 2)).
  - reflexivity.
  - reflexivity.
  - simpl. lia.
  - simpl. lia.
Defined.

(** X2.  A mono block converted to stereo and back: sample [x] comes back
    as [(x / 2) + (x / 2)], that is [x] without its remainder modulo 2; an
    even sample is restored, an odd one moves by one toward zero. *)
Theorem mono_stereo_mono_round_trip
    (src scratch dst : list Z) (n : nat) (mono stereo : QAudioFormat) :
  channelCount mono = 1 ->
  channelCount stereo = 2 ->
  (n <= length src)%nat ->
  (2 * n <= length scratch)%nat ->
  (n <= length dst)%nat ->
  Forall is_int16 src ->
  Forall is_int16 scratch ->
  exists doubled back,
    sampleChannelConversion src scratch n mono stereo = Some (true, doubled)
    /\ sampleChannelConversion doubled dst (2 * n) stereo mono = Some (true, back)
    /\ (forall j x, (j < n)%nat -> src !! j = Some x ->
          back !! j = Some (x - Z.rem x 2))
    /\ (forall j, (n <= j)%nat -> back !! j = dst !! j).
Proof.
  intros Hm Hs Hsrc Hscratch Hdst Hrange Hrange'.
  unfold sampleChannelConversion.
  destruct (decide (channelCount mono = 2 /\ channelCount stereo = 1)) as [[H _]|_]; [lia|].
  destruct (decide (channelCount mono = 1 /\ channelCount stereo = 2)) as [_|H]; [|tauto].
  destruct (decide (channelCount stereo = 2 /\ channelCount mono = 1)) as [_|H]; [|tauto].
  destruct (monoToStereoLoop_spec is_int16 n 0 src scratch)
    as (doubled & Hrun & Hlen & Hwritten & _ & Hall); [lia|lia|].
  specialize (Hall Hrange Hrange').
  assert (Hiters : ((2 * n + 1) `div` 2 = n)%nat).
  { symmetry. apply (Nat.div_unique _ _ _ 1%nat); lia. }
  rewrite Hiters.
  destruct (stereoToMonoLoop_spec n 0 doubled dst) as (back & Hrun' & _ & Hw & Hk);
    [lia | lia | exact Hall |].
  change (2 * 0)%nat with 0%nat in Hrun'.
  exists doubled, back. rewrite Hrun, Hrun'.
  split; [reflexivity|]. split; [reflexivity|]. split.
  - intros j x Hj Hx. destruct (Hwritten j x ltac:(lia) Hx) as [Hl Hr].
    rewrite (Hw j x x ltac:(lia) Hl Hr). f_equal. unfold cdiv.
    pose proof (Z.quot_rem' x 2). lia.
  - intros j Hj. apply Hk. lia.
Qed.

Lemma mono_stereo_mono_round_trip_witness :
  exists doubled back,
    sampleChannelConversion [6; 7; -7] [0; 0; 0; 0; 0; 0] 3
      (Sample.pcm 24000 1) (Sample.pcm 24000 2) = Some (true, doubled)
    /\ sampleChannelConversion doubled [1; 1; 1; 1] (2 * 3)
         (Sample.pcm 24000 2) (Sample.pcm 24000 1) = Some (true, back)
    /\ (forall j x, (j < 3)%nat -> [6; 7; -7] !! j = Some x ->
          back !! j = Some (x - Z.rem x 2))
    /\ (forall j, (3 <= j)%nat -> back !! j = [1; 1; 1; 1] !! j).
Proof.
  apply (mono_stereo_mono_round_trip [6; 7; -7] [0; 0; 0; 0; 0; 0] [1; 1; 1; 1] 3
           (Sample.pcm 24000 1) (Sample.pcm 24000 2)).
  - reflexivity.
  - reflexivity.
  - simpl. lia.
  - simpl. lia.
  - simpl. lia.
  - repeat constructor; unfold is_int16, INT16_MIN, INT16_MAX; lia.
  - repeat constructor; unfold is_int16, INT16_MIN, INT16_MAX; lia.
Defined.

(** X3.  For an odd number of source samples the stereo-to-mono loop reads
    [sourceSamples[numSourceSamples]], one sample past the count: on a
    source of exactly that many samples the conversion is undefined. *)
Theorem stereo_to_mono_odd_count_reads_past_the_source
    (src dst : list Z) (n : nat) (sourceFormat destinationFormat : QAudioFormat) :
  channelCount sourceFormat = 2 ->
  channelCount destinationFormat = 1 ->
  Nat.Odd n ->
  length src = n ->
  sampleChannelConversion src dst n sourceFormat destinationFormat = None.
Proof.
  intros Hs Hd [m ->] Hlen. unfold sampleChannelConversion.
  destruct (decide (channelCount sourceFormat = 2 /\ channelCount destinationFormat = 1))
    as [_|H]; [|tauto].
  assert (Hiters : ((2 * m + 1 + 1) `div` 2 = m + 1)%nat).
  { symmetry. apply (Nat.div_unique _ _ _ 0%nat); lia. }
  rewrite Hiters.
  rewrite stereoToMonoLoop_short_source; [reflexivity|lia|lia].
Qed.

Lemma stereo_to_mono_odd_count_reads_past_the_source_witness :
  sampleChannelConversion [3; 5; 8] [0; 0] 3 (Sample.pcm 24000 2) (Sample.pcm 24000 1) = None.
Proof.
  apply (stereo_to_mono_odd_count_reads_past_the_source [3; 5; 8] [0; 0] 3
           (Sample.pcm 24000 2) (Sample.pcm 24000 1)).
  - reflexivity.
  - reflexivity.
  - exists 1%nat. reflexivity.
  - reflexivity.
Defined.

End ChannelConversionProperties.

(** ** The received audio: further properties *)

Module ReceivedAudioProperties.
Import SampleCount Client MachineIntFacts ChannelConversionFacts SampleCountFacts.

Section WithContext.
Variable X : Collaborators.

(** Without a resampler and without a channel conversion,
    [possibleResampling] copies the source samples. *)
Lemma possibleResampling_copies (E : SoxrEngine) (src dst : list Z) (n nd : Z)
    (sourceFormat destinationFormat : QAudioFormat) :
  ~ (channelCount sourceFormat = 2 /\ channelCount destinationFormat = 1) ->
  ~ (channelCount sourceFormat = 1 /\ channelCount destinationFormat = 2) ->
  0 < n -> (Z.to_nat n <= length src)%nat -> (Z.to_nat n <= length dst)%nat ->
  Resampler.possibleResampling E None src dst n nd sourceFormat destinationFormat
  = Some (take (Z.to_nat n) src ++ drop (Z.to_nat n) dst).
Proof.
  intros H21 H12 Hn Hsrc Hdst.
  unfold Resampler.possibleResampling, ChannelConversion.sampleChannelConversion,
    Resampler.memcpySamples.
  destruct (decide (n > 0)); [|lia].
  destruct (decide (channelCount sourceFormat = 2 /\ _)); [tauto|].
  destruct (decide (channelCount sourceFormat = 1 /\ _)); [tauto|].
  cbn [mbind option_bind].
  destruct (decide _) as [_|Hbad]; [reflexivity|]. exfalso. apply Hbad. lia.
Qed.

Lemma length_resizeSamples (samples : list Z) (size : nat) :
  length (resizeSamples X samples size) = size.
Proof.
  unfold resizeSamples. rewrite length_app, length_take, length_map, length_seq. lia.
Qed.

Lemma quot_zero z : Z.quot 0 z = 0.
Proof. reflexivity. Qed.

Lemma to_uint_id z : 0 <= z <= INT_MAX -> to_uint z = z.
Proof.
  unfold to_uint, wrap_unsigned, INT_MAX. intros H.
  change (2 ^ 32) with 4294967296. apply Z.mod_small. lia.
Qed.

(** X4.  When the output device runs at the rate and channel count of the
    desired output format, there is no resampler and no reverb, the block
    handed to the device is the received block itself, whatever the output
    array held before. *)
Theorem received_samples_pass_through (inputBuffer outputBuffer : list Z) (s : AudioClient) :
  _networkToOutputResampler s = None ->
  sampleRate (_outputFormat s) = sampleRate (_desiredOutputFormat s) ->
  channelCount (_outputFormat s) = channelCount (_desiredOutputFormat s) ->
  0 < sampleRate (_desiredOutputFormat s) * channelCount (_desiredOutputFormat s) ->
  Z.of_nat (length inputBuffer)
    * (sampleRate (_desiredOutputFormat s) * channelCount (_desiredOutputFormat s)) <= INT_MAX ->
  _reverb s = false ->
  hasReverb (_receivedAudioStream s) = false ->
  processReceivedSamples X inputBuffer outputBuffer s = Some inputBuffer.
Proof.
  intros Hnone Hrate Hchannels Hpos Hfit Hreverb Hstream.
  unfold processReceivedSamples. cbv zeta. rewrite Hnone, Hreverb, Hstream. cbn [orb].
  destruct inputBuffer as [|x rest].
  { cbn [length]. change (Z.of_nat 0) with 0.
    unfold numDeviceOutputSamples, cdiv. rewrite Z.mul_0_l.
    change (to_int 0) with 0. rewrite quot_zero. reflexivity. }
  set (n := Z.of_nat (length (x :: rest))) in *.
  assert (Hn : 0 < n) by (unfold n; cbn [length]; lia).
  set (P := sampleRate (_desiredOutputFormat s) * channelCount (_desiredOutputFormat s)) in *.
  assert (HP : P <= INT_MAX) by (unfold INT_MAX in *; nia).
  rewrite numDeviceOutputSamples_exact; fold P; try rewrite Hrate, Hchannels; fold P;
    try lia.
  rewrite Z.div_mul by lia.
  rewrite to_uint_id by (unfold INT_MAX in *; nia).
  rewrite possibleResampling_copies.
  - cbn [mbind option_bind]. unfold n. rewrite Nat2Z.id.
    rewrite firstn_all, drop_ge; [rewrite app_nil_r; reflexivity|].
    rewrite length_resizeSamples. lia.
  - rewrite Hchannels. lia.
  - rewrite Hchannels. lia.
  - exact Hn.
  - unfold n. lia.
  - rewrite length_resizeSamples. lia.
Qed.

(** X5.  When the output device is mono at the rate of the desired stereo
    format and there is no resampler and no reverb, a received block of an
    even number of samples is mixed down: the device gets half as many
    samples, sample [j] being [(a / 2) + (b / 2)] for the [j]-th pair
    [(a, b)]. *)
Theorem received_stereo_is_mixed_down_for_a_mono_device
    (inputBuffer outputBuffer : list Z) (s : AudioClient) :
  _networkToOutputResampler s = None ->
  channelCount (_desiredOutputFormat s) = 2 ->
  channelCount (_outputFormat s) = 1 ->
  sampleRate (_outputFormat s) = sampleRate (_desiredOutputFormat s) ->
  0 < sampleRate (_desiredOutputFormat s) ->
  2 * sampleRate (_desiredOutputFormat s) <= INT_MAX ->
  Z.of_nat (length inputBuffer) * sampleRate (_desiredOutputFormat s) <= INT_MAX ->
  Nat.Even (length inputBuffer) ->
  Forall is_int16 inputBuffer ->
  _reverb s = false ->
  hasReverb (_receivedAudioStream s) = false ->
  exists mixed,
    processReceivedSamples X inputBuffer outputBuffer s = Some mixed
    /\ length mixed = (length inputBuffer `div` 2)%nat
    /\ (forall j a b,
          inputBuffer !! (2 * j)%nat = Some a -> inputBuffer !! (2 * j + 1)%nat = Some b ->
          mixed !! j = Some (Z.quot a 2 + Z.quot b 2)).
Proof.
  intros Hnone Hd Ho Hrate Hpos Hfit2 Hfit [m Hm] Hrange Hreverb Hstream.
  unfold processReceivedSamples. cbv zeta. rewrite Hnone, Hreverb, Hstream. cbn [orb].
  rewrite Hm.
  assert (Hhalf : ((2 * m) `div` 2 = m)%nat).
  { rewrite Nat.mul_comm. apply Nat.div_mul. lia. }
  rewrite Hhalf.
  set (r := sampleRate (_desiredOutputFormat s)) in *.
  assert (Hcount : numDeviceOutputSamples (_desiredOutputFormat s) (_outputFormat s)
                     (Z.of_nat (2 * m)) = Z.of_nat m).
  { destruct m as [|m'].
    - unfold numDeviceOutputSamples, cdiv. change (Z.of_nat (2 * 0)) with 0.
      rewrite Z.mul_0_l. change (to_int 0) with 0. rewrite quot_zero. reflexivity.
    - rewrite numDeviceOutputSamples_exact; rewrite ?Hrate, ?Hd, ?Ho; fold r;
        unfold INT_MAX in *; try lia.
      replace (Z.of_nat (2 * S m') * (r * 1)) with (Z.of_nat (S m') * (r * 2)) by lia.
      apply Z.div_mul. lia. }
  rewrite Hcount.
  rewrite !to_uint_id by (unfold INT_MAX in *; nia).
  unfold Resampler.possibleResampling.
  destruct (decide (Z.of_nat (2 * m) > 0)) as [Hposn|Hzero].
  - unfold ChannelConversion.sampleChannelConversion.
    destruct (decide (channelCount (_desiredOutputFormat s) = 2
                      /\ channelCount (_outputFormat s) = 1)) as [_|H]; [|tauto].
    rewrite !Nat2Z.id.
    assert (Hiters : ((2 * m + 1) `div` 2 = m)%nat).
    { symmetry. apply (Nat.div_unique _ _ _ 1%nat); lia. }
    rewrite Hiters.
    destruct (stereoToMonoLoop_spec m 0 inputBuffer (resizeSamples X outputBuffer m))
      as (out & Hrun & Hlen & Hw & _);
      [lia | rewrite length_resizeSamples; lia | exact Hrange |].
    change (2 * 0)%nat with 0%nat in Hrun. rewrite Hrun. cbn [mbind option_bind].
    exists out. split; [reflexivity|].
    split; [rewrite Hlen; apply length_resizeSamples|].
    intros j a b Ha Hb. apply (Hw j a b); [|exact Ha|exact Hb].
    apply lookup_lt_Some in Hb. lia.
  - assert (m = 0%nat) as -> by lia. cbn [mbind option_bind].
    eexists. split; [reflexivity|]. split; [apply length_resizeSamples|].
    intros j a b Ha. apply lookup_lt_Some in Ha. lia.
Qed.

End WithContext.

(** X4 on a client started on devices that support the desired formats. *)
Lemma received_samples_pass_through_witness :
  processReceivedSamples Sample.collaborators [3; -4; 5; 6] [9] Sample.idle
  = Some [3; -4; 5; 6].
Proof.
  apply (received_samples_pass_through Sample.collaborators [3; -4; 5; 6] [9] Sample.idle).
  - reflexivity.
  - reflexivity.
  - reflexivity.
  - reflexivity.
  - vm_compute. discriminate.
  - reflexivity.
  - reflexivity.
Defined.

(** X5 on a client whose output device is mono at the network rate. *)
Lemma received_stereo_is_mixed_down_for_a_mono_device_witness :
  exists mixed,
    processReceivedSamples Sample.collaborators [6; 8; -7; 3] [] Sample.onMonoOutput = Some mixed
    /\ length mixed = (length [6; 8; -7; 3]%Z `div` 2)%nat
    /\ (forall j a b,
          [6; 8; -7; 3] !! (2 * j)%nat = Some a -> [6; 8; -7; 3] !! (2 * j + 1)%nat = Some b ->
          mixed !! j = Some (Z.quot a 2 + Z.quot b 2)).
Proof.
  apply (received_stereo_is_mixed_down_for_a_mono_device Sample.collaborators
           [6; 8; -7; 3] [] Sample.onMonoOutput).
  - reflexivity.
  - reflexivity.
  - reflexivity.
  - reflexivity.
  - reflexivity.
  - vm_compute. discriminate.
  - vm_compute. discriminate.
  - exists 2%nat. reflexivity.
  - repeat constructor; unfold is_int16, INT16_MIN, INT16_MAX; lia.
  - reflexivity.
  - reflexivity.
Defined.

End ReceivedAudioProperties.

(** ** The device state: invariants of the reachable states *)

Module DeviceProperties.
Import Client ClientFacts DeviceState MachineIntFacts.

Section WithContext.
Variable K : AudioConstants.
Variable X : Collaborators.

Lemma cleanupInput_besidesInput s : besidesInput (cleanupInput s) = besidesInput s.
Proof. unfold cleanupInput. frame. Qed.

Lemma setupInputResampler_besidesInput s s' :
  setupInputResampler X s = Some s' -> besidesInput s' = besidesInput s.
Proof. unfold setupInputResampler. frame. Qed.

Lemma startInput_besidesInput d s : besidesInput (startInput K d s).2 = besidesInput s.
Proof. unfold startInput. frame. Qed.

Lemma switchInputToAudioDevice_besidesInput d s :
  besidesInput (switchInputToAudioDevice K X d s).2 = besidesInput s.
Proof.
  unfold switchInputToAudioDevice.
  abstract_state (cleanupInput s) (cleanupInput_besidesInput s).
  cbv zeta.
  destruct (negb (isNull d)); [|exact Hc].
  match goal with |- context [FormatNegotiation.adjustedFormatForAudioDevice ?a ?b ?c ?d] =>
    generalize (FormatNegotiation.adjustedFormatForAudioDevice a b c d) end.
  intros [ok adj]. cbn [fst snd].
  destruct ok; [|exact Hc].
  match goal with |- context [setupInputResampler X ?t] =>
    destruct (setupInputResampler X t) as [s1|] eqn:E end.
  - rewrite startInput_besidesInput. apply setupInputResampler_besidesInput in E.
    rewrite E. exact Hc.
  - exact Hc.
Qed.

Lemma cleanupOutput_inputSide s : inputSide (cleanupOutput s) = inputSide s.
Proof. unfold cleanupOutput. frame. Qed.

Lemma setupOutputResampler_inputSide s s' :
  setupOutputResampler X s = Some s' -> inputSide s' = inputSide s.
Proof. unfold setupOutputResampler. frame. Qed.

Lemma switchOutputToAudioDevice_inputSide d s :
  inputSide (switchOutputToAudioDevice K X d s).2 = inputSide s.
Proof.
  unfold switchOutputToAudioDevice.
  abstract_state (cleanupOutput s) (cleanupOutput_inputSide s).
  cbv zeta.
  destruct (negb (isNull d)); [|exact Hc].
  match goal with |- context [FormatNegotiation.adjustedFormatForAudioDevice ?a ?b ?c ?d] =>
    generalize (FormatNegotiation.adjustedFormatForAudioDevice a b c d) end.
  intros [ok adj]. cbn [fst snd].
  destruct ok; [|exact Hc].
  match goal with |- context [setupOutputResampler X ?t] =>
    destruct (setupOutputResampler X t) as [s1|] eqn:E end.
  - cbn [snd]. apply setupOutputResampler_inputSide in E.
    transitivity (inputSide s1); [reflexivity|]. rewrite E. exact Hc.
  - exact Hc.
Qed.

Lemma setOutputBufferSize_inputSide d n s :
  inputSide (setOutputBufferSize K X d n s) = inputSide s.
Proof.
  unfold setOutputBufferSize. cbv zeta.
  destruct (decide _); [|reflexivity].
  match goal with |- context [if ?c is Some _ then _ else _] => destruct c end;
    [rewrite switchOutputToAudioDevice_inputSide|]; reflexivity.
Qed.

Lemma outputNotify_inputSide d r t s :
  inputSide (outputNotify K X d r t s) = inputSide s.
Proof.
  unfold outputNotify. cbv zeta.
  destruct (decide (r > 0)); [|reflexivity].
  destruct (_outputStarveDetectionEnabled s); [|reflexivity].
  destruct (decide _); [reflexivity|].
  destruct (decide _); [|reflexivity].
  change (inputSide (set_outputStarveDetectionCount 0
                       (set_outputStarveDetectionStartTimeMsec ?v ?s)))
    with (inputSide s).
  rewrite setOutputBufferSize_inputSide. reflexivity.
Qed.

(** What the loopback does: the devices and formats stay, a loopback
    device is started only on an existing loopback output, a resampler is
    created and a block is written only when the loopback is wanted. *)
Lemma handleLocalEchoAndReverb_effect input s s' :
  handleLocalEchoAndReverb X input s = Some s' ->
  inputSide s' = inputSide s
  /\ outputSide s' = outputSide s
  /\ loopSide s' = loopSide s
  /\ frameView s' = frameView s
  /\ (loopbackWanted s = false -> s' = s)
  /\ (_loopbackOutputDevice s' = true ->
      _loopbackOutputDevice s = true \/ _loopbackAudioOutput s = true)
  /\ (is_Some (_loopbackResampler s') ->
      is_Some (_loopbackResampler s) \/ loopbackWanted s = true)
  /\ (loopbackWritten s' = loopbackWritten s
      \/ exists block, loopbackWritten s' = block :: loopbackWritten s
                       /\ loopbackWanted s = true /\ _loopbackOutputDevice s' = true).
Proof.
  unfold handleLocalEchoAndReverb.
  destruct (loopbackWanted s) eqn:Hw; cbn [negb].
  2: { intros H; injection H as <-. repeat split; auto. }
  assert (H1 : inputSide (startLoopbackDevice X s) = inputSide s
               /\ outputSide (startLoopbackDevice X s) = outputSide s
               /\ loopSide (startLoopbackDevice X s) = loopSide s
               /\ frameView (startLoopbackDevice X s) = frameView s
               /\ (_loopbackOutputDevice (startLoopbackDevice X s) = true ->
                   _loopbackOutputDevice s = true \/ _loopbackAudioOutput s = true)
               /\ _loopbackResampler (startLoopbackDevice X s) = _loopbackResampler s
               /\ loopbackWritten (startLoopbackDevice X s) = loopbackWritten s).
  { unfold startLoopbackDevice.
    destruct (_loopbackOutputDevice s) eqn:Hd; destruct (_loopbackAudioOutput s) eqn:Ha;
      cbn [negb andb]; repeat split; try reflexivity; auto; congruence. }
  revert H1. generalize (startLoopbackDevice X s). intros c (Hi & Ho & Hl & Hf & Hd & Hr & Hwr).
  destruct (setupLoopbackResampler X c) as [s1|] eqn:E.
  - assert (H2 : inputSide s1 = inputSide c /\ outputSide s1 = outputSide c
                 /\ loopSide s1 = loopSide c /\ frameView s1 = frameView c
                 /\ _loopbackOutputDevice s1 = _loopbackOutputDevice c
                 /\ loopbackWritten s1 = loopbackWritten c).
    { revert E. unfold setupLoopbackResampler.
      destruct (_ && _); [destruct (Resampler.soxrResamplerFromInputFormatToOutputFormat _ _ _)|];
        intros E; inversion E; repeat split. }
    destruct H2 as (Hi2 & Ho2 & Hl2 & Hf2 & Hd2 & Hwr2).
    unfold renderLoopback. cbv zeta. intros H.
    destruct (Resampler.possibleResampling _ _ _ _ _ _ _ _) as [block|]; [|discriminate].
    cbn [mbind option_bind] in H.
    destruct (_loopbackOutputDevice s1) eqn:Hdev; injection H as <-.
    + split; [transitivity (inputSide s1); [reflexivity|congruence]|].
      split; [transitivity (outputSide s1); [reflexivity|congruence]|].
      split; [transitivity (loopSide s1); [reflexivity|congruence]|].
      split; [transitivity (frameView s1); [reflexivity|congruence]|].
      split; [discriminate|].
      split; [intros _; apply Hd; congruence|].
      split; [intros _; right; reflexivity|].
      right. eexists. split; [|split; [reflexivity|exact Hdev]].
      cbn. rewrite Hwr2, Hwr. reflexivity.
    + split; [transitivity (inputSide s1); [reflexivity|congruence]|].
      split; [transitivity (outputSide s1); [reflexivity|congruence]|].
      split; [transitivity (loopSide s1); [reflexivity|congruence]|].
      split; [transitivity (frameView s1); [reflexivity|congruence]|].
      split; [discriminate|].
      split; [intros Hx; cbn in Hx; congruence|].
      split; [intros _; right; reflexivity|].
      left. cbn. congruence.
  - intros H; injection H as <-.
    split; [exact Hi|]. split; [exact Ho|]. split; [exact Hl|]. split; [exact Hf|].
    split; [discriminate|]. split; [exact Hd|].
    split; [intros _; right; reflexivity|]. left. exact Hwr.
Qed.

Lemma sendFrame_devices env b n s :
  devices (sendFrame env b n s) = devices s
  /\ loopbackWritten (sendFrame env b n s) = loopbackWritten s.
Proof. unfold sendFrame. destruct (env_mixerActive env); split; reflexivity. Qed.

Lemma unmutedFrame_devices env s s' :
  unmutedFrame K X env s = Some s' ->
  devices s' = devices s /\ loopbackWritten s' = loopbackWritten s.
Proof.
  unfold unmutedFrame. cbv zeta.
  destruct (resampledNetworkSamples K X s) as [samples|]; [|discriminate].
  cbn [mbind option_bind].
  destruct (decide _); [|discriminate].
  destruct (usesNoiseGate _).
  - destruct (env_gateClipped env); intros H; inversion H; split; reflexivity.
  - destruct (enumerateSamples _ _ _ _). intros H; inversion H; split; reflexivity.
Qed.

Lemma processNetworkFrame_devices env s s' :
  processNetworkFrame K X env s = Some s' ->
  devices s' = devices s /\ loopbackWritten s' = loopbackWritten s.
Proof.
  unfold processNetworkFrame. cbv zeta.
  destruct (negb (_muted s)).
  - destruct (unmutedFrame K X env s) as [s1|] eqn:E; [|discriminate].
    cbn [mbind option_bind]. intros H; inversion H.
    destruct (sendFrame_devices env (numNetworkBytes K s) (numNetworkSamples K s) s1) as [-> ->].
    eapply unmutedFrame_devices; eauto.
  - cbn [mbind option_bind]. intros H; inversion H.
    destruct (sendFrame_devices env (numNetworkBytes K s) (numNetworkSamples K s)
                (mutedFrame K s)) as [-> ->].
    split; reflexivity.
Qed.

Lemma inputLoop_devices fuel i envs s n s' :
  inputLoop K X fuel i envs s = Some (n, s') ->
  devices s' = devices s /\ loopbackWritten s' = loopbackWritten s.
Proof.
  revert i s. induction fuel as [|fuel IH]; intros i s; cbn [inputLoop];
    destruct (decide _); try discriminate; try (intros H; inversion H; split; reflexivity).
  destruct (processNetworkFrame K X (envs i) s) as [s1|] eqn:E; [|discriminate].
  cbn [mbind option_bind]. intros H. apply IH in H. destruct H as [-> ->].
  eapply processNetworkFrame_devices; eauto.
Qed.

Lemma readData_devices data maxSize unplayed s r :
  readData X data maxSize unplayed s = Some r -> devices r.2 = devices s.
Proof.
  unfold readData. cbv zeta.
  destruct (popSamples X _ _ _) as [popped stream].
  match goal with |- context [mbind _ ?m] => destruct m as [[d w]|] end; [|discriminate].
  cbn [mbind option_bind].
  destruct (_ && _); intros H; inversion H; reflexivity.
Qed.

(** *** The invariants *)

Lemma inputConsistent_inputSide s s' :
  inputSide s' = inputSide s -> inputConsistent s -> inputConsistent s'.
Proof.
  unfold inputSide, inputConsistent. intros H. injection H as -> -> -> -> -> ->. tauto.
Qed.

Lemma outputConsistent_sides s s' :
  outputSide s' = outputSide s -> loopbackSide s' = loopbackSide s ->
  outputConsistent s -> outputConsistent s'.
Proof.
  unfold outputSide, loopbackSide, outputConsistent. intros H H'.
  injection H as -> -> -> -> ->. injection H' as -> ->. tauto.
Qed.

(** An input switch establishes the consistency of the input side, and its
    result tells whether an input device runs afterwards. *)
Lemma switchInputToAudioDevice_consistent d s :
  (_inputDevice s = true -> _audioInput s = true) ->
  inputConsistent (switchInputToAudioDevice K X d s).2
  /\ (switchInputToAudioDevice K X d s).1 = _inputDevice (switchInputToAudioDevice K X d s).2.
Proof.
  intros Hpre. unfold switchInputToAudioDevice.
  assert (Hc : _audioInput (cleanupInput s) = false /\ _inputDevice (cleanupInput s) = false
               /\ _inputToNetworkResampler (cleanupInput s) = None
               /\ _isStereoInput (cleanupInput s) = _isStereoInput s).
  { unfold cleanupInput. destruct (_audioInput s) eqn:Ha.
    - cbn. destruct (_inputToNetworkResampler s) eqn:Hr; cbn; rewrite ?Hr; repeat split.
    - destruct (_inputDevice s) eqn:Hd; [specialize (Hpre eq_refl); discriminate|].
      destruct (_inputToNetworkResampler s) eqn:Hr; rewrite ?Hr; repeat split; assumption. }
  revert Hc. generalize (cleanupInput s). intros c (Ha & Hd & Hr & _). cbv zeta.
  assert (Hclosed : forall t, _audioInput t = false -> _inputDevice t = false ->
                              inputConsistent t /\ false = _inputDevice t).
  { intros t Hta Htd. unfold inputConsistent. rewrite Hta, Htd.
    repeat split; discriminate. }
  destruct (negb (isNull d)); [|apply Hclosed; assumption].
  match goal with |- context [FormatNegotiation.adjustedFormatForAudioDevice ?a ?b ?c ?d] =>
    generalize (FormatNegotiation.adjustedFormatForAudioDevice a b c d) end.
  intros [ok adj]. cbn [fst snd].
  destruct ok; [|apply Hclosed; assumption].
  match goal with |- context [setupInputResampler X ?t] =>
    destruct (setupInputResampler X t) as [s1|] eqn:E end;
    [|apply Hclosed; assumption].
  pose proof E as E'. apply setupInputResampler_spec in E; [|exact Hr].
  destruct E as (Hf & Hdes & Hiff).
  assert (Hs1 : _audioInput s1 = false /\ _inputDevice s1 = false).
  { revert E'. unfold setupInputResampler.
    destruct (decide _);
      [destruct (Resampler.soxrResamplerFromInputFormatToOutputFormat _ _ _)|];
      intros E'; inversion E'; split; assumption. }
  destruct Hs1 as [Ha1 Hd1].
  unfold startInput.
  destruct (negb (_isStereoInput s1) || bool_decide (channelCount (_inputFormat s1) = 2))
    eqn:Hguard; [|apply Hclosed; assumption].
  cbn [fst snd]. split; [|reflexivity].
  unfold inputConsistent. cbn.
  split; [reflexivity|]. split.
  - intros _ Hst. rewrite Hst in Hguard. cbn [negb orb] in Hguard.
    apply bool_decide_eq_true_1 in Hguard. exact Hguard.
  - intros _. rewrite <- Hf, <- Hdes in Hiff. exact Hiff.
Qed.

Lemma outputConsistent_tied s : outputConsistent s -> outputTied s.
Proof. intros (H1 & H2 & _). split; assumption. Qed.

Lemma cleanupOutput_closed s :
  outputTied s ->
  _audioOutput (cleanupOutput s) = None /\ _loopbackAudioOutput (cleanupOutput s) = false
  /\ _loopbackOutputDevice (cleanupOutput s) = false
  /\ _networkToOutputResampler (cleanupOutput s) = None
  /\ _loopbackResampler (cleanupOutput s) = None.
Proof.
  intros (Hl & Hd). unfold cleanupOutput.
  destruct (_audioOutput s) as [size|] eqn:Ha.
  - cbn. destruct (_networkToOutputResampler s) eqn:Hn; cbn;
      destruct (_loopbackResampler s) eqn:Hlr; cbn; rewrite ?Hn, ?Hlr; repeat split.
  - assert (Hl' : _loopbackAudioOutput s = false).
    { destruct (_loopbackAudioOutput s); [|reflexivity].
      destruct Hl as [Hl _]. destruct (Hl eq_refl); discriminate. }
    assert (Hd' : _loopbackOutputDevice s = false).
    { destruct (_loopbackOutputDevice s); [|reflexivity].
      destruct (Hd eq_refl); discriminate. }
    destruct (_networkToOutputResampler s) eqn:Hn; cbn;
      destruct (_loopbackResampler s) eqn:Hlr; cbn; rewrite ?Hn, ?Hlr; repeat split; assumption.
Qed.

(** An output switch establishes the consistency of the output side, and
    its result tells whether an output runs afterwards. *)
Lemma switchOutputToAudioDevice_consistent d s :
  outputTied s ->
  outputConsistent (switchOutputToAudioDevice K X d s).2
  /\ (switchOutputToAudioDevice K X d s).1
     = bool_decide (is_Some (_audioOutput (switchOutputToAudioDevice K X d s).2)).
Proof.
  intros Hpre. unfold switchOutputToAudioDevice.
  pose proof (cleanupOutput_closed s Hpre) as Hc.
  revert Hc. generalize (cleanupOutput s). intros c (Ha & Hl & Hd & Hn & Hlr). cbv zeta.
  assert (Hclosed : forall t, _audioOutput t = None -> _loopbackAudioOutput t = false ->
                              _loopbackOutputDevice t = false -> _loopbackResampler t = None ->
                              outputConsistent t
                              /\ false = bool_decide (is_Some (_audioOutput t))).
  { intros t Hta Htl Htd Htr. unfold outputConsistent. rewrite Hta, Htl, Htd, Htr.
    split; [|reflexivity].
    split; [split; [discriminate|intros [? ?]; discriminate]|].
    split; [discriminate|].
    split; intros [? ?]; discriminate. }
  destruct (negb (isNull d)); [|apply Hclosed; assumption].
  match goal with |- context [FormatNegotiation.adjustedFormatForAudioDevice ?a ?b ?c ?d] =>
    generalize (FormatNegotiation.adjustedFormatForAudioDevice a b c d) end.
  intros [ok adj]. cbn [fst snd].
  destruct ok; [|apply Hclosed; assumption].
  match goal with |- context [setupOutputResampler X ?t] =>
    destruct (setupOutputResampler X t) as [s1|] eqn:E end;
    [|apply Hclosed; assumption].
  apply setupOutputResampler_spec in E; [|exact Hn].
  destruct E as (Hf & Hdes & Hloop & Hiff).
  cbn [fst snd]. split; [|reflexivity].
  unfold outputConsistent, startOutput. cbn.
  split; [split; eauto|]. split; [eauto|]. split; [eauto|].
  intros _. rewrite <- Hf, <- Hdes in Hiff. exact Hiff.
Qed.

Lemma setOutputBufferSize_consistent d n s :
  outputConsistent s -> outputConsistent (setOutputBufferSize K X d n s).
Proof.
  intros Hpre. unfold setOutputBufferSize. cbv zeta.
  destruct (decide _); [|exact Hpre].
  match goal with |- context [if ?c is Some _ then _ else _] => destruct c end.
  - apply switchOutputToAudioDevice_consistent, outputConsistent_tied. exact Hpre.
  - exact Hpre.
Qed.

Lemma outputNotify_consistent d r t s :
  outputConsistent s -> outputConsistent (outputNotify K X d r t s).
Proof.
  intros Hpre. unfold outputNotify. cbv zeta.
  destruct (decide (r > 0)); [|exact Hpre].
  destruct (_outputStarveDetectionEnabled s); [|exact Hpre].
  destruct (decide _); [exact Hpre|].
  destruct (decide _); [|exact Hpre].
  match goal with |- context [setOutputBufferSize K X d ?n ?t] =>
    pose proof (setOutputBufferSize_consistent d n t Hpre) as H;
    revert H; generalize (setOutputBufferSize K X d n t) end.
  intros c H. exact H.
Qed.

Lemma handleLocalEchoAndReverb_consistent input s s' :
  handleLocalEchoAndReverb X input s = Some s' ->
  outputConsistent s -> outputConsistent s'.
Proof.
  intros H (Hl & Hd & Hr & Hn).
  apply handleLocalEchoAndReverb_effect in H.
  destruct H as (_ & Ho & _ & _ & _ & Hdev & Hres & _).
  unfold outputSide in Ho. injection Ho as Ha Hla Hof Hdf Hnr.
  unfold outputConsistent. rewrite Ha, Hla, Hof, Hdf, Hnr.
  split; [exact Hl|]. split; [|split; [|exact Hn]].
  - intros Hx. destruct (Hdev Hx) as [Hy|Hy]; [apply Hd, Hy|apply Hl, Hy].
  - intros Hx. destruct (Hres Hx) as [Hy|Hy]; [apply Hr, Hy|].
    unfold loopbackWanted in Hy. apply negb_true_iff in Hy.
    apply orb_false_iff in Hy. destruct Hy as [Hy _].
    apply orb_false_iff in Hy. destruct Hy as [_ Hy].
    apply negb_false_iff in Hy. apply bool_decide_eq_true_1 in Hy. exact Hy.
Qed.

Lemma devices_sides s t :
  devices t = devices s ->
  inputSide t = inputSide s /\ outputSide t = outputSide s /\ loopbackSide t = loopbackSide s.
Proof.
  intros H. split; [exact (f_equal (fun v => v.1.1) H)|].
  split; [exact (f_equal (fun v => v.1.2) H)|exact (f_equal snd H)].
Qed.

Lemma besidesInput_sides s t :
  besidesInput t = besidesInput s ->
  outputSide t = outputSide s /\ loopbackSide t = loopbackSide s.
Proof. intros H. split; [exact (f_equal fst H)|exact (f_equal snd H)]. Qed.

Lemma step_consistent s s' :
  step K X s s' ->
  inputConsistent s /\ outputConsistent s ->
  inputConsistent s' /\ outputConsistent s'.
Proof.
  intros Hstep [Hin Hout].
  pose proof (outputConsistent_tied s Hout) as Htied.
  assert (Hdevices : forall t, devices t = devices s ->
                               inputConsistent t /\ outputConsistent t).
  { intros t H. apply devices_sides in H. destruct H as (Hi & Ho & Hl). split.
    - eapply inputConsistent_inputSide; eauto.
    - eapply outputConsistent_sides; eauto. }
  assert (Hswitch_in : forall d t, (_inputDevice t = true -> _audioInput t = true) ->
            besidesInput t = besidesInput s ->
            inputConsistent (switchInputToAudioDevice K X d t).2
            /\ outputConsistent (switchInputToAudioDevice K X d t).2).
  { intros d t Hpre Hb. split; [apply switchInputToAudioDevice_consistent, Hpre|].
    pose proof (switchInputToAudioDevice_besidesInput d t) as Hv. rewrite Hb in Hv.
    apply besidesInput_sides in Hv. destruct Hv as [Ho Hl].
    eapply outputConsistent_sides; eauto. }
  assert (Hswitch_out : forall d t, outputTied t -> inputConsistent t ->
            inputConsistent (switchOutputToAudioDevice K X d t).2
            /\ outputConsistent (switchOutputToAudioDevice K X d t).2).
  { intros d t Hpre Hi. split; [|apply switchOutputToAudioDevice_consistent, Hpre].
    eapply inputConsistent_inputSide; [apply switchOutputToAudioDevice_inputSide|exact Hi]. }
  destruct Hstep; try (apply Hdevices; reflexivity).
  - (* start *)
    unfold start. cbv zeta.
    match goal with |- context [switchInputToAudioDevice K X inputDevice ?t] =>
      destruct (switchInputToAudioDevice_consistent inputDevice t) as [Hi1 _];
      [exact (proj1 Hin)|];
      pose proof (switchInputToAudioDevice_besidesInput inputDevice t) as Hb1;
      revert Hi1 Hb1; generalize (switchInputToAudioDevice K X inputDevice t).2 end.
    intros c Hi1 Hb1. apply besidesInput_sides in Hb1. destruct Hb1 as [Ho1 Hl1].
    apply Hswitch_out; [|exact Hi1].
    unfold outputSide in Ho1. injection Ho1 as Ha Hla _ _ _.
    unfold loopbackSide in Hl1. injection Hl1 as Hld _.
    unfold outputTied. rewrite Ha, Hla, Hld. exact Htied.
  - (* stop *)
    unfold stop. cbv zeta.
    destruct (Hswitch_in nullDevice s (proj1 Hin) eq_refl) as [Hi1 Ho1].
    revert Hi1 Ho1. generalize (switchInputToAudioDevice K X nullDevice s).2. intros c Hi1 Ho1.
    destruct (Hswitch_out nullDevice c (outputConsistent_tied c Ho1) Hi1) as [Hi2 Ho2].
    revert Hi2 Ho2. generalize (switchOutputToAudioDevice K X nullDevice c).2.
    intros c2 Hi2 Ho2.
    destruct (_loopbackResampler c2) eqn:Hr; [|split; assumption].
    split; [exact Hi2|].
    destruct Ho2 as (H1 & H2 & H3 & H4). unfold outputConsistent. cbn.
    split; [exact H1|]. split; [exact H2|]. split; [|exact H4].
    intros [? ?]; discriminate.
  - (* setIsStereoInput *)
    unfold setIsStereoInput. cbv zeta.
    destruct (negb _); [|split; assumption].
    destruct isStereoInput; cbn; apply Hswitch_in; try reflexivity; exact (proj1 Hin).
  - apply Hswitch_in; [exact (proj1 Hin)|reflexivity].
  - apply Hswitch_out; assumption.
  - split; [|apply setOutputBufferSize_consistent, Hout].
    eapply inputConsistent_inputSide; [apply setOutputBufferSize_inputSide|exact Hin].
  - split; [|apply outputNotify_consistent, Hout].
    eapply inputConsistent_inputSide; [apply outputNotify_inputSide|exact Hin].
  - (* handleAudioInput *)
    revert H. unfold handleAudioInput. cbv zeta.
    destruct (handleLocalEchoAndReverb X _ s) as [s1|] eqn:E; [|discriminate].
    cbn [mbind option_bind]. intros H.
    apply inputLoop_devices in H. destruct H as [H _].
    pose proof (handleLocalEchoAndReverb_consistent _ _ _ E Hout) as Ho1.
    apply handleLocalEchoAndReverb_effect in E. destruct E as (Hi1 & _).
    apply devices_sides in H. destruct H as (Hi & Ho & Hl). split.
    + eapply inputConsistent_inputSide; [|exact Hin]. rewrite Hi. exact Hi1.
    + eapply outputConsistent_sides; [exact Ho|exact Hl|]. exact Ho1.
  - apply Hdevices. eapply processNetworkFrame_devices; eauto.
  - apply Hdevices.
    match goal with H : readData _ _ _ _ _ = Some _ |- _ =>
      apply readData_devices in H; exact H end.
Qed.

Lemma reachable_consistent s :
  reachable K X s -> inputConsistent s /\ outputConsistent s.
Proof.
  induction 1 as [| s s' _ IH Hstep].
  - split.
    + unfold inputConsistent. cbn. repeat split; discriminate.
    + unfold outputConsistent. cbn.
      split; [split; [discriminate|intros [? ?]; discriminate]|].
      split; [discriminate|]. split; intros [? ?]; discriminate.
  - eapply step_consistent; eauto.
Qed.

(** X6.  In every state a client can reach, an input I/O device belongs
    to an existing input object; while the input is open and the client
    wants stereo input, the input format has two channels; and while the
    input is open, the input-to-network resampler exists exactly when the
    rate of the input format is not the rate of the desired input format. *)
Theorem input_side_invariants (s : AudioClient) :
  reachable K X s ->
  (_inputDevice s = true -> _audioInput s = true)
  /\ (_audioInput s = true -> _isStereoInput s = true -> channelCount (_inputFormat s) = 2)
  /\ (_audioInput s = true ->
      (is_Some (_inputToNetworkResampler s)
       <-> sampleRate (_inputFormat s) <> sampleRate (_desiredInputFormat s))).
Proof. intros H. apply reachable_consistent in H. exact (proj1 H). Qed.

(** X7.  In every state a client can reach, the loopback output object
    exists exactly when the output object does; a loopback device and a
    loopback resampler exist only while the output exists; and while the
    output exists, the network-to-output resampler exists exactly when the
    rate of the desired output format is not the rate of the output format. *)
Theorem output_side_invariants (s : AudioClient) :
  reachable K X s ->
  (_loopbackAudioOutput s = true <-> is_Some (_audioOutput s))
  /\ (_loopbackOutputDevice s = true -> is_Some (_audioOutput s))
  /\ (is_Some (_loopbackResampler s) -> is_Some (_audioOutput s))
  /\ (is_Some (_audioOutput s) ->
      (is_Some (_networkToOutputResampler s)
       <-> sampleRate (_desiredOutputFormat s) <> sampleRate (_outputFormat s))).
Proof. intros H. apply reachable_consistent in H. exact (proj2 H). Qed.

(** X8.  For a client in a reachable state, the result of an input switch
    tells whether an input device runs afterwards, and the result of an
    output switch tells whether an output object exists afterwards. *)
Theorem switch_results_report_the_device_state (d : QAudioDeviceInfo) (s : AudioClient) :
  reachable K X s ->
  (switchInputToAudioDevice K X d s).1 = _inputDevice (switchInputToAudioDevice K X d s).2
  /\ (switchOutputToAudioDevice K X d s).1
     = bool_decide (is_Some (_audioOutput (switchOutputToAudioDevice K X d s).2)).
Proof.
  intros H. apply reachable_consistent in H. destruct H as [Hin Hout]. split.
  - apply switchInputToAudioDevice_consistent. exact (proj1 Hin).
  - apply switchOutputToAudioDevice_consistent, outputConsistent_tied. exact Hout.
Qed.

(** *** Stopping *)

Lemma switchInputToAudioDevice_null s :
  switchInputToAudioDevice K X nullDevice s = (false, cleanupInput s).
Proof. reflexivity. Qed.

Lemma switchOutputToAudioDevice_null s :
  switchOutputToAudioDevice K X nullDevice s = (false, cleanupOutput s).
Proof. reflexivity. Qed.

Lemma cleanupInput_closed s :
  _audioInput (cleanupInput s) = false /\ _inputToNetworkResampler (cleanupInput s) = None.
Proof.
  unfold cleanupInput. destruct (_audioInput s) eqn:Ha; cbn;
    destruct (_inputToNetworkResampler s) eqn:Hr; cbn; rewrite ?Ha, ?Hr; split; reflexivity.
Qed.

(** X9.  After [stop] on a client in a reachable state nothing is left
    open: there is no input object or device, no output object, no loopback
    output or device, and none of the three resamplers. *)
Theorem stop_closes_every_device_and_resampler (s : AudioClient) :
  reachable K X s ->
  _audioInput (stop K X s) = false
  /\ _inputDevice (stop K X s) = false
  /\ _audioOutput (stop K X s) = None
  /\ _loopbackAudioOutput (stop K X s) = false
  /\ _loopbackOutputDevice (stop K X s) = false
  /\ _inputToNetworkResampler (stop K X s) = None
  /\ _networkToOutputResampler (stop K X s) = None
  /\ _loopbackResampler (stop K X s) = None.
Proof.
  intros Hreach.
  assert (Hstopped : reachable K X (stop K X s)).
  { eapply reachable_step; [exact Hreach|apply step_stop]. }
  apply reachable_consistent in Hstopped.
  destruct Hstopped as [(Hi1 & _) (Ho1 & Ho2 & _)].
  assert (Hfacts : _audioInput (stop K X s) = false /\ _audioOutput (stop K X s) = None
                   /\ _inputToNetworkResampler (stop K X s) = None
                   /\ _networkToOutputResampler (stop K X s) = None
                   /\ _loopbackResampler (stop K X s) = None).
  { unfold stop. cbv zeta.
    rewrite switchInputToAudioDevice_null. cbn [snd].
    rewrite switchOutputToAudioDevice_null. cbn [snd].
    destruct (cleanupInput_closed s) as [Ha Hr].
    pose proof (cleanupOutput_inputSide (cleanupInput s)) as Hside.
    unfold inputSide in Hside. injection Hside as Ha' _ _ _ _ Hr'.
    rewrite Ha in Ha'. rewrite Hr in Hr'.
    destruct (cleanupOutput_resamplers (cleanupInput s)) as [Hn Hl].
    assert (Hout : _audioOutput (cleanupOutput (cleanupInput s)) = None).
    { unfold cleanupOutput. generalize (cleanupInput s). intros c.
      destruct (_audioOutput c) eqn:Hc; cbn;
        destruct (_networkToOutputResampler c); cbn;
        destruct (_loopbackResampler c); cbn; rewrite ?Hc; reflexivity. }
    revert Ha' Hr' Hn Hl Hout. generalize (cleanupOutput (cleanupInput s)).
    intros c Ha' Hr' Hn Hl Hout. rewrite Hl. repeat split; assumption. }
  destruct Hfacts as (Ha & Hout & Hr & Hn & Hl).
  split; [exact Ha|]. split.
  { destruct (_inputDevice (stop K X s)); [|reflexivity].
    rewrite Hi1 in Ha by reflexivity. discriminate. }
  split; [exact Hout|]. split.
  { destruct (_loopbackAudioOutput (stop K X s)); [|reflexivity].
    destruct Ho1 as [Ho1 _]. rewrite Hout in Ho1. destruct (Ho1 eq_refl); discriminate. }
  split.
  { destruct (_loopbackOutputDevice (stop K X s)); [|reflexivity].
    rewrite Hout in Ho2. destruct (Ho2 eq_refl); discriminate. }
  repeat split; assumption.
Qed.

(** *** Starting on devices that support the network formats *)

Lemma adjustedFormatForAudioDevice_supported d desired adjusted :
  isFormatSupported d desired = true ->
  FormatNegotiation.adjustedFormatForAudioDevice K d desired adjusted = (true, desired).
Proof.
  intros H. unfold FormatNegotiation.adjustedFormatForAudioDevice. rewrite H. reflexivity.
Qed.

Lemma switchInputToAudioDevice_supported d s :
  isNull d = false ->
  isFormatSupported d (_desiredInputFormat s) = true ->
  inputStarts d = true ->
  _isStereoInput s = false ->
  inputSide (switchInputToAudioDevice K X d s).2
  = (true, true, false, _desiredInputFormat s, _desiredInputFormat s, None).
Proof.
  intros Hnull Hsupported Hstarts Hmono. unfold switchInputToAudioDevice.
  assert (Hc : _desiredInputFormat (cleanupInput s) = _desiredInputFormat s
               /\ _isStereoInput (cleanupInput s) = _isStereoInput s
               /\ _inputToNetworkResampler (cleanupInput s) = None).
  { split; [unfold cleanupInput; frame|].
    split; [unfold cleanupInput; frame|]. apply cleanupInput_closed. }
  revert Hc. generalize (cleanupInput s). intros c (Hdes & Hst & Hr). cbv zeta.
  rewrite Hnull. cbn [negb].
  change (_desiredInputFormat (set_inputAudioDeviceName ?n c)) with (_desiredInputFormat c).
  rewrite Hdes, adjustedFormatForAudioDevice_supported by exact Hsupported.
  cbn [fst snd]. unfold setupInputResampler.
  destruct (decide _) as [[Hne _]|_].
  { exfalso. apply Hne. cbn. exact (eq_sym Hdes). }
  unfold startInput.
  change (_isStereoInput (set_inputFormat ?f (set_inputAudioDeviceName ?n c)))
    with (_isStereoInput c).
  rewrite Hst, Hmono. cbn [negb orb]. unfold inputSide. cbn.
  rewrite Hstarts, Hdes, Hr, Hst, Hmono. reflexivity.
Qed.

Lemma switchOutputToAudioDevice_supported d s :
  isNull d = false ->
  isFormatSupported d (_desiredOutputFormat s) = true ->
  exists size,
    outputSide (switchOutputToAudioDevice K X d s).2
    = (Some size, true, _desiredOutputFormat s, _desiredOutputFormat s, None)
    /\ _loopbackResampler (switchOutputToAudioDevice K X d s).2 = None.
Proof.
  intros Hnull Hsupported. unfold switchOutputToAudioDevice.
  assert (Hc : _desiredOutputFormat (cleanupOutput s) = _desiredOutputFormat s
               /\ _networkToOutputResampler (cleanupOutput s) = None
               /\ _loopbackResampler (cleanupOutput s) = None).
  { split; [unfold cleanupOutput; frame|]. apply cleanupOutput_resamplers. }
  revert Hc. generalize (cleanupOutput s). intros c (Hdes & Hn & Hl). cbv zeta.
  rewrite Hnull. cbn [negb].
  change (_desiredOutputFormat (set_outputAudioDeviceName ?n c)) with (_desiredOutputFormat c).
  rewrite Hdes, adjustedFormatForAudioDevice_supported by exact Hsupported.
  cbn [fst snd]. unfold setupOutputResampler.
  destruct (decide _) as [[Hne _]|_].
  { exfalso. apply Hne. cbn. exact Hdes. }
  eexists. unfold startOutput, outputFormatChanged, outputSide. cbn.
  rewrite ?Hdes, ?Hn, ?Hl. split; reflexivity.
Qed.

(** X10.  [start] on an input device that supports the mono network
    format and starts, and on an output device that supports the stereo
    network format, for a client that does not want stereo input: both
    devices are opened in exactly these formats and no resampler is created. *)
Theorem start_on_supporting_devices_needs_no_resampler
    (inputDevice outputDevice : QAudioDeviceInfo) (s : AudioClient) :
  isNull inputDevice = false ->
  isFormatSupported inputDevice (networkFormat K) = true ->
  inputStarts inputDevice = true ->
  _isStereoInput s = false ->
  isNull outputDevice = false ->
  isFormatSupported outputDevice (setChannelCount 2 (networkFormat K)) = true ->
  let s' := start K X inputDevice outputDevice s in
  _audioInput s' = true /\ _inputDevice s' = true
  /\ _inputFormat s' = networkFormat K
  /\ is_Some (_audioOutput s') /\ _loopbackAudioOutput s' = true
  /\ _outputFormat s' = setChannelCount 2 (networkFormat K)
  /\ _inputToNetworkResampler s' = None
  /\ _networkToOutputResampler s' = None
  /\ _loopbackResampler s' = None.
Proof.
  intros Hin Hins Hstarts Hmono Hout Houts. cbv zeta. unfold start. cbv zeta.
  fold (networkFormat K).
  match goal with |- context [switchInputToAudioDevice K X inputDevice ?t] =>
    pose proof (switchInputToAudioDevice_supported inputDevice t Hin Hins Hstarts Hmono) as Hi;
    pose proof (switchInputToAudioDevice_besidesInput inputDevice t) as Hb;
    revert Hi Hb; generalize (switchInputToAudioDevice K X inputDevice t).2 end.
  intros c Hi Hb. cbn in Hi.
  apply besidesInput_sides in Hb. destruct Hb as [Hb _].
  assert (Hdes : _desiredOutputFormat c = setChannelCount 2 (networkFormat K)).
  { unfold outputSide in Hb. injection Hb as _ _ _ Hd _. exact Hd. }
  destruct (switchOutputToAudioDevice_supported outputDevice c Hout) as (size & Ho & Hl).
  { rewrite Hdes. exact Houts. }
  pose proof (switchOutputToAudioDevice_inputSide outputDevice c) as Hi'.
  rewrite Hi in Hi'. revert Ho Hl Hi'.
  generalize (switchOutputToAudioDevice K X outputDevice c).2. intros c2 Ho Hl Hi'.
  unfold inputSide in Hi'. injection Hi' as -> -> _ -> _ ->.
  unfold outputSide in Ho. injection Ho as -> -> -> _ ->.
  rewrite Hl, Hdes. repeat split; eauto.
Qed.

(** *** Devices by name *)

Lemma getNamedAudioDeviceForMode_unknown (availableDevices : list QAudioDeviceInfo) name :
  Forall (fun audioDevice => deviceName audioDevice <> name) availableDevices ->
  DeviceLookup.getNamedAudioDeviceForMode availableDevices name = nullDevice.
Proof.
  induction 1 as [|d l Hd _ IH]; [reflexivity|].
  cbn [DeviceLookup.getNamedAudioDeviceForMode].
  destruct (decide _); [contradiction|exact IH].
Qed.

(** X11.  [getNamedAudioDeviceForMode] returns the first available device
    with the name, and the null device when no available device has it. *)
Theorem named_device_is_the_first_match_or_null
    (availableDevices : list QAudioDeviceInfo) (name : nat) :
  (Forall (fun audioDevice => deviceName audioDevice <> name) availableDevices ->
   DeviceLookup.getNamedAudioDeviceForMode availableDevices name = nullDevice)
  /\ (forall before audioDevice after,
        availableDevices = before ++ audioDevice :: after ->
        Forall (fun other => deviceName other <> name) before ->
        deviceName audioDevice = name ->
        DeviceLookup.getNamedAudioDeviceForMode availableDevices name = audioDevice).
Proof.
  split.
  - apply getNamedAudioDeviceForMode_unknown.
  - intros before audioDevice after -> Hbefore Hname.
    induction Hbefore as [|d l Hd _ IH]; cbn [app DeviceLookup.getNamedAudioDeviceForMode].
    + destruct (decide _); [reflexivity|contradiction].
    + destruct (decide _); [contradiction|exact IH].
Qed.

(** X12.  Switching the input or the output to a name that no available
    device has fails and closes the device: the switch returns [false],
    the input (or output) object is gone and so is its resampler. *)
Theorem switch_to_unknown_name_closes_the_device
    (availableDevices : list QAudioDeviceInfo) (name : nat) (s : AudioClient) :
  Forall (fun audioDevice => deviceName audioDevice <> name) availableDevices ->
  (let r := DeviceLookup.switchInputToAudioDeviceNamed K X availableDevices name s in
   r.1 = false /\ _audioInput r.2 = false /\ _inputToNetworkResampler r.2 = None)
  /\ (let r := DeviceLookup.switchOutputToAudioDeviceNamed K X availableDevices name s in
      r.1 = false /\ _audioOutput r.2 = None /\ _networkToOutputResampler r.2 = None
      /\ _loopbackResampler r.2 = None).
Proof.
  intros Hnone. cbv zeta.
  unfold DeviceLookup.switchInputToAudioDeviceNamed,
    DeviceLookup.switchOutputToAudioDeviceNamed.
  rewrite getNamedAudioDeviceForMode_unknown by exact Hnone.
  rewrite switchInputToAudioDevice_null, switchOutputToAudioDevice_null. cbn [fst snd].
  destruct (cleanupInput_closed s) as [Ha Hr].
  destruct (cleanupOutput_resamplers s) as [Hn Hl].
  repeat split; try assumption.
  unfold cleanupOutput.
  destruct (_audioOutput s) eqn:Hc; cbn;
    destruct (_networkToOutputResampler s); cbn;
    destruct (_loopbackResampler s); cbn; rewrite ?Hc; reflexivity.
Qed.

(** *** The output buffer size *)

(** X13.  A call of [setOutputBufferSize] that changes the configured size
    while an output exists moves the output to the default output device:
    the output device name afterwards is the name of that device, whichever
    device was in use before.  A call that does not change the size leaves
    the client as it is. *)
Theorem buffer_size_change_moves_output_to_the_default_device
    (defaultOutputDevice : QAudioDeviceInfo) (numFrames : Z) (s : AudioClient) :
  isNull defaultOutputDevice = false ->
  is_Some (_audioOutput s) ->
  (clampFrames K numFrames <> _outputBufferSizeFrames s ->
   _outputAudioDeviceName (setOutputBufferSize K X defaultOutputDevice numFrames s)
   = deviceName defaultOutputDevice
   /\ _outputBufferSizeFrames (setOutputBufferSize K X defaultOutputDevice numFrames s)
      = clampFrames K numFrames)
  /\ (clampFrames K numFrames = _outputBufferSizeFrames s ->
      setOutputBufferSize K X defaultOutputDevice numFrames s = s).
Proof.
  intros Hnull [size Hsize]. unfold setOutputBufferSize. cbv zeta. fold (clampFrames K numFrames).
  split.
  - intros Hne. destruct (decide _) as [_|Heq]; [|contradiction].
    change (_audioOutput (set_outputBufferSizeFrames ?v s)) with (_audioOutput s).
    rewrite Hsize. split.
    + unfold switchOutputToAudioDevice. cbv zeta. rewrite Hnull. cbn [negb].
      match goal with |- context [FormatNegotiation.adjustedFormatForAudioDevice ?a ?b ?c ?d] =>
        generalize (FormatNegotiation.adjustedFormatForAudioDevice a b c d) end.
      intros [ok adj]. cbn [fst snd].
      destruct ok; [|reflexivity].
      match goal with |- context [setupOutputResampler X ?t] =>
        destruct (setupOutputResampler X t) as [s1|] eqn:E end; [|reflexivity].
      cbn [snd]. revert E. unfold setupOutputResampler.
      destruct (decide _);
        [destruct (Resampler.soxrResamplerFromInputFormatToOutputFormat _ _ _)|];
        intros E; inversion E; reflexivity.
    + match goal with |- context [switchOutputToAudioDevice K X ?d ?t] =>
        pose proof (switchOutputToAudioDevice_starveView K X d t) as Hv end.
      unfold starveView in Hv. injection Hv as -> _ _ _ _ _. reflexivity.
  - intros Heq. destruct (decide _) as [Hne|_]; [contradiction|reflexivity].
Qed.

End WithContext.
End DeviceProperties.

(** ** The device state: examples *)

Module DeviceExample.
Import Client ClientFacts DeviceState DeviceProperties.

(** X6 on the client on 44.1 kHz devices. *)
Lemma input_side_invariants_witness :
  (_inputDevice Sample.onFortyFour = true -> _audioInput Sample.onFortyFour = true)
  /\ (_audioInput Sample.onFortyFour = true -> _isStereoInput Sample.onFortyFour = true ->
      channelCount (_inputFormat Sample.onFortyFour) = 2)
  /\ (_audioInput Sample.onFortyFour = true ->
      (is_Some (_inputToNetworkResampler Sample.onFortyFour)
       <-> sampleRate (_inputFormat Sample.onFortyFour)
           <> sampleRate (_desiredInputFormat Sample.onFortyFour))).
Proof.
  apply (input_side_invariants Sample.constants Sample.collaborators Sample.onFortyFour).
  eapply reachable_step; [apply reachable_new|apply step_start].
Defined.

(** X7 on the client with local echo. *)
Lemma output_side_invariants_witness :
  (_loopbackAudioOutput Sample.echoing = true <-> is_Some (_audioOutput Sample.echoing))
  /\ (_loopbackOutputDevice Sample.echoing = true -> is_Some (_audioOutput Sample.echoing))
  /\ (is_Some (_loopbackResampler Sample.echoing) -> is_Some (_audioOutput Sample.echoing))
  /\ (is_Some (_audioOutput Sample.echoing) ->
      (is_Some (_networkToOutputResampler Sample.echoing)
       <-> sampleRate (_desiredOutputFormat Sample.echoing)
           <> sampleRate (_outputFormat Sample.echoing))).
Proof.
  apply (output_side_invariants Sample.constants Sample.collaborators Sample.echoing).
  eapply reachable_step; [|apply step_setLocalEcho].
  eapply reachable_step; [apply reachable_new|apply step_start].
Defined.

(** X8 for a switch of the client on 44.1 kHz devices to a device that
    supports no format. *)
Lemma switch_results_report_the_device_state_witness :
  (switchInputToAudioDevice Sample.constants Sample.collaborators (Sample.bareDevice 4)
     Sample.onFortyFour).1
  = _inputDevice (switchInputToAudioDevice Sample.constants Sample.collaborators
                    (Sample.bareDevice 4) Sample.onFortyFour).2
  /\ (switchOutputToAudioDevice Sample.constants Sample.collaborators (Sample.bareDevice 4)
        Sample.onFortyFour).1
     = bool_decide (is_Some (_audioOutput
                               (switchOutputToAudioDevice Sample.constants Sample.collaborators
                                  (Sample.bareDevice 4) Sample.onFortyFour).2)).
Proof.
  apply (switch_results_report_the_device_state Sample.constants Sample.collaborators
           (Sample.bareDevice 4) Sample.onFortyFour).
  eapply reachable_step; [apply reachable_new|apply step_start].
Defined.

(** X9 on the client with local echo. *)
Lemma stop_closes_every_device_and_resampler_witness :
  let stopped := stop Sample.constants Sample.collaborators Sample.echoing in
  _audioInput stopped = false
  /\ _inputDevice stopped = false
  /\ _audioOutput stopped = None
  /\ _loopbackAudioOutput stopped = false
  /\ _loopbackOutputDevice stopped = false
  /\ _inputToNetworkResampler stopped = None
  /\ _networkToOutputResampler stopped = None
  /\ _loopbackResampler stopped = None.
Proof.
  apply (stop_closes_every_device_and_resampler Sample.constants Sample.collaborators
           Sample.echoing).
  eapply reachable_step; [|apply step_setLocalEcho].
  eapply reachable_step; [apply reachable_new|apply step_start].
Defined.

(** X10 on 24 kHz devices. *)
Lemma start_on_supporting_devices_needs_no_resampler_witness :
  let s' := start Sample.constants Sample.collaborators
              (Sample.deviceAt 1 24000) (Sample.deviceAt 2 24000) (Sample.fresh 3) in
  _audioInput s' = true /\ _inputDevice s' = true
  /\ _inputFormat s' = networkFormat Sample.constants
  /\ is_Some (_audioOutput s') /\ _loopbackAudioOutput s' = true
  /\ _outputFormat s' = setChannelCount 2 (networkFormat Sample.constants)
  /\ _inputToNetworkResampler s' = None
  /\ _networkToOutputResampler s' = None
  /\ _loopbackResampler s' = None.
Proof.
  apply (start_on_supporting_devices_needs_no_resampler Sample.constants Sample.collaborators
           (Sample.deviceAt 1 24000) (Sample.deviceAt 2 24000) (Sample.fresh 3)).
  - reflexivity.
  - reflexivity.
  - reflexivity.
  - reflexivity.
  - reflexivity.
  - reflexivity.
Defined.

(** X12 for a name that none of the listed devices has. *)
Lemma switch_to_unknown_name_closes_the_device_witness :
  (let r := DeviceLookup.switchInputToAudioDeviceNamed Sample.constants Sample.collaborators
              Sample.availableDevices 7 Sample.onFortyFour in
   r.1 = false /\ _audioInput r.2 = false /\ _inputToNetworkResampler r.2 = None)
  /\ (let r := DeviceLookup.switchOutputToAudioDeviceNamed Sample.constants
                 Sample.collaborators Sample.availableDevices 7 Sample.onFortyFour in
      r.1 = false /\ _audioOutput r.2 = None /\ _networkToOutputResampler r.2 = None
      /\ _loopbackResampler r.2 = None).
Proof.
  apply (switch_to_unknown_name_closes_the_device Sample.constants Sample.collaborators
           Sample.availableDevices 7 Sample.onFortyFour).
  repeat constructor; discriminate.
Defined.

(** X13 for a client whose output runs on the device named 2, with 3
    buffer frames configured: a request for 4 frames moves the output to the
    default device, named 5; a request for 3 frames changes nothing. *)
Lemma buffer_size_change_moves_output_to_the_default_device_witness :
  (clampFrames Sample.constants 4 <> _outputBufferSizeFrames Sample.idle ->
   _outputAudioDeviceName
     (setOutputBufferSize Sample.constants Sample.collaborators (Sample.deviceAt 5 24000) 4
        Sample.idle)
   = deviceName (Sample.deviceAt 5 24000)
   /\ _outputBufferSizeFrames
        (setOutputBufferSize Sample.constants Sample.collaborators (Sample.deviceAt 5 24000) 4
           Sample.idle)
      = clampFrames Sample.constants 4)
  /\ (clampFrames Sample.constants 4 = _outputBufferSizeFrames Sample.idle ->
      setOutputBufferSize Sample.constants Sample.collaborators (Sample.deviceAt 5 24000) 4
        Sample.idle = Sample.idle).
Proof.
  apply (buffer_size_change_moves_output_to_the_default_device Sample.constants
           Sample.collaborators (Sample.deviceAt 5 24000) 4 Sample.idle).
  - reflexivity.
  - vm_compute. eexists. reflexivity.
Defined.

End DeviceExample.

(** ** Starve detection and the output read: further properties *)

Module OutputProperties.
Import Client ClientFacts MachineIntFacts.

Section WithContext.
Variable K : AudioConstants.
Variable X : Collaborators.

(** X14.  The elapsed time of the starve detection is an unsigned
    difference: a notification with a positive reading whose clock reading
    is earlier than the start of the window sees a huge elapsed time and
    restarts the window, whatever the counter and the threshold are. *)
Theorem earlier_clock_reading_restarts_the_starve_window
    (d : QAudioDeviceInfo) (recentUnfulfilled usecTimestampNow : Z) (s : AudioClient) :
  recentUnfulfilled > 0 ->
  _outputStarveDetectionEnabled s = true ->
  0 <= usecTimestampNow / 1000 < _outputStarveDetectionStartTimeMsec s ->
  _outputStarveDetectionStartTimeMsec s < 2 ^ 63 ->
  0 <= _outputStarveDetectionPeriodMsec s <= INT_MAX ->
  let s' := outputNotify K X d recentUnfulfilled usecTimestampNow s in
  _outputStarveDetectionStartTimeMsec s' = usecTimestampNow / 1000
  /\ _outputStarveDetectionCount s' = 0
  /\ _outputBufferSizeFrames s' = _outputBufferSizeFrames s.
Proof.
  intros Hr He Hnow Hstart Hperiod. cbv zeta.
  pose proof (outputNotify_starveView K X d recentUnfulfilled usecTimestampNow s) as Hv.
  rewrite He, (bool_decide_eq_true_2 _ Hr) in Hv. cbn [andb] in Hv.
  assert (Hexp : windowExpired usecTimestampNow s = true).
  { unfold windowExpired. apply bool_decide_eq_true_2.
    unfold to_quint64, wrap_unsigned, INT_MAX in *.
    change (2 ^ 63) with 9223372036854775808 in Hstart.
    change (2 ^ 64) with 18446744073709551616.
    rewrite (Z.mod_small (_outputStarveDetectionPeriodMsec s)) by lia.
    rewrite <- (Z_mod_plus_full _ 1). rewrite Z.mod_small; lia. }
  rewrite Hexp in Hv. unfold starveView in Hv. injection Hv as -> _ _ _ -> ->.
  repeat split.
Qed.

End WithContext.

(** X14 on a window started at 5000 ms and a clock reading of 4000 ms. *)
Lemma earlier_clock_reading_restarts_the_starve_window_witness :
  let s := set_outputStarveDetectionCount 2
             (set_outputStarveDetectionStartTimeMsec 5000 (Sample.fresh 3)) in
  let s' := outputNotify Sample.constants Sample.collaborators (Sample.deviceAt 2 24000)
              5 4000000 s in
  _outputStarveDetectionStartTimeMsec s' = 4000000 / 1000
  /\ _outputStarveDetectionCount s' = 0
  /\ _outputBufferSizeFrames s' = _outputBufferSizeFrames s.
Proof.
  apply (earlier_clock_reading_restarts_the_starve_window Sample.constants Sample.collaborators).
  - reflexivity.
  - reflexivity.
  - vm_compute. split; [discriminate|reflexivity].
  - reflexivity.
  - vm_compute. split; discriminate.
Defined.

End OutputProperties.

(** ** The input-processing loop: further properties *)

Module InputLoopProperties.
Import Client ClientFacts DeviceState MachineIntFacts DeviceProperties ReceivedAudioProperties.

Section WithContext.
Variable K : AudioConstants.
Variable X : Collaborators.

(** The packet [sendFrame] builds in state [s]. *)
Lemma sendFrame_sent env b n s :
  _inputRingBuffer (sendFrame env b n s) = _inputRingBuffer s
  /\ sentSequenceNumbers (sendFrame env b n s)
     = sentSequenceNumbers s
       ++ (if env_mixerActive env then [_outgoingAvatarAudioSequenceNumber s] else []).
Proof.
  unfold sendFrame, sentSequenceNumbers. destruct (env_mixerActive env).
  - split; [reflexivity|]. cbn [sentDatagrams set_outgoingAvatarAudioSequenceNumber
                                 set_sentDatagrams map rev].
    destruct (decide _); reflexivity.
  - split; [reflexivity|]. rewrite app_nil_r. reflexivity.
Qed.

Lemma unmutedFrame_ring env s s' :
  unmutedFrame K X env s = Some s' ->
  _inputRingBuffer s' = drop (Z.to_nat (inputSamplesRequired K s)) (_inputRingBuffer s)
  /\ sentDatagrams s' = sentDatagrams s.
Proof.
  unfold unmutedFrame. cbv zeta.
  destruct (resampledNetworkSamples K X s) as [samples|]; [|discriminate].
  cbn [mbind option_bind].
  destruct (decide _); [|discriminate].
  destruct (usesNoiseGate _).
  - destruct (env_gateClipped env); intros H; inversion H; split; reflexivity.
  - destruct (enumerateSamples _ _ _ _). intros H; inversion H; split; reflexivity.
Qed.

(** One iteration takes one quantum from the front of the ring buffer and
    hands at most one packet, with the current sequence number, to
    [writeDatagram]. *)
Lemma processNetworkFrame_ring env s s' :
  processNetworkFrame K X env s = Some s' ->
  _inputRingBuffer s' = drop (Z.to_nat (inputSamplesRequired K s)) (_inputRingBuffer s)
  /\ sentSequenceNumbers s'
     = sentSequenceNumbers s
       ++ (if env_mixerActive env then [_outgoingAvatarAudioSequenceNumber s] else []).
Proof.
  intros H. pose proof (processNetworkFrame_inv K X env s s' H) as (_ & _ & _).
  revert H. unfold processNetworkFrame. cbv zeta.
  destruct (_muted s) eqn:Hm; cbn [negb].
  - cbn [mbind option_bind]. intros H; injection H as <-.
    destruct (sendFrame_sent env (numNetworkBytes K s) (numNetworkSamples K s) (mutedFrame K s))
      as [-> ->].
    split; reflexivity.
  - destruct (unmutedFrame K X env s) as [s1|] eqn:E; [|discriminate].
    cbn [mbind option_bind]. intros H; injection H as <-.
    destruct (sendFrame_sent env (numNetworkBytes K s) (numNetworkSamples K s) s1) as [-> ->].
    pose proof (unmutedFrame_inv K X env s s1 E) as (_ & Hseq & _).
    apply unmutedFrame_ring in E. destruct E as [-> Hsent].
    unfold sentSequenceNumbers. rewrite Hsent, Hseq. split; reflexivity.
Qed.

Lemma activeIterations_nonneg envs first count : 0 <= activeIterations envs first count.
Proof.
  revert first. induction count as [|count IH]; intros first; cbn [activeIterations]; [lia|].
  specialize (IH (S first)). destruct (env_mixerActive (envs first)); lia.
Qed.



(** *** Sequence numbers of the packets *)

Lemma inputLoop_sent fuel i envs s n s' :
  0 <= _outgoingAvatarAudioSequenceNumber s < 2 ^ 16 ->
  inputLoop K X fuel i envs s = Some (n, s') ->
  sentSequenceNumbers s'
  = sentSequenceNumbers s
    ++ map (fun j => (_outgoingAvatarAudioSequenceNumber s + Z.of_nat j) mod 2 ^ 16)
         (seq 0 (Z.to_nat (activeIterations envs i (n - i)))).
Proof.
  revert i s. induction fuel as [|fuel IH]; intros i s Hrange; cbn [inputLoop];
    destruct (decide _); try discriminate;
    try (intros H; injection H as <- <-; rewrite Nat.sub_diag; cbn; rewrite app_nil_r;
         reflexivity).
  destruct (processNetworkFrame K X (envs i) s) as [s1|] eqn:E; [|discriminate].
  cbn [mbind option_bind]. intros H.
  pose proof (processNetworkFrame_inv K X _ _ _ E) as (_ & Hseq & _).
  apply processNetworkFrame_ring in E. destruct E as [_ Hsent].
  pose proof (inputLoop_sequenceNumber K X _ _ _ _ _ _
                ltac:(rewrite Hseq; destruct (env_mixerActive (envs i));
                      [apply to_quint16_range|exact Hrange]) H) as [Hle _].
  apply IH in H.
  2: { rewrite Hseq. destruct (env_mixerActive (envs i)); [apply to_quint16_range|exact Hrange]. }
  rewrite H, Hsent, Hseq. rewrite <- app_assoc. f_equal.
  replace (n - i)%nat with (S (n - S i)) by lia. cbn [activeIterations].
  pose proof (activeIterations_nonneg envs (S i) (n - S i)) as Hnn.
  destruct (env_mixerActive (envs i)).
  - replace (Z.to_nat (1 + activeIterations envs (S i) (n - S i)))
      with (S (Z.to_nat (activeIterations envs (S i) (n - S i)))) by lia.
    cbn [seq map app]. rewrite Z.add_0_r, (Z.mod_small _ _ Hrange). f_equal.
    rewrite <- seq_shift, map_map. apply map_ext. intros j.
    unfold to_quint16, wrap_unsigned. rewrite Z.add_mod_idemp_l by lia. f_equal. lia.
  - rewrite Z.add_0_l. reflexivity.
Qed.

(** X16.  The packets that one call of [handleAudioInput] hands to
    [writeDatagram] carry consecutive sequence numbers modulo [2^16],
    starting at the number the client held before the call: one packet per
    iteration in which a mixer with an active socket was known, none
    skipped and none repeated. *)
Theorem sent_packets_carry_consecutive_sequence_numbers
    (readAll : list Z) (envs : nat -> FrameEnv) (s s' : AudioClient) (n : nat) :
  0 <= _outgoingAvatarAudioSequenceNumber s < 2 ^ 16 ->
  handleAudioInput K X readAll envs s = Some (n, s') ->
  sentSequenceNumbers s'
  = sentSequenceNumbers s
    ++ map (fun j => (_outgoingAvatarAudioSequenceNumber s + Z.of_nat j) mod 2 ^ 16)
         (seq 0 (Z.to_nat (activeIterations envs 0 n))).
Proof.
  intros Hrange. unfold handleAudioInput. cbv zeta.
  destruct (handleLocalEchoAndReverb X _ s) as [s1|] eqn:E; [|discriminate].
  cbn [mbind option_bind]. intros H.
  apply handleLocalEchoAndReverb_effect in E.
  destruct E as (_ & _ & Hloop & _).
  assert (Hsent : sentDatagrams s1 = sentDatagrams s)
    by exact (f_equal (fun v => v.1.2) Hloop).
  assert (Hseq : _outgoingAvatarAudioSequenceNumber s1 = _outgoingAvatarAudioSequenceNumber s)
    by exact (f_equal snd Hloop).
  apply inputLoop_sent in H.
  - rewrite Nat.sub_0_r in H. rewrite H. unfold sentSequenceNumbers. cbn.
    rewrite Hsent, Hseq. reflexivity.
  - cbn. rewrite Hseq. exact Hrange.
Qed.

(** *** A quantum that is not positive *)

(** X17.  The loop runs while the ring buffer holds at least
    [inputSamplesRequired] samples.  When that number is not positive the
    condition cannot become false: no number of iterations ends the loop,
    and for a muted client every iteration is defined and leaves the
    condition in place. *)
Theorem input_loop_with_an_empty_quantum_never_ends (s : AudioClient) :
  inputSamplesRequired K s <= 0 ->
  (forall fuel i envs, inputLoop K X fuel i envs s = None)
  /\ (_muted s = true ->
      forall env, exists s1,
        processNetworkFrame K X env s = Some s1
        /\ _muted s1 = true /\ inputSamplesRequired K s1 <= 0).
Proof.
  intros Hzero. split.
  - intros fuel. revert s Hzero. induction fuel as [|fuel IH]; intros s Hzero i envs;
      cbn [inputLoop]; (destruct (decide _) as [_|Hlt]; [|lia]); [reflexivity|].
    destruct (processNetworkFrame K X (envs i) s) as [s1|] eqn:E; [|reflexivity].
    cbn [mbind option_bind]. apply IH.
    apply processNetworkFrame_inv in E. destruct E as (Hv & _ & _).
    rewrite (frameView_inputSamplesRequired K _ _ Hv). exact Hzero.
  - intros Hm env.
    destruct (muted_frame_completes K X env s Hm) as [s1 E].
    exists s1. split; [exact E|].
    apply processNetworkFrame_inv in E. destruct E as (Hv & _ & _).
    rewrite (frameView_inputSamplesRequired K _ _ Hv).
    unfold frameView in Hv. injection Hv as -> _ _. split; assumption.
Qed.

(** *** A muted client *)

Lemma sendFrame_silent env b n s :
  _lastInputLoudness s = Float32.zero ->
  exists sent,
    sentDatagrams (sendFrame env b n s) = sent ++ sentDatagrams s
    /\ Forall (fun p => pkt_type p.1 = PacketTypeSilentAudioFrame /\ pkt_samples p.1 = []
                        /\ pkt_numSilentSamples p.1 = Some (to_quint16 n)) sent
    /\ loopbackWritten (sendFrame env b n s) = loopbackWritten s.
Proof.
  intros Hl. unfold sendFrame. destruct (env_mixerActive env).
  - rewrite Hl. change (Float32.eqb Float32.zero Float32.zero) with true. cbn.
    eexists [_]. split; [reflexivity|]. split; [|reflexivity].
    constructor; [|constructor]. repeat split.
  - exists []. split; [reflexivity|]. split; [constructor|reflexivity].
Qed.

Lemma inputLoop_muted fuel i envs s :
  _muted s = true ->
  0 < inputSamplesRequired K s ->
  (length (_inputRingBuffer s) < fuel)%nat ->
  exists n s',
    inputLoop K X fuel i envs s = Some (n, s')
    /\ loopbackWritten s' = loopbackWritten s
    /\ exists sent,
         sentDatagrams s' = sent ++ sentDatagrams s
         /\ Forall (fun p => pkt_type p.1 = PacketTypeSilentAudioFrame /\ pkt_samples p.1 = []
                             /\ pkt_numSilentSamples p.1
                                = Some (to_quint16 (numNetworkSamples K s))) sent.
Proof.
  revert i s. induction fuel as [|fuel IH]; intros i s Hm Hpos Hfuel; [lia|].
  cbn [inputLoop]. destruct (decide _) as [Hge|Hlt].
  2: { exists i, s. split; [reflexivity|]. split; [reflexivity|].
       exists []. split; [reflexivity|constructor]. }
  assert (E : processNetworkFrame K X (envs i) s
              = Some (sendFrame (envs i) (numNetworkBytes K s) (numNetworkSamples K s)
                        (mutedFrame K s))).
  { unfold processNetworkFrame. rewrite Hm. reflexivity. }
  rewrite E. cbn [mbind option_bind].
  pose proof (processNetworkFrame_inv K X _ _ _ E) as (Hv & _ & _).
  pose proof (processNetworkFrame_ring _ _ _ E) as [Hring _].
  destruct (sendFrame_silent (envs i) (numNetworkBytes K s) (numNetworkSamples K s)
              (mutedFrame K s) eq_refl) as (sent1 & Hsent1 & Hall1 & Hlb1).
  revert Hv Hring Hsent1 Hlb1.
  generalize (sendFrame (envs i) (numNetworkBytes K s) (numNetworkSamples K s) (mutedFrame K s)).
  intros s1 Hv Hring Hsent1 Hlb1.
  pose proof (frameView_inputSamplesRequired K _ _ Hv) as Hreq.
  assert (Hns : numNetworkSamples K s1 = numNetworkSamples K s).
  { unfold frameView in Hv. injection Hv as _ Hst _. unfold numNetworkSamples. rewrite Hst.
    reflexivity. }
  assert (Hm1 : _muted s1 = true).
  { unfold frameView in Hv. injection Hv as -> _ _. exact Hm. }
  destruct (IH (S i) s1 Hm1) as (n & s' & Hrun & Hlb & sent & Hsent & Hall).
  { rewrite Hreq. exact Hpos. }
  { rewrite Hring, length_drop. lia. }
  exists n, s'. split; [exact Hrun|]. split; [rewrite Hlb; exact Hlb1|].
  exists (sent ++ sent1). split.
  - rewrite Hsent, Hsent1. cbn. rewrite app_assoc. reflexivity.
  - rewrite Hns in Hall. apply Forall_app. split; assumption.
Qed.

(** X18.  For a muted client with a positive quantum [handleAudioInput]
    always returns; nothing is written to the loopback device, and every
    packet it sends is a silent frame that carries no samples and announces
    one network frame of silence. *)
Theorem muted_input_is_sent_as_silent_frames
    (readAll : list Z) (envs : nat -> FrameEnv) (s : AudioClient) :
  _muted s = true ->
  0 < inputSamplesRequired K s ->
  exists n s',
    handleAudioInput K X readAll envs s = Some (n, s')
    /\ loopbackWritten s' = loopbackWritten s
    /\ exists sent,
         sentDatagrams s' = sent ++ sentDatagrams s
         /\ Forall (fun p => pkt_type p.1 = PacketTypeSilentAudioFrame /\ pkt_samples p.1 = []
                             /\ pkt_numSilentSamples p.1
                                = Some (to_quint16 (numNetworkSamples K s))) sent.
Proof.
  intros Hm Hpos. unfold handleAudioInput. cbv zeta.
  assert (E : forall input, handleLocalEchoAndReverb X input s = Some s).
  { intros input. unfold handleLocalEchoAndReverb, loopbackWanted. rewrite Hm. reflexivity. }
  rewrite E. cbn [mbind option_bind]. rewrite Hm. cbn [negb andb].
  apply (inputLoop_muted _ 0 envs (set_inputRingBuffer (_inputRingBuffer s ++ readAll) s)).
  - exact Hm.
  - exact Hpos.
  - lia.
Qed.

(** *** The loopback *)

(** X19.  One call of [handleLocalEchoAndReverb] writes at most one block
    to the loopback device, and only for a client that is not muted, has an
    output, and wants local echo or has reverb without server echo; for a
    muted client the call changes nothing at all. *)
Theorem loopback_is_written_only_when_wanted (input : list Z) (s s' : AudioClient) :
  handleLocalEchoAndReverb X input s = Some s' ->
  (loopbackWritten s' = loopbackWritten s
   \/ exists block, loopbackWritten s' = block :: loopbackWritten s)
  /\ (loopbackWritten s' <> loopbackWritten s ->
      _muted s = false /\ is_Some (_audioOutput s)
      /\ (_shouldEchoLocally s = true
          \/ _shouldEchoToServer s = false
             /\ (_reverb s = true \/ hasReverb (_receivedAudioStream s) = true))
      /\ _loopbackOutputDevice s' = true)
  /\ (_muted s = true -> s' = s).
Proof.
  intros H. apply handleLocalEchoAndReverb_effect in H.
  destruct H as (_ & _ & _ & _ & Hsame & _ & _ & Hwritten).
  assert (Hwanted : loopbackWanted s = true ->
            _muted s = false /\ is_Some (_audioOutput s)
            /\ (_shouldEchoLocally s = true
                \/ _shouldEchoToServer s = false
                   /\ (_reverb s = true \/ hasReverb (_receivedAudioStream s) = true))).
  { unfold loopbackWanted, hasLocalReverb. intros Hw.
    apply negb_true_iff, orb_false_iff in Hw. destruct Hw as [Hw Hecho].
    apply orb_false_iff in Hw. destruct Hw as [Hm Hout].
    apply negb_false_iff, bool_decide_eq_true_1 in Hout.
    split; [exact Hm|]. split; [exact Hout|].
    destruct (_shouldEchoLocally s); [left; reflexivity|right].
    cbn [negb andb] in Hecho. apply negb_false_iff, andb_true_iff in Hecho.
    destruct Hecho as [Hr Hs]. apply negb_true_iff in Hs. split; [exact Hs|].
    apply orb_true_iff in Hr. exact Hr. }
  split; [|split].
  - destruct Hwritten as [Heq|(block & Heq & _)]; [left; exact Heq|right; eauto].
  - intros Hne. destruct Hwritten as [Heq|(block & Heq & Hw & Hdev)]; [contradiction|].
    destruct (Hwanted Hw) as (Hm & Hout & Hecho). repeat split; assumption.
  - intros Hm. apply Hsame. unfold loopbackWanted. rewrite Hm. reflexivity.
Qed.

(** *** The samples of an unmuted frame *)



End WithContext.
End InputLoopProperties.

(** ** The input-processing loop: further examples *)

Module InputLoopPropertiesExample.
Import Client ClientFacts DeviceState InputLoopProperties.


(** X16 from sequence number 65535 with two quanta of input: the packets
    carry 65535 and 0. *)
Lemma sent_packets_carry_consecutive_sequence_numbers_witness :
  exists n s',
    handleAudioInput Sample.constants Sample.collaborators (replicate 600 7)
      (fun _ => Sample.quietEnv true)
      (set_outgoingAvatarAudioSequenceNumber 65535 Sample.idle) = Some (n, s')
    /\ sentSequenceNumbers s' = [65535; 0].
Proof.
  destruct (handleAudioInput Sample.constants Sample.collaborators (replicate 600 7)
              (fun _ => Sample.quietEnv true)
              (set_outgoingAvatarAudioSequenceNumber 65535 Sample.idle)) as [[n s']|] eqn:E;
    [|vm_compute in E; discriminate E].
  exists n, s'. split; [reflexivity|].
  rewrite (sent_packets_carry_consecutive_sequence_numbers Sample.constants
             Sample.collaborators (replicate 600 7) (fun _ => Sample.quietEnv true)
             (set_outgoingAvatarAudioSequenceNumber 65535 Sample.idle) s' n
             ltac:(vm_compute; split; [discriminate|reflexivity]) E).
  assert (Hn : n = 2%nat).
  { vm_compute in E. injection E as <- _. reflexivity. }
  rewrite Hn. reflexivity.
Defined.

(** X17 on a muted client whose input runs at 8 kHz with callbacks of 85
    bytes: its quantum is 0. *)
Lemma input_loop_with_an_empty_quantum_never_ends_witness :
  inputSamplesRequired Sample.constants Sample.mutedOnSlowInput = 0
  /\ (forall fuel i envs,
        inputLoop Sample.constants Sample.collaborators fuel i envs Sample.mutedOnSlowInput
        = None)
  /\ (_muted Sample.mutedOnSlowInput = true ->
      forall env, exists s1,
        processNetworkFrame Sample.constants Sample.collaborators env Sample.mutedOnSlowInput
        = Some s1
        /\ _muted s1 = true /\ inputSamplesRequired Sample.constants s1 <= 0).
Proof.
  split; [vm_compute; reflexivity|].
  apply (input_loop_with_an_empty_quantum_never_ends Sample.constants Sample.collaborators
           Sample.mutedOnSlowInput).
  vm_compute. discriminate.
Defined.

(** X18 on a muted client with seven quanta in the ring buffer. *)
Lemma muted_input_is_sent_as_silent_frames_witness :
  exists n s',
    handleAudioInput Sample.constants Sample.collaborators (replicate 256 7)
      (fun _ => Sample.quietEnv true) (toggleMute Sample.started) = Some (n, s')
    /\ loopbackWritten s' = loopbackWritten (toggleMute Sample.started)
    /\ exists sent,
         sentDatagrams s' = sent ++ sentDatagrams (toggleMute Sample.started)
         /\ Forall (fun p => pkt_type p.1 = PacketTypeSilentAudioFrame /\ pkt_samples p.1 = []
                             /\ pkt_numSilentSamples p.1
                                = Some (MachineInt.to_quint16
                                          (numNetworkSamples Sample.constants
                                             (toggleMute Sample.started)))) sent.
Proof.
  apply (muted_input_is_sent_as_silent_frames Sample.constants Sample.collaborators
           (replicate 256 7) (fun _ => Sample.quietEnv true) (toggleMute Sample.started)).
  - reflexivity.
  - vm_compute. reflexivity.
Defined.

(** X19 on the client with local echo, for a block of four samples. *)
Lemma loopback_is_written_only_when_wanted_witness :
  exists s',
    handleLocalEchoAndReverb Sample.collaborators [5; 6; 7; 8] Sample.echoing = Some s'
    /\ (loopbackWritten s' = loopbackWritten Sample.echoing
        \/ exists block, loopbackWritten s' = block :: loopbackWritten Sample.echoing)
    /\ (loopbackWritten s' <> loopbackWritten Sample.echoing ->
        _muted Sample.echoing = false /\ is_Some (_audioOutput Sample.echoing)
        /\ (_shouldEchoLocally Sample.echoing = true
            \/ _shouldEchoToServer Sample.echoing = false
               /\ (_reverb Sample.echoing = true
                   \/ hasReverb (_receivedAudioStream Sample.echoing) = true))
        /\ _loopbackOutputDevice s' = true)
    /\ (_muted Sample.echoing = true -> s' = Sample.echoing).
Proof.
  destruct (handleLocalEchoAndReverb Sample.collaborators [5; 6; 7; 8] Sample.echoing)
    as [s'|] eqn:E; [|vm_compute in E; discriminate E].
  exists s'. split; [reflexivity|].
  exact (loopback_is_written_only_when_wanted Sample.collaborators [5; 6; 7; 8]
           Sample.echoing s' E).
Defined.


End InputLoopPropertiesExample.

(** ** Reverb: the stored samples *)

Module ReverbProperties.
Import Reverb MachineIntFacts.

Section WithGverb.
Variable K : AudioConstants.
Variable ty_gverb : Type.
Variable gverb_do : ty_gverb -> Float32.float -> ty_gverb * (Float32.float * Float32.float).

Hypothesis sample_values_ordered : MIN_SAMPLE_VALUE K <= MAX_SAMPLE_VALUE K.
Hypothesis min_sample_value_fits : is_int16 (MIN_SAMPLE_VALUE K).
Hypothesis max_sample_value_fits : is_int16 (MAX_SAMPLE_VALUE K).

(** A stored value is inside the sample range, whatever the floats are. *)
Lemma mixedSample_range sample dry wet value :
  MIN_SAMPLE_VALUE K <= mixedSample K sample dry wet value <= MAX_SAMPLE_VALUE K.
Proof.
  unfold mixedSample, clamp.
  rewrite to_int16_id; [lia|].
  unfold is_int16 in *. lia.
Qed.

(** The inner loop from channel index [j] on, with [channels] indices
    left: it stores at most at [sample] and [sample + 1], a value inside
    the sample range each time. *)
Lemma mixChannels_spec (channels j sample : nat) dry wet lValue rValue (samplesData : list Z) :
  (j + channels <= length samplesData)%nat ->
  exists mixed,
    mixChannels K channels j sample dry wet lValue rValue samplesData = Some mixed
    /\ length mixed = length samplesData
    /\ (forall i, (i < j \/ j + channels <= i \/ (i <> sample /\ i <> sample + 1))%nat ->
          mixed !! i = samplesData !! i)
    /\ (forall i v, (j <= i < j + channels)%nat -> (i = sample \/ i = sample + 1)%nat ->
          mixed !! i = Some v -> MIN_SAMPLE_VALUE K <= v <= MAX_SAMPLE_VALUE K).
Proof.
  revert j samplesData. induction channels as [|channels IH]; intros j samplesData Hlen.
  - exists samplesData. cbn [mixChannels]. split; [reflexivity|]. split; [reflexivity|].
    split; [reflexivity|]. intros i v Hi. lia.
  - destruct (lookup_lt_is_Some_2 samplesData j) as [x Hx]; [lia|].
    cbn [mixChannels].
    assert (Hstep : forall value,
              exists mixed,
                mixChannels K channels (S j) sample dry wet lValue rValue
                  (<[j := mixedSample K x dry wet value]> samplesData) = Some mixed
                /\ length mixed = length samplesData
                /\ (forall i, (i < j \/ j + S channels <= i)%nat ->
                      mixed !! i = samplesData !! i)
                /\ (forall i, (i <> sample /\ i <> sample + 1)%nat -> i <> j ->
                      mixed !! i = samplesData !! i)
                /\ (forall i v, (j <= i < j + S channels)%nat ->
                      (i = sample \/ i = sample + 1)%nat ->
                      mixed !! i = Some v -> MIN_SAMPLE_VALUE K <= v <= MAX_SAMPLE_VALUE K)).
    { intros value.
      destruct (IH (S j) (<[j := mixedSample K x dry wet value]> samplesData))
        as (mixed & Hrun & Hl & Hkept & Hin); [rewrite length_insert; lia|].
      exists mixed. split; [exact Hrun|].
      split; [rewrite Hl; apply length_insert|]. split; [|split].
      - intros i Hi. rewrite Hkept by lia. apply list_lookup_insert_ne. lia.
      - intros i Hi Hne. rewrite Hkept by lia. apply list_lookup_insert_ne. lia.
      - intros i v Hi Hwhich Hv. destruct (decide (i = j)) as [->|Hne].
        + rewrite Hkept in Hv by lia.
          rewrite list_lookup_insert_eq in Hv by lia. injection Hv as <-.
          apply mixedSample_range.
        + apply (Hin i v); [lia|exact Hwhich|exact Hv]. }
    destruct (decide (j = sample)) as [Hleft|Hnotleft];
      [|destruct (decide (j = (sample + 1)%nat)) as [Hright|Hnotright]].
    + rewrite Hx. cbn [mbind option_bind].
      destruct (Hstep lValue) as (mixed & Hrun & Hl & Hout & Hother & Hin).
      exists mixed. split; [exact Hrun|]. split; [exact Hl|]. split; [|exact Hin].
      intros i [Hi|[Hi|Hi]]; [apply Hout; lia|apply Hout; lia|apply Hother; lia].
    + rewrite Hx. cbn [mbind option_bind].
      destruct (Hstep rValue) as (mixed & Hrun & Hl & Hout & Hother & Hin).
      exists mixed. split; [exact Hrun|]. split; [exact Hl|]. split; [|exact Hin].
      intros i [Hi|[Hi|Hi]]; [apply Hout; lia|apply Hout; lia|apply Hother; lia].
    + cbn [mbind option_bind].
      destruct (IH (S j) samplesData) as (mixed & Hrun & Hl & Hkept & Hin); [lia|].
      exists mixed. split; [exact Hrun|]. split; [exact Hl|]. split.
      * intros i Hi. apply Hkept. lia.
      * intros i v Hi Hwhich Hv. apply (Hin i v); [lia|exact Hwhich|exact Hv].
Qed.

(** The outer loop from [sample] on, [groups] groups of [channels] samples
    before [numSamples]. *)
Lemma reverbLoop_spec (groups fuel : nat) gverb (sample numSamples channels : Z) dry wet
    (samplesData : list Z) :
  0 < channels -> 0 <= sample ->
  numSamples = sample + Z.of_nat groups * channels ->
  numSamples <= Z.of_nat (length samplesData) ->
  numSamples <= INT_MAX ->
  (groups <= fuel)%nat ->
  exists gverb' reverberated,
    reverbLoop K ty_gverb gverb_do fuel gverb sample numSamples channels dry wet samplesData
    = Some (gverb', reverberated)
    /\ length reverberated = length samplesData
    /\ (forall i, Z.of_nat i < sample \/ numSamples <= Z.of_nat i
                  \/ 2 <= (Z.of_nat i - sample) mod channels ->
          reverberated !! i = samplesData !! i)
    /\ (forall i v, sample <= Z.of_nat i < numSamples ->
          (Z.of_nat i - sample) mod channels < 2 ->
          reverberated !! i = Some v -> MIN_SAMPLE_VALUE K <= v <= MAX_SAMPLE_VALUE K).
Proof.
  intros Hc. revert fuel gverb sample samplesData.
  induction groups as [|groups IH]; intros fuel gverb sample samplesData Hs Hn Hlen Hmax Hfuel.
  - exists gverb, samplesData.
    assert (Hdone : ~ sample < numSamples) by lia.
    destruct fuel; cbn [reverbLoop]; (destruct (decide _); [contradiction|]);
      (split; [reflexivity|]); (split; [reflexivity|]); (split; [reflexivity|]);
      intros i v Hi; lia.
  - destruct fuel as [|fuel]; [lia|].
    assert (Hnext : sample + channels <= numSamples) by nia.
    cbn [reverbLoop].
    destruct (decide (sample < numSamples)) as [_|Hbad]; [|lia].
    destruct (decide (0 <= sample)) as [_|Hbad]; [|lia].
    destruct (lookup_lt_is_Some_2 samplesData (Z.to_nat sample)) as [x Hx]; [lia|].
    rewrite Hx. cbn [mbind option_bind].
    destruct (gverb_do gverb (Float32.of_int x)) as [gverb1 [lValue rValue]].
    destruct (mixChannels_spec (Z.to_nat channels) (Z.to_nat sample) (Z.to_nat sample)
                dry wet lValue rValue samplesData)
      as (mixed & Hrun & Hl & Hkept & Hin); [lia|].
    rewrite Hrun. cbn [mbind option_bind].
    rewrite to_int_id by (unfold is_int, INT_MIN, INT_MAX in *; lia).
    destruct (IH fuel gverb1 (sample + channels) mixed)
      as (gverb' & reverberated & Hrun' & Hl' & Hkept' & Hin'); try lia.
    exists gverb', reverberated. split; [exact Hrun'|].
    split; [rewrite Hl'; exact Hl|]. split.
    + intros i Hi.
      assert (Hshift : (Z.of_nat i - (sample + channels)) mod channels
                       = (Z.of_nat i - sample) mod channels).
      { replace (Z.of_nat i - (sample + channels))
          with (Z.of_nat i - sample + (-1) * channels) by lia.
        apply Z_mod_plus_full. }
      destruct (Z.lt_ge_cases (Z.of_nat i) sample) as [Hlow|Hhigh].
      { rewrite Hkept' by lia. apply Hkept. lia. }
      destruct (Z.lt_ge_cases (Z.of_nat i) (sample + channels)) as [Hhere|Hlater].
      { rewrite Hkept' by lia. apply Hkept.
        destruct Hi as [Hi|[Hi|Hi]]; [lia|lia|].
        rewrite Z.mod_small in Hi by lia. lia. }
      rewrite Hkept' by (rewrite Hshift; lia). apply Hkept. lia.
    + intros i v Hi Hmod Hv.
      destruct (Z.lt_ge_cases (Z.of_nat i) (sample + channels)) as [Hhere|Hlater].
      * rewrite Hkept' in Hv by lia.
        rewrite Z.mod_small in Hmod by lia.
        apply (Hin i v); [lia|lia|exact Hv].
      * apply (Hin' i v); [lia| |exact Hv].
        replace (Z.of_nat i - (sample + channels))
          with (Z.of_nat i - sample + (-1) * channels) by lia.
        rewrite Z_mod_plus_full. exact Hmod.
Qed.

(** X21.  [addReverb] on whole groups of channels: it returns, the array
    keeps its length, the first two samples of every group are replaced by
    values inside the sample range, and the channels above the second and
    the samples from [numSamples] on are left as they were. *)
Theorem reverb_stores_values_inside_the_sample_range
    (wetFraction : Float32.float) (gverb : ty_gverb) (samplesData : list Z)
    (numSamples : Z) (audioFormat : QAudioFormat) (noEcho : bool) (groups : nat) :
  0 < channelCount audioFormat ->
  numSamples = Z.of_nat groups * channelCount audioFormat ->
  numSamples <= Z.of_nat (length samplesData) ->
  numSamples <= INT_MAX ->
  exists gverb' reverberated,
    addReverb K ty_gverb gverb_do wetFraction gverb samplesData numSamples audioFormat noEcho
    = Some (gverb', reverberated)
    /\ length reverberated = length samplesData
    /\ (forall i v, Z.of_nat i < numSamples ->
          Z.of_nat i mod channelCount audioFormat < 2 ->
          reverberated !! i = Some v -> MIN_SAMPLE_VALUE K <= v <= MAX_SAMPLE_VALUE K)
    /\ (forall i, numSamples <= Z.of_nat i \/ 2 <= Z.of_nat i mod channelCount audioFormat ->
          reverberated !! i = samplesData !! i).
Proof.
  intros Hc Hn Hlen Hmax. unfold addReverb.
  destruct (reverbLoop_spec groups (Z.to_nat numSamples) gverb 0 numSamples
              (channelCount audioFormat) (dryFraction wetFraction noEcho) wetFraction
              samplesData) as (gverb' & reverberated & Hrun & Hl & Hkept & Hin);
    try lia.
  { nia. }
  exists gverb', reverberated. split; [exact Hrun|]. split; [exact Hl|]. split.
  - intros i v Hi Hmod Hv. apply (Hin i v); [lia| |exact Hv].
    rewrite Z.sub_0_r. exact Hmod.
  - intros i Hi. apply Hkept. rewrite Z.sub_0_r. lia.
Qed.

End WithGverb.
End ReverbProperties.

(** ** Reverb: example *)

Module ReverbExample.

(** X21 on two stereo groups followed by one more sample, with a reverb
    that returns its input on the left and ten times its input on the right. *)
Lemma reverb_stores_values_inside_the_sample_range_witness :
  let gverb_do := fun (calls : nat) (value : Float32.float) =>
                    (S calls, (value, Float32.mul value (Float32.of_int 10))) in
  exists gverb' reverberated,
    Reverb.addReverb Sample.constants nat gverb_do Reverb.one 0%nat
      [30000; -20000; -30000; 4; 9] 4 (Sample.pcm 24000 2) false
    = Some (gverb', reverberated)
    /\ length reverberated = length [30000; -20000; -30000; 4; 9]%Z
    /\ (forall i v, Z.of_nat i < 4 ->
          Z.of_nat i mod channelCount (Sample.pcm 24000 2) < 2 ->
          reverberated !! i = Some v ->
          MIN_SAMPLE_VALUE Sample.constants <= v <= MAX_SAMPLE_VALUE Sample.constants)
    /\ (forall i, 4 <= Z.of_nat i \/ 2 <= Z.of_nat i mod channelCount (Sample.pcm 24000 2) ->
          reverberated !! i = [30000; -20000; -30000; 4; 9] !! i).
Proof.
  apply (ReverbProperties.reverb_stores_values_inside_the_sample_range Sample.constants nat
           (fun calls value => (S calls, (value, Float32.mul value (Float32.of_int 10))))
           ltac:(vm_compute; discriminate)
           ltac:(vm_compute; split; discriminate)
           ltac:(vm_compute; split; discriminate)
           Reverb.one 0%nat [30000; -20000; -30000; 4; 9] 4 (Sample.pcm 24000 2) false 2%nat).
  - reflexivity.
  - reflexivity.
  - vm_compute. discriminate.
  - vm_compute. discriminate.
Defined.

End ReverbExample.
